(** * dspy-skills: skill lifecycle manager and sandboxed script executor

    A shallow embedding of [parser.py], [models.py], [manager.py],
    [security.py] and the [bash] tool of [agent.py], with the properties
    of the specification stated and proved over it.

    Conventions of the embedding:
    - a Python [str] is the Rocq [string] of its UTF-8 encoding; a
      [pathlib.Path] is the string [str(path)] returns;
    - a function that can raise returns a [result]; the exception classes
      of [errors.py] are the constructors of [exn];
    - the filesystem, [strictyaml], [shutil.which], [os.environ] and
      [subprocess.run] are the fields of a [Host] record: the program is
      verified for every host. The tests [exists()], [is_dir()],
      [is_file()] and the listing [iterdir()] of a host answer: a
      filesystem on which they raise [OSError] (a name too long, a
      directory that cannot be read) is outside the embedding;
    - a field of [LoadedSkill] holds what the constructor is given: the
      annotations of the dataclass are not enforced, and an optional
      front-matter value may be a string, a mapping or a sequence;
    - [LoadedSkill] objects live in a heap and the manager's dictionary
      holds references, so that mutation in place and object identity can
      be stated. *)

From Stdlib Require Import ZArith Ascii String DecimalString.
From stdpp Require Import base option list strings gmap sorting.

Local Open Scope Z_scope.

(** ** Python string primitives *)

Module Py.

(** [str.isspace] on the code points below 128. *)
Definition is_space (c : ascii) : bool :=
  let n := nat_of_ascii c in
  ((9 <=? n) && (n <=? 13) || (28 <=? n) && (n <=? 32))%nat.

(** [str.isspace] above 127. The whitespace characters of two bytes are
    U+0085 and U+00A0. *)
Definition is_space2 (c1 c2 : ascii) : bool :=
  let n1 := nat_of_ascii c1 in
  let n2 := nat_of_ascii c2 in
  ((n1 =? 194) && ((n2 =? 133) || (n2 =? 160)))%nat.

(** Those of three bytes are U+1680, U+2000 to U+200A, U+2028, U+2029,
    U+202F, U+205F and U+3000. *)
Definition is_space3 (c1 c2 c3 : ascii) : bool :=
  let n1 := nat_of_ascii c1 in
  let n2 := nat_of_ascii c2 in
  let n3 := nat_of_ascii c3 in
  ((n1 =? 225) && (n2 =? 154) && (n3 =? 128)
   || (n1 =? 226) && (n2 =? 128) &&
      ((128 <=? n3) && (n3 <=? 138) || (n3 =? 168) || (n3 =? 169) || (n3 =? 175))
   || (n1 =? 226) && (n2 =? 129) && (n3 =? 159)
   || (n1 =? 227) && (n2 =? 128) && (n3 =? 128))%nat.

(** The number of bytes of the whitespace character at the head of [s];
    [0] when [s] does not begin with one. *)
Definition space_len (s : string) : nat :=
  match s with
  | String c1 (String c2 (String c3 _)) =>
      if is_space c1 then 1
      else if is_space2 c1 c2 then 2
      else if is_space3 c1 c2 c3 then 3 else 0
  | String c1 (String c2 EmptyString) =>
      if is_space c1 then 1 else if is_space2 c1 c2 then 2 else 0
  | String c1 EmptyString => if is_space c1 then 1 else 0
  | EmptyString => 0
  end%nat.

(** [s.lstrip()] *)
Fixpoint lstrip (s : string) : string :=
  match s with
  | EmptyString => EmptyString
  | String c1 r1 =>
      if is_space c1 then lstrip r1
      else match r1 with
           | EmptyString => s
           | String c2 r2 =>
               if is_space2 c1 c2 then lstrip r2
               else match r2 with
                    | EmptyString => s
                    | String c3 r3 => if is_space3 c1 c2 c3 then lstrip r3 else s
                    end
           end
  end.

(** [s.rstrip()]: a character goes when all that follows it has gone and
    it is whitespace. *)
Fixpoint rstrip (s : string) : string :=
  match s with
  | EmptyString => EmptyString
  | String c s' =>
      let t := String c (rstrip s') in
      if Nat.eqb (space_len t) (String.length t) then EmptyString else t
  end.

(** [s.strip()] *)
Definition strip (s : string) : string := rstrip (lstrip s).

(** The run being read, if any, as a token; and the run with one more
    byte. *)
Definition flush (cur : option string) : list string := option_list (String.rev <$> cur).
Definition push (c : ascii) (cur : option string) : option string :=
  Some (String c (default EmptyString cur)).

(** [s.split()]: the maximal runs of non-whitespace characters. [cur]
    holds, reversed, the run being read. *)
Fixpoint split_go (cur : option string) (s : string) : list string :=
  match s with
  | EmptyString => flush cur
  | String c1 r1 =>
      if is_space c1 then flush cur ++ split_go None r1
      else match r1 with
           | EmptyString => split_go (push c1 cur) r1
           | String c2 r2 =>
               if is_space2 c1 c2 then flush cur ++ split_go None r2
               else match r2 with
                    | EmptyString => split_go (push c1 cur) r1
                    | String c3 r3 =>
                        if is_space3 c1 c2 c3 then flush cur ++ split_go None r3
                        else split_go (push c1 cur) r1
                    end
           end
  end.

Definition split (s : string) : list string := split_go None s.

(** [s.startswith(p)] *)
Definition startswith (s p : string) : bool := String.prefix p s.

(** [sub in s] *)
Fixpoint contains (sub s : string) : bool :=
  String.prefix sub s ||
  match s with
  | String _ s' => contains sub s'
  | EmptyString => false
  end.

(** [s[n:]] *)
Fixpoint drop (n : nat) (s : string) : string :=
  match n, s with
  | S n', String _ s' => drop n' s'
  | _, _ => s
  end.

(** The text before and after the first occurrence of [sep]. *)
Fixpoint partition (sep s : string) : option (string * string) :=
  if String.prefix sep s then Some (EmptyString, drop (String.length sep) s)
  else match s with
       | String c s' =>
           match partition sep s' with
           | Some (a, b) => Some (String c a, b)
           | None => None
           end
       | EmptyString => None
       end.

(** [s.split(sep, maxsplit)] for a non-empty [sep]. *)
Fixpoint split_sep (sep : string) (maxsplit : nat) (s : string) : list string :=
  match maxsplit with
  | O => [s]
  | S k =>
      match partition sep s with
      | Some (a, b) => a :: split_sep sep k b
      | None => [s]
      end
  end.

(** [s.rpartition(c)] for a single character [c]: the text before and
    after the last [c]; [None] when [s] has no [c]. *)
Fixpoint rpartition (c : ascii) (s : string) : option (string * string) :=
  match s with
  | EmptyString => None
  | String a s' =>
      match rpartition c s' with
      | Some (x, y) => Some (String a x, y)
      | None => if Ascii.eqb a c then Some (EmptyString, s') else None
      end
  end.

(** [s.split(c)[-1]] *)
Definition after_last (c : ascii) (s : string) : string :=
  match rpartition c s with
  | Some (_, y) => y
  | None => s
  end.

Definition lower_char (c : ascii) : ascii :=
  let n := nat_of_ascii c in
  if ((65 <=? n) && (n <=? 90))%nat then ascii_of_nat (n + 32) else c.

(** [s.lower()] on ASCII letters. *)
Fixpoint lower (s : string) : string :=
  match s with
  | EmptyString => EmptyString
  | String c s' => String (lower_char c) (lower s')
  end.

(** [sep.join(ls)] *)
Definition join (sep : string) (ls : list string) : string := String.concat sep ls.

(** [str(n)] for an [int]. *)
Definition str_of_int (n : Z) : string := NilZero.string_of_int (Z.to_int n).

(** [a or b] on an optional integer: [None] and [0] are falsy. *)
Definition int_or (a : option Z) (b : Z) : Z :=
  match a with
  | Some v => if v =? 0 then b else v
  | None => b
  end.

End Py.

(** ** Exceptions ([errors.py]) and results *)

Inductive exn : Type :=
  | ParseError (msg : string)
  | ValidationError (msg : string)
  | SkillNotFoundError (skill_name : string) (available : list string)
  | ResourceNotFoundError (skill_name resource_type filename : string)
  | ExecutionError (script_path reason : string)
  | SecurityError (msg : string)
  | ValueError (msg : string)
  | TypeError (msg : string)      (* raised by the interpreter and by [re] *)
  | AttributeError (msg : string)
  | YAMLError (msg : string)      (* strictyaml.YAMLError *)
  | OSError (msg : string).       (* raised by the host: filesystem, decoding *)

Inductive result (A : Type) : Type :=
  | Ok (a : A)
  | Raise (e : exn).
Arguments Ok {A} a.
Arguments Raise {A} e.

Definition bind {A B : Type} (r : result A) (k : A -> result B) : result B :=
  match r with
  | Ok a => k a
  | Raise e => Raise e
  end.

Notation "'let*' x ':=' r 'in' k" := (bind r (fun x => k))
  (at level 10, x name, r at level 100, k at level 200).

(** [str(e)], as the f-strings of the program print an exception. *)
Definition exn_str (e : exn) : string :=
  match e with
  | ParseError msg | ValidationError msg | SecurityError msg
  | ValueError msg | TypeError msg | AttributeError msg
  | YAMLError msg | OSError msg => msg
  | SkillNotFoundError n avail =>
      "Skill '" +:+ n +:+ "' not found" +:+
      match avail with
      | [] => ""
      | _ => ". Available: " +:+ Py.join ", " avail
      end
  | ResourceNotFoundError s t f =>
      "Resource '" +:+ f +:+ "' not found in " +:+ s +:+ "/" +:+ t +:+ "/"
  | ExecutionError p reason =>
      "Execution of " +:+ p +:+ " failed: " +:+ reason
  end.

(** ** The host: filesystem, libraries and processes *)

(** What [strictyaml.load(...).data] returns: scalars are always [str]. *)
#[warnings="-register-all"]
Inductive yaml : Type :=
  | YStr (s : string)
  | YMap (kvs : list (string * yaml))
  | YSeq (items : list yaml).

(** [d.get(k)] on a mapping given as its items (strictyaml rejects a
    duplicate key, so the keys are distinct). *)
Fixpoint assoc {V : Type} (k : string) (kvs : list (string * V)) : option V :=
  match kvs with
  | [] => None
  | (k', v) :: rest => if String.eqb k k' then Some v else assoc k rest
  end.

(** One call of [subprocess.run]. *)
Record Spawn : Type := mkSpawn {
  sp_cmd : list string;
  sp_cwd : option string;
  sp_env : option (gmap string string);   (* [None]: inherit the caller's *)
  sp_timeout : Z;
}.

Inductive ProcOutcome : Type :=
  | Completed (returncode : Z) (stdout stderr : string)
  | TimeoutExpired
  | FileNotFound (what : string)
  | PermissionDenied (what : string)
  | OtherFailure (what : string).

Record Host : Type := mkHost {
  resolve : string -> result string;       (* Path.resolve() *)
  path_exists : string -> bool;            (* Path.exists() *)
  is_dir : string -> bool;                 (* Path.is_dir() *)
  is_file : string -> bool;                (* Path.is_file() *)
  iterdir : string -> list string;         (* names of the children, in the OS's order *)
  read_text : string -> result string;     (* Path.read_text() *)
  read_first_line : string -> result string;  (* open(p).readline(), in text mode *)
  yaml_load : string -> result yaml;       (* strictyaml.load(s).data; raises YAMLError *)
  py_repr : yaml -> string;                (* str() of a nested mapping or sequence *)
  validate : string -> list string;        (* validator.validate, not part of these sources *)
  environ : gmap string string;            (* os.environ *)
  which : string -> option string;         (* shutil.which *)
  subprocess_run : Spawn -> ProcOutcome;   (* subprocess.run(..., capture_output, text) *)
}.

(** ** Paths *)

(** [base / f]: an absolute [f] replaces [base]. (pathlib also collapses
    [//] and [/./] in the text; the host is given the uncollapsed text,
    which names the same file.) *)
Definition path_join (base f : string) : string :=
  if Py.startswith f "/" then f else base +:+ "/" +:+ f.

(** [Path.name]: the last component. *)
Definition path_name (p : string) : string := Py.after_last "/" p.

(** [Path.suffix]: the text from the last dot of the name, when that dot
    is neither its first nor its last character. *)
Definition path_suffix (p : string) : string :=
  match Py.rpartition "." (path_name p) with
  | Some (pre, post) =>
      if String.eqb pre "" || String.eqb post "" then "" else "." +:+ post
  | None => ""
  end.

(** ** Data model ([models.py]) *)

Inductive SkillState : Type := DISCOVERED | ACTIVATED.

#[global] Instance SkillState_eq_dec : EqDecision SkillState.
Proof. solve_decision. Defined.

(** The dataclass [LoadedSkill]. The three optional fields and
    [metadata] hold the front-matter values [read_skill] passes, which
    nothing checks against the annotations [Optional[str]] and
    [dict[str, str]]. *)
Record LoadedSkill : Type := mkSkill {
  name : string;
  description : string;
  path : string;
  state : SkillState;
  license : option yaml;
  compatibility : option yaml;
  allowed_tools : option yaml;
  metadata : yaml;
  instructions : option string;
}.

(** The truth value of a front-matter value: the empty string, mapping
    and sequence are falsy. *)
Definition truthy (v : yaml) : bool :=
  match v with
  | YStr EmptyString | YMap [] | YSeq [] => false
  | _ => true
  end.

(** [sub in v]: a substring of a [str], a key of a mapping, an item of a
    sequence. *)
Definition py_in (sub : string) (v : yaml) : bool :=
  match v with
  | YStr s => Py.contains sub s
  | YMap kvs => bool_decide (sub ∈ kvs.*1)
  | YSeq items =>
      existsb (fun x => match x with YStr s => String.eqb s sub | _ => false end) items
  end.

Definition subdir_if_present (h : Host) (skill : LoadedSkill) (sub : string) : option string :=
  let d := path_join (path skill) sub in
  if is_dir h d then Some d else None.

Definition scripts_dir (h : Host) (skill : LoadedSkill) : option string :=
  subdir_if_present h skill "scripts".
Definition references_dir (h : Host) (skill : LoadedSkill) : option string :=
  subdir_if_present h skill "references".
Definition assets_dir (h : Host) (skill : LoadedSkill) : option string :=
  subdir_if_present h skill "assets".

(** ** Metadata parser ([parser.py]) *)

Notation "'let*' ' p ':=' r 'in' k" := (bind r (fun p => k))
  (at level 10, p pattern, r at level 100, k at level 200).

(** [str(v)] of a front-matter value. *)
Definition yaml_str (h : Host) (v : yaml) : string :=
  match v with
  | YStr s => s
  | _ => py_repr h v
  end.

Definition find_skill_md (h : Host) (skill_dir : string) : option string :=
  List.find (path_exists h) (path_join skill_dir <$> ["SKILL.md"; "skill.md"]).

(** [{str(k): str(v) for k, v in metadata["metadata"].items()}], stored
    back under the key ["metadata"]. *)
Definition stringify_metadata (h : Host) (kvs : list (string * yaml)) : list (string * yaml) :=
  (fun kv : string * yaml =>
     match kv with
     | (k, YMap m) =>
         if String.eqb k "metadata"
         then (k, YMap ((fun e : string * yaml => (e.1, YStr (yaml_str h e.2))) <$> m))
         else kv
     | _ => kv
     end) <$> kvs.

Definition parse_frontmatter (h : Host) (content : string)
  : result (list (string * yaml) * string) :=
  if negb (Py.startswith content "---") then
    Raise (ParseError "SKILL.md must start with YAML frontmatter (---)")
  else
    match Py.split_sep "---" 2 content with
    | _ :: frontmatter_str :: rest :: _ =>
        let body := Py.strip rest in
        match yaml_load h frontmatter_str with
        | Ok (YMap kvs) => Ok (stringify_metadata h kvs, body)
        | Ok _ => Raise (ParseError "SKILL.md frontmatter must be a YAML mapping")
        | Raise (YAMLError e) => Raise (ParseError ("Invalid YAML in frontmatter: " +:+ e))
        | Raise e => Raise e
        end
    | _ => Raise (ParseError "SKILL.md frontmatter not properly closed with ---")
    end.

(** A non-empty [str]: [isinstance(v, str) and v.strip()]. *)
Definition nonempty_str (v : yaml) : option string :=
  match v with
  | YStr s => if String.eqb (Py.strip s) "" then None else Some s
  | _ => None
  end.

Definition read_skill (h : Host) (skill_dir : string) (load_instructions : bool)
  : result LoadedSkill :=
  let* skill_dir := resolve h skill_dir in
  match find_skill_md h skill_dir with
  | None => Raise (ParseError ("SKILL.md not found in " +:+ skill_dir))
  | Some skill_md =>
      let* content := read_text h skill_md in
      let* '(fm, body) := parse_frontmatter h content in
      match assoc "name" fm, assoc "description" fm with
      | None, _ => Raise (ValidationError "Missing required field in frontmatter: name")
      | _, None => Raise (ValidationError "Missing required field in frontmatter: description")
      | Some vn, Some vd =>
          match nonempty_str vn, nonempty_str vd with
          | None, _ => Raise (ValidationError "Field 'name' must be a non-empty string")
          | _, None => Raise (ValidationError "Field 'description' must be a non-empty string")
          | Some n, Some d =>
              Ok {| name := Py.strip n;
                    description := Py.strip d;
                    path := skill_dir;
                    state := if load_instructions then ACTIVATED else DISCOVERED;
                    license := assoc "license" fm;
                    compatibility := assoc "compatibility" fm;
                    allowed_tools := assoc "allowed-tools" fm;
                    metadata := default (YMap []) (assoc "metadata" fm);
                    instructions := if load_instructions then Some body else None |}
          end
      end
  end.

Definition read_instructions (h : Host) (skill_dir : string) : result string :=
  let* skill_dir := resolve h skill_dir in
  match find_skill_md h skill_dir with
  | None => Raise (ParseError ("SKILL.md not found in " +:+ skill_dir))
  | Some skill_md =>
      let* content := read_text h skill_md in
      let* '(_, body) := parse_frontmatter h content in
      Ok body
  end.

(** ** Skill manager ([manager.py]) *)

(** A reference to a [LoadedSkill] object: its index in the heap. *)
Abbreviation Heap := (list LoadedSkill).

(** [self._skills] is a [dict]: its items in insertion order, with
    distinct keys; the values are references. *)
Record SkillManager : Type := mkManager {
  _skill_dirs : list string;
  _validate_on_load : bool;
  _skills : list (string * nat);
  _active_skill : option string;
}.

(** [SkillManager(skill_dirs, validate_on_load)], [skill_dirs] already
    expanded and resolved. *)
Definition new_manager (skill_dirs : list string) (validate_on_load : bool) : SkillManager :=
  {| _skill_dirs := skill_dirs; _validate_on_load := validate_on_load;
     _skills := []; _active_skill := None |}.

Definition set_skills (m : SkillManager) (d : list (string * nat)) : SkillManager :=
  {| _skill_dirs := _skill_dirs m; _validate_on_load := _validate_on_load m;
     _skills := d; _active_skill := _active_skill m |}.

Definition set_active (m : SkillManager) (a : option string) : SkillManager :=
  {| _skill_dirs := _skill_dirs m; _validate_on_load := _validate_on_load m;
     _skills := _skills m; _active_skill := a |}.

(** [list(self._skills.keys())] *)
Definition skill_names (m : SkillManager) : list string := fst <$> _skills m.

(** [self._skills.get(name)], followed to the object. A reference that
    points outside the heap, which Python cannot build, reads as absent. *)
Definition get_skill (hp : Heap) (m : SkillManager) (nm : string) : option (nat * LoadedSkill) :=
  match assoc nm (_skills m) with
  | Some l => match hp !! l with
              | Some skill => Some (l, skill)
              | None => None
              end
  | None => None
  end.

(** The state of one [discover] pass: the heap, the dictionary being
    rebuilt and the list [discovered]. *)
Definition Scan : Type := (list LoadedSkill * list (string * nat) * list string)%type.

(** The body of the inner loop of [discover], for one child [subdir]. *)
Definition discover_subdir (h : Host) (validate_on_load : bool) (acc : Scan) (subdir : string) : Scan :=
  let '(hp, skills, discovered) := acc in
  if negb (is_dir h subdir) then acc
  else if negb (path_exists h (path_join subdir "SKILL.md"))
          && negb (path_exists h (path_join subdir "skill.md")) then acc
  else if validate_on_load && negb (bool_decide (validate h subdir = [])) then acc
  else
    match read_skill h subdir false with
    | Ok skill =>
        match assoc (name skill) skills with
        | Some _ => acc
        | None => (hp ++ [skill],
                   skills ++ [(name skill, length hp)],
                   discovered ++ [name skill])
        end
    | Raise _ => acc
    end.

(** The body of the outer loop, for one configured directory. *)
Definition discover_dir (h : Host) (validate_on_load : bool) (acc : Scan) (skill_dir : string) : Scan :=
  if negb (path_exists h skill_dir) then acc
  else if negb (is_dir h skill_dir) then acc
  else foldl (discover_subdir h validate_on_load) acc
             (path_join skill_dir <$> iterdir h skill_dir).

Definition discover (h : Host) (hp : Heap) (m : SkillManager)
  : list string * list LoadedSkill * SkillManager :=
  let '(hp', skills, discovered) :=
    foldl (discover_dir h (_validate_on_load m)) (hp, [], []) (_skill_dirs m) in
  (discovered, hp', set_skills m skills).

Definition activated (skill : LoadedSkill) (ins : string) : LoadedSkill :=
  {| name := name skill; description := description skill; path := path skill;
     state := ACTIVATED;
     license := license skill; compatibility := compatibility skill;
     allowed_tools := allowed_tools skill; metadata := metadata skill;
     instructions := Some ins |}.

(** [activate(name)] returns the reference to the activated skill. *)
Definition activate (h : Host) (hp : Heap) (m : SkillManager) (nm : string)
  : result nat * list LoadedSkill * SkillManager :=
  match get_skill hp m nm with
  | None => (Raise (SkillNotFoundError nm (skill_names m)), hp, m)
  | Some (l, skill) =>
      if bool_decide (state skill = ACTIVATED) then
        (Ok l, hp, set_active m (Some nm))
      else
        match read_instructions h (path skill) with
        | Ok ins => (Ok l, <[l := activated skill ins]> hp, set_active m (Some nm))
        | Raise e =>
            (Raise (ValidationError
                      ("Failed to load instructions for skill '" +:+ nm +:+ "': " +:+ exn_str e)),
             hp, m)
        end
  end.

Definition get_active_skill (hp : Heap) (m : SkillManager) : option (nat * LoadedSkill) :=
  match _active_skill m with
  | Some nm => if String.eqb nm "" then None else get_skill hp m nm
  | None => None
  end.

Definition get_resource_path (h : Host) (hp : Heap) (m : SkillManager)
    (skill_name resource_type filename : string) : result string :=
  match get_skill hp m skill_name with
  | None => Raise (SkillNotFoundError skill_name (skill_names m))
  | Some (_, skill) =>
      let* base_dir :=
        if String.eqb resource_type "scripts" then Ok (scripts_dir h skill)
        else if String.eqb resource_type "references" then Ok (references_dir h skill)
        else if String.eqb resource_type "assets" then Ok (assets_dir h skill)
        else Raise (ValueError ("Invalid resource_type '" +:+ resource_type +:+
                                "'. Must be 'scripts', 'references', or 'assets'.")) in
      match base_dir with
      | None => Raise (ResourceNotFoundError skill_name resource_type filename)
      | Some base_dir =>
          let resource_path := path_join base_dir filename in
          let checked :=
            let* resource_path := resolve h resource_path in
            let* base_dir_resolved := resolve h base_dir in
            if negb (Py.startswith resource_path base_dir_resolved)
            then Raise (ResourceNotFoundError skill_name resource_type filename)
            else Ok resource_path in
          match checked with
          | Raise _ => Raise (ResourceNotFoundError skill_name resource_type filename)
          | Ok resource_path =>
              if negb (path_exists h resource_path)
              then Raise (ResourceNotFoundError skill_name resource_type filename)
              else Ok resource_path
          end
      end
  end.

(** ** Script executor ([security.py]) *)

Record ExecutionResult : Type := mkResult {
  returncode : Z;
  stdout : string;
  stderr : string;
  timed_out : bool;
}.

Record ScriptExecutor : Type := mkExecutor {
  sandbox_mode : bool;
  allowed_interpreters : list string;
  timeout : Z;
  allow_network : bool;
  allow_filesystem_write : bool;
  _has_firejail : bool;
}.

Definition default_interpreters : list string :=
  ["python3"; "python"; "bash"; "sh"; "node"].

(** [ScriptExecutor(...)]: a missing or empty allowlist takes the default,
    and the presence of firejail is probed once. *)
Definition new_executor (h : Host) (sandbox : bool) (allowed : option (list string))
    (tmo : Z) (net fs_write : bool) : ScriptExecutor :=
  {| sandbox_mode := sandbox;
     allowed_interpreters :=
       match allowed with
       | Some (i :: l) => i :: l
       | _ => default_interpreters
       end;
     timeout := tmo;
     allow_network := net;
     allow_filesystem_write := fs_write;
     _has_firejail := bool_decide (is_Some (which h "firejail")) |}.

Definition interpreter_map : list (string * string) :=
  [(".py", "python3"); (".sh", "bash"); (".bash", "bash"); (".js", "node")].

(** The interpreter a shebang line names, if any. *)
Definition shebang_interpreter (first_line : string) : option string :=
  if Py.startswith first_line "#!" then
    match Py.split (Py.strip (Py.drop 2 first_line)) with
    | [] => None
    | part0 :: rest =>
        if Py.contains "env" part0 then
          match rest with
          | part1 :: _ => Some part1
          | [] => None
          end
        else Some (Py.after_last "/" part0)
    end
  else None.

(** The first half of [_get_interpreter]: the extension table, then the
    shebang; an empty name counts as none ([if not interpreter]). *)
Definition detect_interpreter (h : Host) (script_path : string) : option string :=
  let suffix := Py.lower (path_suffix script_path) in
  let interpreter :=
    match assoc suffix interpreter_map with
    | Some i => Some i
    | None =>
        match read_first_line h script_path with
        | Ok first_line => shebang_interpreter first_line
        | Raise _ => None
        end
    end in
  match interpreter with
  | Some i => if String.eqb i "" then None else Some i
  | None => None
  end.

Definition normalize_interpreter (interpreter : string) : string :=
  if Py.startswith interpreter "python"
  then (if Py.contains "3" interpreter then "python3" else "python")
  else interpreter.

Definition not_allowed_msg (ex : ScriptExecutor) (interpreter : string) : string :=
  "Interpreter '" +:+ interpreter +:+ "' not allowed. Allowed: " +:+
  Py.join ", " (allowed_interpreters ex).

Definition _get_interpreter (h : Host) (ex : ScriptExecutor) (script_path : string)
  : result string :=
  match detect_interpreter h script_path with
  | None =>
      Raise (SecurityError
               ("Could not determine interpreter for " +:+ script_path +:+
                ". Supported extensions: ['.py', '.sh', '.bash', '.js']"))
  | Some interpreter =>
      let interpreter := normalize_interpreter interpreter in
      if negb (bool_decide (interpreter ∈ allowed_interpreters ex))
      then Raise (SecurityError (not_allowed_msg ex interpreter))
      else Ok interpreter
  end.

Definition _validate_script_path (h : Host) (script_path skill_dir : string) : result unit :=
  let checked :=
    let* script_resolved := resolve h script_path in
    let* skill_resolved := resolve h skill_dir in
    if negb (Py.startswith script_resolved (skill_resolved +:+ "/"))
       && negb (String.eqb script_resolved skill_resolved)
    then Raise (SecurityError ("Script path '" +:+ script_path +:+ "' is outside skill directory"))
    else Ok tt in
  match checked with
  | Raise (SecurityError msg) => Raise (SecurityError msg)
  | Raise e => Raise (SecurityError ("Invalid script path: " +:+ exn_str e))
  | Ok _ => Ok tt
  end.

Definition _build_command (h : Host) (ex : ScriptExecutor)
    (interpreter script_path : string) (arguments : list string) (working_dir : string)
  : list string :=
  let cmd :=
    if sandbox_mode ex && _has_firejail ex then
      ["firejail"; "--quiet"; "--noprofile"]
      ++ (if negb (allow_network ex) then ["--net=none"] else [])
      ++ (if negb (allow_filesystem_write ex)
          then ["--read-only=/"; "--whitelist=" +:+ working_dir] else [])
      ++ ["--"]
    else [] in
  let interpreter_path := default interpreter (which h interpreter) in
  cmd ++ [interpreter_path; script_path] ++ arguments.

Definition _get_restricted_env (h : Host) (working_dir : string) : gmap string string :=
  let env : gmap string string :=
    <["PWD" := working_dir]>
      (<["LC_ALL" := default "en_US.UTF-8" (environ h !! "LC_ALL")]>
         (<["LANG" := default "en_US.UTF-8" (environ h !! "LANG")]>
            (<["HOME" := default "/tmp" (environ h !! "HOME")]>
               {["PATH" := "/usr/bin:/bin:/usr/local/bin"]}))) in
  let env :=
    match environ h !! "VIRTUAL_ENV" with
    | Some venv =>
        <["PATH" := venv +:+ "/bin:" +:+ (env !!! "PATH")]>
          (<["VIRTUAL_ENV" := venv]> env)
    | None => env
    end in
  <["PYTHONPATH" := working_dir]> env.

Definition run (h : Host) (ex : ScriptExecutor)
    (script_path : string) (arguments : list string) (working_dir : string)
    (tmo : option Z) : result ExecutionResult :=
  let tmo := Py.int_or tmo (timeout ex) in
  let* _ := _validate_script_path h script_path working_dir in
  let* interpreter := _get_interpreter h ex script_path in
  if negb (path_exists h script_path) then
    Raise (ExecutionError script_path "Script file does not exist")
  else if negb (is_file h script_path) then
    Raise (ExecutionError script_path "Script path is not a file")
  else
    let cmd := _build_command h ex interpreter script_path arguments working_dir in
    let env := _get_restricted_env h working_dir in
    match subprocess_run h (mkSpawn cmd (Some working_dir) (Some env) tmo) with
    | Completed rc out err => Ok (mkResult rc out err false)
    | TimeoutExpired =>
        Ok (mkResult (-1) ""
              ("Script timed out after " +:+ Py.str_of_int tmo +:+ " seconds") true)
    | FileNotFound e => Raise (ExecutionError script_path ("Interpreter not found: " +:+ e))
    | PermissionDenied e => Raise (ExecutionError script_path ("Permission denied: " +:+ e))
    | OtherFailure e => Raise (ExecutionError script_path e)
    end.

Definition refuse_network : string :=
  "Error: Network access is disabled but firejail is not installed " +:+
  "to enforce it. Install firejail or set allow_network=True.".

Definition refuse_filesystem : string :=
  "Error: Filesystem write is disabled but firejail is not installed " +:+
  "to enforce it. Install firejail or set allow_filesystem_write=True.".

Definition nl : string := String "010" EmptyString.

(** [run_command] returns its text together with the child processes it
    started, in order. *)
Definition run_command (h : Host) (ex : ScriptExecutor) (command : string) (tmo : option Z)
  : string * list Spawn :=
  let tmo := Py.int_or tmo (timeout ex) in
  let execute : string * list Spawn :=
    let cmd :=
      (if sandbox_mode ex && _has_firejail ex then
         ["firejail"; "--quiet"; "--noprofile"]
         ++ (if negb (allow_network ex) then ["--net=none"] else [])
         ++ (if negb (allow_filesystem_write ex) then ["--read-only=/"] else [])
         ++ ["--"]
       else [])
      ++ ["bash"; "-c"; command] in
    let child := mkSpawn cmd None None tmo in
    (match subprocess_run h child with
     | Completed rc out err =>
         let output := out in
         let output := if String.eqb err "" then output else output +:+ nl +:+ err in
         let output :=
           if rc =? 0 then output
           else output +:+ nl +:+ "[Exit code: " +:+ Py.str_of_int rc +:+ "]" in
         if String.eqb (Py.strip output) "" then "(no output)" else Py.strip output
     | TimeoutExpired => "Error: Command timed out after " +:+ Py.str_of_int tmo +:+ " seconds"
     | FileNotFound e | PermissionDenied e | OtherFailure e => "Error: " +:+ e
     end, [child]) in
  if sandbox_mode ex then
    if negb (allow_network ex) && negb (_has_firejail ex) then (refuse_network, [])
    else if negb (allow_filesystem_write ex) && negb (_has_firejail ex) then (refuse_filesystem, [])
    else execute
  else execute.

(** ** The bash tool ([agent.py]) *)

(** The longest run of characters other than [:] at the head of [s], and
    what follows it. *)
Fixpoint span_not_colon (s : string) : string * string :=
  match s with
  | EmptyString => (EmptyString, EmptyString)
  | String c rest =>
      if Ascii.eqb c ":" then (EmptyString, s)
      else let '(g, r) := span_not_colon rest in (String c g, r)
  end.

(** A match of [Bash\(([^:]+):\*\)] at the head of [s]: its group. The
    class [[^:]] cannot step over a colon, so the only candidate for the
    group is the whole run up to the first colon. *)
Definition bash_pattern_match (s : string) : option string :=
  if Py.startswith s "Bash(" then
    let '(g, r) := span_not_colon (Py.drop 5 s) in
    if String.eqb g "" then None
    else if Py.startswith r ":*)" then Some g else None
  else None.

(** [bash_pattern.findall(s)]: the groups of the non-overlapping matches,
    leftmost first; [skip] counts the characters of the last match still
    to be stepped over. *)
Fixpoint findall_go (skip : nat) (s : string) : list string :=
  match s with
  | EmptyString => []
  | String _ rest =>
      match skip with
      | S k => findall_go k rest
      | O =>
          match bash_pattern_match s with
          | Some g => g :: findall_go (String.length g + 7) rest
          | None => findall_go 0 rest
          end
      end
  end.

Definition bash_pattern_findall (s : string) : list string := findall_go 0 s.

(** [sorted(set(l))] *)
Definition sorted_set (l : list string) : list string :=
  merge_sort String.le (remove_dups l).

Definition _any_skill_needs_bash (hp : Heap) (m : SkillManager) : bool :=
  existsb (fun e : string * nat =>
             match hp !! e.2 with
             | Some skill =>
                 match allowed_tools skill with
                 | Some t => truthy t && py_in "Bash(" t
                 | None => false
                 end
             | None => false
             end) (_skills m).

(** The closure [bash] of [_create_bash_tool], run against the manager's
    state at the time of the call: what it returns or raises, and the
    child processes started. [bash_pattern.findall] raises [TypeError] on
    a value that is not a [str] (the text of the message is CPython's,
    which from 3.11 on also names the type). *)
Definition bash (h : Host) (ex : ScriptExecutor) (hp : Heap) (m : SkillManager)
    (command : string) : result string * list Spawn :=
  match get_active_skill hp m with
  | None => (Ok "Error: No skill is active. Activate a skill first.", [])
  | Some (_, active_skill) =>
      match allowed_tools active_skill with
      | None =>
          (Ok ("Error: Skill '" +:+ name active_skill +:+
               "' does not declare any allowed-tools."), [])
      | Some v =>
          if negb (truthy v) then
            (Ok ("Error: Skill '" +:+ name active_skill +:+
                 "' does not declare any allowed-tools."), [])
          else
            match v with
            | YStr tools =>
                let allowed_commands := bash_pattern_findall tools in
                match allowed_commands with
                | [] =>
                    (Ok ("Error: Skill '" +:+ name active_skill +:+
                         "' does not allow any bash commands."), [])
                | _ =>
                    match Py.split (Py.strip command) with
                    | [] => (Ok "Error: Empty command", [])
                    | base_cmd :: _ =>
                        if negb (bool_decide (base_cmd ∈ allowed_commands)) then
                          (Ok ("Error: Command '" +:+ base_cmd +:+
                               "' is not allowed by skill '" +:+
                               name active_skill +:+ "'. Allowed commands: " +:+
                               Py.join ", " (sorted_set allowed_commands)), [])
                        else
                          let '(text, children) := run_command h ex command None in
                          (Ok text, children)
                    end
                end
            | _ => (Raise (TypeError "expected string or bytes-like object"), [])
            end
      end
  end.

(** [_create_bash_tool]: the tool exists when some discovered skill
    mentions [Bash(] in its allowed-tools. *)
Definition _create_bash_tool (h : Host) (ex : ScriptExecutor) (hp : Heap) (m : SkillManager)
  : option (list LoadedSkill -> SkillManager -> string -> result string * list Spawn) :=
  if negb (_any_skill_needs_bash hp m) then None
  else Some (bash h ex).

(** ** A concrete host, for running the program on examples *)

Module Demo.

(** [s.split(c)] for a single character. *)
Fixpoint split_char (c : ascii) (s : string) : list string :=
  match s with
  | EmptyString => [EmptyString]
  | String a rest =>
      if Ascii.eqb a c then EmptyString :: split_char c rest
      else match split_char c rest with
           | w :: ws => String a w :: ws
           | [] => [String a EmptyString]
           end
  end.

(** [Path.resolve()] on a filesystem without symbolic links: [.] and
    empty components go, [..] removes the component before it. *)
Definition lexical_resolve (p : string) : string :=
  let step (stack : list string) (seg : string) : list string :=
    if String.eqb seg "" || String.eqb seg "." then stack
    else if String.eqb seg ".." then removelast stack
    else stack ++ [seg] in
  "/" +:+ Py.join "/" (foldl step [] (split_char "/" p)).

(** The first line of a text, its terminator ([\n], [\r] or [\r\n])
    read as [\n], as text mode does. *)
Fixpoint readline (content : string) : string :=
  match content with
  | EmptyString => EmptyString
  | String c rest =>
      if Ascii.eqb c "010" || Ascii.eqb c "013" then String "010" EmptyString
      else String c (readline rest)
  end.

(** The name of [entry] when it is a direct child of [dir]. *)
Definition child_name (dir entry : string) : option string :=
  if Py.startswith entry (dir +:+ "/") then
    let r := Py.drop (String.length dir + 1) entry in
    if String.eqb r "" || Py.contains "/" r then None else Some r
  else None.

(** A host over a fixed tree: [dirs] are the directories, [files] the
    regular files with their text, [docs] the front matters strictyaml
    accepts with the data it returns. *)
Definition host (dirs : list string) (files : list (string * string))
    (docs : list (string * yaml)) (env : gmap string string)
    (bins : list (string * string)) (proc : Spawn -> ProcOutcome) : Host :=
  {| resolve := fun p => Ok (lexical_resolve p);
     path_exists := fun p =>
       let q := lexical_resolve p in
       bool_decide (q ∈ dirs) || bool_decide (q ∈ files.*1);
     is_dir := fun p => bool_decide (lexical_resolve p ∈ dirs);
     is_file := fun p => bool_decide (lexical_resolve p ∈ files.*1);
     iterdir := fun d => omap (child_name (lexical_resolve d)) (dirs ++ files.*1);
     read_text := fun p =>
       match assoc (lexical_resolve p) files with
       | Some text => Ok text
       | None => Raise (OSError "No such file or directory")
       end;
     read_first_line := fun p =>
       match assoc (lexical_resolve p) files with
       | Some text => Ok (readline text)
       | None => Raise (OSError "No such file or directory")
       end;
     yaml_load := fun s =>
       match assoc s docs with
       | Some v => Ok v
       | None => Raise (YAMLError "not a document of this host")
       end;
     py_repr := fun _ => "";
     validate := fun _ => [];
     environ := env;
     which := fun b => assoc b bins;
     subprocess_run := proc |}.

Definition front_matter (nm desc tools : string) : string :=
  nl +:+ "name: " +:+ nm +:+ nl +:+ "description: " +:+ desc +:+ nl +:+
  "allowed-tools: " +:+ tools +:+ nl.

Definition skill_md (nm desc tools body : string) : string :=
  "---" +:+ front_matter nm desc tools +:+ "---" +:+ nl +:+ body +:+ nl.

Definition doc (nm desc tools : string) : string * yaml :=
  (front_matter nm desc tools,
   YMap [("name", YStr nm); ("description", YStr desc); ("allowed-tools", YStr tools)]).

(** One skill, [demo], with a [scripts] directory and a sibling
    directory whose name extends it. *)
Definition dirs1 : list string :=
  ["/skills"; "/skills/demo"; "/skills/demo/scripts"; "/skills/demo/scripts_private"].

Definition files1 : list (string * string) :=
  [("/skills/demo/SKILL.md", skill_md "demo" "A demo skill" "Bash(nmap:*)" "# Demo");
   ("/skills/demo/scripts/slow.py", "import time");
   ("/skills/demo/scripts/tool", "#!/usr/bin/env ruby" +:+ nl +:+ "puts 1");
   ("/skills/demo/scripts/legacy", "#!/usr/bin/python2.7 -u" +:+ nl);
   ("/skills/demo/scripts/notes", "plain text");
   ("/skills/demo/scripts_private/token.txt", "secret")].

Definition host1 (env : gmap string string) (proc : Spawn -> ProcOutcome) : Host :=
  host dirs1 files1 [doc "demo" "A demo skill" "Bash(nmap:*)"] env [] proc.

Definition echo (sp : Spawn) : ProcOutcome := Completed 0 "ok" "".
Definition never_ends (sp : Spawn) : ProcOutcome := TimeoutExpired.

(** Two configured roots, each with a skill that declares [name: dup]. *)
Definition dirs2 : list string := ["/a"; "/a/one"; "/b"; "/b/two"].

Definition files2 : list (string * string) :=
  [("/a/one/SKILL.md", skill_md "dup" "first" "" "# One");
   ("/b/two/SKILL.md", skill_md "dup" "second" "" "# Two")].

Definition host2 : Host :=
  host dirs2 files2 [doc "dup" "first" ""; doc "dup" "second" ""] ∅ [] echo.





(** A skill whose description holds three dashes. The program hands
    strictyaml the front matter up to these dashes; the whole block is a
    mapping too. *)
Definition dashes_block : string :=
  nl +:+ "name: demo" +:+ nl +:+ "description: Convert notes --- fast" +:+ nl.

Definition dashes_md : string := "---" +:+ dashes_block +:+ "---" +:+ nl +:+ "# Demo" +:+ nl.

Definition dirs4 : list string := ["/skills"; "/skills/demo"].

Definition host4 : Host :=
  host dirs4 [("/skills/demo/SKILL.md", dashes_md)]
    [(nl +:+ "name: demo" +:+ nl +:+ "description: Convert notes ",
      YMap [("name", YStr "demo"); ("description", YStr "Convert notes")]);
     (dashes_block,
      YMap [("name", YStr "demo"); ("description", YStr "Convert notes --- fast")])]
    ∅ [] echo.

End Demo.

(** ** Notions the properties are stated with *)

(** A continuation byte of UTF-8. *)
Definition cont (c : ascii) : bool :=
  ((128 <=? nat_of_ascii c) && (nat_of_ascii c <=? 191))%nat.

(** A text that is empty or begins where a character begins. *)
Definition starts_clean (z : string) : Prop :=
  match z with
  | EmptyString => True
  | String d _ => cont d = false
  end.

(** The whitespace characters of Python ([str.isspace]), each as its
    UTF-8 encoding. *)
Definition whitespace_chars : list string :=
  [String "009" ""; String "010" ""; String "011" ""; String "012" ""; String "013" "";
   String "028" ""; String "029" ""; String "030" ""; String "031" ""; String "032" "";
   String "194" (String "133" "");                     (* U+0085 *)
   String "194" (String "160" "");                     (* U+00A0 *)
   String "225" (String "154" (String "128" ""));      (* U+1680 *)
   String "226" (String "128" (String "128" ""));      (* U+2000 *)
   String "226" (String "128" (String "129" ""));
   String "226" (String "128" (String "130" ""));
   String "226" (String "128" (String "131" ""));
   String "226" (String "128" (String "132" ""));
   String "226" (String "128" (String "133" ""));
   String "226" (String "128" (String "134" ""));
   String "226" (String "128" (String "135" ""));
   String "226" (String "128" (String "136" ""));
   String "226" (String "128" (String "137" ""));
   String "226" (String "128" (String "138" ""));      (* U+200A *)
   String "226" (String "128" (String "168" ""));      (* U+2028 *)
   String "226" (String "128" (String "169" ""));      (* U+2029 *)
   String "226" (String "128" (String "175" ""));      (* U+202F *)
   String "226" (String "129" (String "159" ""));      (* U+205F *)
   String "227" (String "128" (String "128" ""))].     (* U+3000 *)

(** A text made of whitespace characters only. *)
Inductive blank : string -> Prop :=
  | blank_nil : blank ""
  | blank_cons (w z : string) : w ∈ whitespace_chars -> blank z -> blank (w +:+ z).

(** A text with no whitespace character at either end. *)
Definition trimmed (b : string) : Prop :=
  forall w : string, w ∈ whitespace_chars ->
    (forall r, b <> w +:+ r) /\ (forall a, b <> a +:+ w).

(** A text in which no whitespace character occurs. *)
Definition spaceless (t : string) : Prop :=
  forall (a w r : string), w ∈ whitespace_chars -> t <> a +:+ w +:+ r.

(** The layout of a definition file, in the words of the specification:
    a line [---], a mapping block, a closing line [---], then the body.
    [closing_line ls] cuts the lines after the opening one at the first
    line [---]: the block before it and the lines of the body. *)
Fixpoint closing_line (ls : list string) : option (list string * list string) :=
  match ls with
  | [] => None
  | l :: rest =>
      if String.eqb l "---" then Some ([], rest)
      else match closing_line rest with
           | Some (block, body) => Some (l :: block, body)
           | None => None
           end
  end.

(** The front-matter block and the body text of a definition file. *)
Definition file_layout (content : string) : option (string * string) :=
  match Demo.split_char "010" content with
  | first :: rest =>
      if String.eqb first "---" then
        match closing_line rest with
        | Some (block, body) => Some (Py.join nl block, Py.join nl body)
        | None => None
        end
      else None
  | [] => None
  end.

(** In a definition file [--- fm --- rest] the closing delimiter is the
    first [---] after the opening one: no occurrence starts inside [fm]. *)
Definition closes_first (fm rest : string) : Prop :=
  forall a b : string,
    fm +:+ "---" +:+ rest = a +:+ "---" +:+ b ->
    (String.length fm <= String.length a)%nat.

(** The environment of six variables: the fixed [PATH], [HOME], [LANG]
    and [LC_ALL] inherited or defaulted, [PWD] and [PYTHONPATH] set to the
    working directory. *)
Definition minimal_env (h : Host) (working_dir : string) : gmap string string :=
  <["PATH" := "/usr/bin:/bin:/usr/local/bin"]>
    (<["HOME" := default "/tmp" (environ h !! "HOME")]>
       (<["LANG" := default "en_US.UTF-8" (environ h !! "LANG")]>
          (<["LC_ALL" := default "en_US.UTF-8" (environ h !! "LC_ALL")]>
             (<["PWD" := working_dir]>
                {["PYTHONPATH" := working_dir]})))).

(** The bash tool accepts [command]: a skill is active, its allowed-tools
    declare at least one Bash pattern (the word Bash and, in parentheses,
    a prefix, a colon and a star), and the first whitespace-delimited token
    of the command is one of the declared prefixes. *)
Definition bash_permitted (hp : Heap) (m : SkillManager) (command : string) : Prop :=
  exists (l : nat) (skill : LoadedSkill) (tools tok : string) (rest : list string),
    get_active_skill hp m = Some (l, skill) /\
    allowed_tools skill = Some (YStr tools) /\
    bash_pattern_findall tools <> [] /\
    Py.split command = tok :: rest /\
    tok ∈ bash_pattern_findall tools.


(** [p] is [base] or lies below it: containment on whole path components,
    as [_validate_script_path] tests it. *)
Definition path_within (p base : string) : bool :=
  String.eqb p base || Py.startswith p (base +:+ "/").

(** The fields of a skill that activation must leave alone. *)
Definition same_metadata (s s' : LoadedSkill) : Prop :=
  name s' = name s /\ description s' = description s /\ path s' = path s /\
  license s' = license s /\ compatibility s' = compatibility s /\
  allowed_tools s' = allowed_tools s /\ metadata s' = metadata s.

(** The children of the configured directories, in the order [discover]
    visits them. *)
Definition scanned (h : Host) (m : SkillManager) : list string :=
  concat ((fun d => path_join d <$> iterdir h d) <$>
          filter (fun d => path_exists h d && is_dir h d = true) (_skill_dirs m)).

(** A candidate: a subdirectory that holds a definition file. *)
Definition is_candidate (h : Host) (subdir : string) : bool :=
  is_dir h subdir &&
  (path_exists h (path_join subdir "SKILL.md") || path_exists h (path_join subdir "skill.md")).

Definition candidates (h : Host) (m : SkillManager) : list string :=
  filter (fun c => is_candidate h c = true) (scanned h m).

(** The skill a directory declares, when it can be read. *)
Definition declares (h : Host) (subdir : string) : option LoadedSkill :=
  match read_skill h subdir false with
  | Ok skill => Some skill
  | Raise _ => None
  end.

(** The skills the candidates declare, in scan order. *)
Definition declared (h : Host) (m : SkillManager) : list LoadedSkill :=
  omap (declares h) (candidates h m).

(** The first skill of a list with a given name. *)
Definition first_named (nm : string) (skills : list LoadedSkill) : option LoadedSkill :=
  List.find (fun s => String.eqb (name s) nm) skills.

(** What the [try] block of [discover] does with a skill it has read:
    a name already bound is skipped, a new one is bound to a new object. *)
Definition accept (acc : Scan) (skill : LoadedSkill) : Scan :=
  let '(hp, skills, discovered) := acc in
  match assoc (name skill) skills with
  | Some _ => acc
  | None => (hp ++ [skill], skills ++ [(name skill, length hp)], discovered ++ [name skill])
  end.

(** The skill [discover] reads from a child, if it gets that far: the
    child is a candidate, passes validation when that is on, and loads. *)
Definition loadable (h : Host) (validate_on_load : bool) (subdir : string) : option LoadedSkill :=
  if is_candidate h subdir
     && (negb validate_on_load || bool_decide (validate h subdir = []))
  then declares h subdir
  else None.

(** The invariant of a [discover] pass that started on the heap [hp0] and
    has read the skills [L]: the dictionary's keys are the names
    discovered, without repetition; the heap has only grown; every
    reference is to an object created in this pass; and a name is bound to
    the first skill of [L] that carries it. *)
Definition scan_ok (hp0 : Heap) (L : list LoadedSkill) (acc : Scan) : Prop :=
  let '(hp, skills, discovered) := acc in
  skills.*1 = discovered /\
  NoDup discovered /\
  (exists ext, hp = hp0 ++ ext) /\
  (forall n l, assoc n skills = Some l -> (length hp0 <= l < length hp)%nat) /\
  (forall n, assoc n skills ≫= (hp !!.) = first_named n L).

(** ** More of the program: listings, the script tool, the prompt block *)

(** The names of a list of skills in the order of their first
    occurrence: what a pass that binds each new name once returns. *)
Definition first_names (L : list LoadedSkill) : list string :=
  foldl (fun names s => if bool_decide (name s ∈ names) then names else names ++ [name s])
        [] L.

(** A text that does not begin with a whitespace character. *)
Definition head_ok (s : string) : Prop := Py.space_len s = 0%nat.

(** The host's strictyaml raises nothing but [YAMLError]. *)
Definition yaml_raises_yaml_errors (h : Host) : Prop :=
  forall (s : string) (e : exn), yaml_load h s = Raise e -> exists msg, e = YAMLError msg.

(** [Path.resolve()] returns a path that resolves to itself. *)
Definition resolve_idempotent (h : Host) : Prop :=
  forall p q : string, resolve h p = Ok q -> resolve h q = Ok q.

(** A host like [Demo.host] whose paths are taken as they are: every
    path is its own resolved form. *)
Definition plain_host (dirs : list string) (files : list (string * string))
    (docs : list (string * yaml)) (proc : Spawn -> ProcOutcome) : Host :=
  {| resolve := fun p => Ok p;
     path_exists := fun p => bool_decide (p ∈ dirs) || bool_decide (p ∈ files.*1);
     is_dir := fun p => bool_decide (p ∈ dirs);
     is_file := fun p => bool_decide (p ∈ files.*1);
     iterdir := fun d => omap (Demo.child_name d) (dirs ++ files.*1);
     read_text := fun p =>
       match assoc p files with
       | Some text => Ok text
       | None => Raise (OSError "No such file or directory")
       end;
     read_first_line := fun p =>
       match assoc p files with
       | Some text => Ok (Demo.readline text)
       | None => Raise (OSError "No such file or directory")
       end;
     yaml_load := fun s =>
       match assoc s docs with
       | Some v => Ok v
       | None => Raise (YAMLError "not a document of this host")
       end;
     py_repr := fun _ => "";
     validate := fun _ => [];
     environ := ∅;
     which := fun _ => None;
     subprocess_run := proc |}.

(** The tree of [Demo.host2] on a plain host. *)
Definition plain2 : Host :=
  plain_host Demo.dirs2 Demo.files2
    [Demo.doc "dup" "first" ""; Demo.doc "dup" "second" ""] Demo.echo.

(** The three resource types. *)
Definition resource_types : list string := ["scripts"; "references"; "assets"].

(** The part of [get_resource_path] that follows the choice of the
    resource directory [base_dir]. *)
Definition resource_in (h : Host) (base_dir skill_name resource_type filename : string)
  : result string :=
  let checked :=
    let* resource_path := resolve h (path_join base_dir filename) in
    let* base_dir_resolved := resolve h base_dir in
    if negb (Py.startswith resource_path base_dir_resolved)
    then Raise (ResourceNotFoundError skill_name resource_type filename)
    else Ok resource_path in
  match checked with
  | Raise _ => Raise (ResourceNotFoundError skill_name resource_type filename)
  | Ok resource_path =>
      if negb (path_exists h resource_path)
      then Raise (ResourceNotFoundError skill_name resource_type filename)
      else Ok resource_path
  end.

(** What [run] makes of the outcome of the child. *)
Definition collect (script_path : string) (tmo : Z) (o : ProcOutcome) : result ExecutionResult :=
  match o with
  | Completed rc out err => Ok (mkResult rc out err false)
  | TimeoutExpired =>
      Ok (mkResult (-1) ""
            ("Script timed out after " +:+ Py.str_of_int tmo +:+ " seconds") true)
  | FileNotFound e => Raise (ExecutionError script_path ("Interpreter not found: " +:+ e))
  | PermissionDenied e => Raise (ExecutionError script_path ("Permission denied: " +:+ e))
  | OtherFailure e => Raise (ExecutionError script_path e)
  end.

(** A child that fails: return code 2 and a line on stderr. *)
Definition fails (sp : Spawn) : ProcOutcome := Completed 2 "" "boom".

(** The declaration of one command prefix in allowed-tools. *)
Definition bash_declaration (p : string) : string := "Bash(" +:+ p +:+ ":*)".

(** *** Listings ([manager.py]) *)

(** [list_skills()]: the objects of the dictionary, in its order. *)
Definition list_skills (hp : Heap) (m : SkillManager) : list LoadedSkill :=
  omap (fun e : string * nat => hp !! e.2) (_skills m).

(** [[f.name for f in d.iterdir() if f.is_file()]], and the empty list
    when the directory is absent. *)
Definition file_names (h : Host) (dir : option string) : list string :=
  match dir with
  | None => []
  | Some d => filter (fun f => is_file h (path_join d f) = true) (iterdir h d)
  end.

Definition list_scripts (h : Host) (hp : Heap) (m : SkillManager) (skill_name : string)
  : result (list string) :=
  match get_skill hp m skill_name with
  | None => Raise (SkillNotFoundError skill_name (skill_names m))
  | Some (_, skill) => Ok (file_names h (scripts_dir h skill))
  end.

(** *** The tool [run_skill_script] ([tools/run_script.py]) *)

(** [', '.join(l) if l else 'none'] *)
Definition join_or_none (l : list string) : string :=
  match l with
  | [] => "none"
  | _ => Py.join ", " l
  end.

(** The text the tool makes of a result of [run]. *)
Definition script_response (ex : ScriptExecutor) (r : ExecutionResult) : string :=
  if timed_out r then
    "Error: Script timed out after " +:+ Py.str_of_int (timeout ex) +:+ " seconds"
  else if returncode r =? 0 then
    "Script executed successfully:" +:+ nl +:+ nl +:+
    (if String.eqb (stdout r) "" then "(no output)" else Py.strip (stdout r))
  else
    let error_output :=
      if String.eqb (stderr r) "" then Py.strip (stdout r) else Py.strip (stderr r) in
    "Script exited with code " +:+ Py.str_of_int (returncode r) +:+ ":" +:+ nl +:+ nl +:+
    (if String.eqb error_output "" then "(no error output)" else error_output).

(** The closure [run_skill_script]. An exception that no [except] clause
    of the tool catches leaves it: the result is a [result]. *)
Definition run_skill_script (h : Host) (ex : ScriptExecutor) (hp : Heap) (m : SkillManager)
    (skill_name script_name arguments : string) : result string :=
  match get_skill hp m skill_name with
  | None =>
      Ok ("Error: Skill '" +:+ skill_name +:+ "' not found. Available skills: " +:+
          join_or_none (name <$> list_skills hp m))
  | Some (_, skill) =>
      if negb (bool_decide (state skill = ACTIVATED)) then
        Ok ("Error: Skill '" +:+ skill_name +:+
            "' must be activated before running scripts. Use `activate_skill('" +:+
            skill_name +:+ "')` first.")
      else
        match get_resource_path h hp m skill_name "scripts" script_name with
        | Raise (ResourceNotFoundError _ _ _) =>
            let* available := list_scripts h hp m skill_name in
            Ok ("Error: Script '" +:+ script_name +:+ "' not found. Available scripts: " +:+
                join_or_none available)
        | Raise (SkillNotFoundError n a) => Ok ("Error: " +:+ exn_str (SkillNotFoundError n a))
        | Raise e => Raise e
        | Ok script_path =>
            let args :=
              if String.eqb (Py.strip arguments) "" then [] else Py.split arguments in
            match run h ex script_path args (path skill) None with
            | Ok r => Ok (script_response ex r)
            | Raise (SecurityError msg) => Ok ("Security error: " +:+ msg)
            | Raise (ExecutionError p reason) =>
                Ok ("Execution error: " +:+ exn_str (ExecutionError p reason))
            | Raise e => Ok ("Error running script: " +:+ exn_str e)
            end
        end
  end.

(** *** The prompt block ([prompt.py]) *)

(** [html.escape(s)], with [quote=True]: the five characters [&], [<],
    [>], the double quote and the single quote become entities. *)
Definition escape_char (c : ascii) : string :=
  if Ascii.eqb c "&" then "&amp;"
  else if Ascii.eqb c "<" then "&lt;"
  else if Ascii.eqb c ">" then "&gt;"
  else if Ascii.eqb c "034" then "&quot;"
  else if Ascii.eqb c "'" then "&#x27;"
  else String c EmptyString.

Fixpoint html_escape (s : string) : string :=
  match s with
  | EmptyString => EmptyString
  | String c rest => escape_char c +:+ html_escape rest
  end.

(** [html.escape(v)] begins with [v.replace], which only a [str] has
    (CPython's message also names the type of the value). *)
Definition html_escape_value (v : yaml) : result string :=
  match v with
  | YStr s => Ok (html_escape s)
  | _ => Raise (AttributeError "object has no attribute 'replace'")
  end.

(** The lines the loop of [generate_skills_prompt_block] appends for one
    skill. *)
Definition skill_lines (skill : LoadedSkill) : result (list string) :=
  let* compat :=
    match compatibility skill with
    | None => Ok []
    | Some v =>
        if truthy v then
          let* c := html_escape_value v in
          Ok ["<compatibility>" +:+ c +:+ "</compatibility>"]
        else Ok []
    end in
  Ok (["<skill>";
       "<name>" +:+ html_escape (name skill) +:+ "</name>";
       "<description>" +:+ html_escape (description skill) +:+ "</description>"]
      ++ compat ++ ["</skill>"]).

Definition generate_skills_prompt_block (hp : Heap) (m : SkillManager) : result string :=
  match list_skills hp m with
  | [] =>
      Ok ("<available_skills>" +:+ nl +:+ "(No skills currently available)" +:+ nl +:+
          "</available_skills>")
  | skills =>
      let* lines :=
        foldl (fun acc skill =>
                 let* lines := acc in
                 let* more := skill_lines skill in
                 Ok (lines ++ more))
              (Ok ["<available_skills>"]) skills in
      Ok (Py.join nl (lines ++ ["</available_skills>"]))
  end.

(** The compatibility of a skill can be printed: it is absent, falsy or
    a string. *)
Definition compatibility_is_text (skill : LoadedSkill) : Prop :=
  match compatibility skill with
  | Some v => truthy v = true -> exists c : string, v = YStr c
  | None => True
  end.

(** The tags of a text: what stands between each [<] and the next [>].
    [cur] holds, reversed, the tag being read. *)
Fixpoint tags_go (cur : option string) (s : string) : list string :=
  match s with
  | EmptyString => []
  | String c rest =>
      match cur with
      | None => if Ascii.eqb c "<" then tags_go (Some EmptyString) rest
                else tags_go None rest
      | Some t => if Ascii.eqb c ">" then String.rev t :: tags_go None rest
                  else tags_go (Some (String c t)) rest
      end
  end.

Definition tags (s : string) : list string := tags_go None s.

(** The tags the block is meant to hold for one skill. *)
Definition skill_tags (skill : LoadedSkill) : list string :=
  ["skill"; "name"; "/name"; "description"; "/description"]
  ++ match compatibility skill with
     | Some v => if truthy v then ["compatibility"; "/compatibility"] else []
     | None => []
     end
  ++ ["/skill"].

(** A line that contributes the tags [ts], whatever follows it. *)
Definition line_has_tags (line : string) (ts : list string) : Prop :=
  forall rest : string, tags_go None (line +:+ rest) = ts ++ tags_go None rest.

(** * Properties *)

(** ** The string primitives on examples *)

Example strip_ex : Py.strip "  a b  " = "a b". Proof. reflexivity. Qed.
Example split_ex : Py.split " nmap  -sV target " = ["nmap"; "-sV"; "target"]. Proof. reflexivity. Qed.
Example strip_unicode_ex :
  Py.strip (String "194" (String "160" " a") +:+
            String "226" (String "128" (String "131" "b ")) +:+
            String "226" (String "128" (String "168" (String "194" (String "133" "")))))
  = "a" +:+ String "226" (String "128" (String "131" "b")).
Proof. reflexivity. Qed.
Example split_unicode_ex :
  Py.split ("nmap" +:+ String "194" (String "160" "-sV") +:+
            String "227" (String "128" (String "128" "target")))
  = ["nmap"; "-sV"; "target"].
Proof. reflexivity. Qed.
Example split_sep_ex : Py.split_sep "---" 2 "---a---b---c" = [""; "a"; "b---c"]. Proof. reflexivity. Qed.
Example after_last_ex : Py.after_last "/" "/usr/bin/python3" = "python3". Proof. reflexivity. Qed.
Example after_last_ex2 : Py.after_last "/" "/bin/" = "". Proof. reflexivity. Qed.
Example after_last_ex3 : Py.after_last "/" "sh" = "sh". Proof. reflexivity. Qed.
Example str_of_int_ex : Py.str_of_int 30 = "30" /\ Py.str_of_int 0 = "0" /\ Py.str_of_int (-1) = "-1". Proof. repeat split; reflexivity. Qed.
Example lower_ex : Py.lower ".PY" = ".py". Proof. reflexivity. Qed.
Example path_suffix_ex :
  path_suffix "/s/scripts/run.PY" = ".PY" /\ path_suffix "/s/.bashrc" = "" /\
  path_suffix "/s.d/tool" = "" /\ path_suffix "/s/a.tar.gz" = ".gz" /\
  path_suffix "/s/a." = "".
Proof. repeat split; reflexivity. Qed.

(** ** Strings: prefixes and the first occurrence of a separator *)

Section StringFacts.

Lemma append_nil (s : string) : "" +:+ s = s.
Proof. reflexivity. Qed.

Lemma append_cons (c : ascii) (a b : string) : String c a +:+ b = String c (a +:+ b).
Proof. reflexivity. Qed.

Lemma append_nil_r (a : string) : a +:+ "" = a.
Proof. induction a as [|c a IH]; [reflexivity|]. now rewrite append_cons, IH. Qed.

Lemma append_assoc (a b c : string) : (a +:+ b) +:+ c = a +:+ b +:+ c.
Proof.
  induction a as [|x a IH]; [reflexivity|]. rewrite !append_cons. now rewrite IH.
Qed.

Lemma length_append (a b : string) :
  String.length (a +:+ b) = (String.length a + String.length b)%nat.
Proof.
  induction a as [|x a IH]; [reflexivity|].
  rewrite append_cons. simpl. now rewrite IH.
Qed.

Lemma prefix_append (p t : string) : String.prefix p (p +:+ t) = true.
Proof.
  induction p as [|x p IH].
  - rewrite append_nil. now destruct t.
  - rewrite append_cons. simpl.
    destruct (ascii_dec x x) as [_|N]; [exact IH | now destruct N].
Qed.

Lemma prefix_inv (p s : string) :
  String.prefix p s = true -> exists t, s = p +:+ t.
Proof.
  revert s. induction p as [|x p IH]; intros s H.
  - exists s. reflexivity.
  - destruct s as [|y s]; simpl in H; [discriminate|].
    destruct (ascii_dec x y) as [->|_]; [|discriminate].
    destruct (IH s H) as [t ->]. now exists t.
Qed.

Lemma drop_append (p t : string) : Py.drop (String.length p) (p +:+ t) = t.
Proof.
  induction p as [|x p IH]; [now destruct t|].
  rewrite append_cons. exact IH.
Qed.

Lemma partition_here (sep s : string) :
  String.prefix sep s = true ->
  Py.partition sep s = Some ("", Py.drop (String.length sep) s).
Proof. intros P. destruct s; cbn [Py.partition]; now rewrite P. Qed.

Lemma partition_later (sep : string) (c : ascii) (s : string) :
  String.prefix sep (String c s) = false ->
  Py.partition sep (String c s) =
  match Py.partition sep s with
  | Some (a, b) => Some (String c a, b)
  | None => None
  end.
Proof. intros P. cbn [Py.partition]. now rewrite P. Qed.

(** [partition] splits at an occurrence, and at the first one. *)
Lemma partition_spec (sep s a b : string) :
  Py.partition sep s = Some (a, b) ->
  s = a +:+ sep +:+ b /\
  forall a' b', s = a' +:+ sep +:+ b' -> (String.length a <= String.length a')%nat.
Proof.
  assert (Here : forall s a b, String.prefix sep s = true ->
            Py.partition sep s = Some (a, b) ->
            s = a +:+ sep +:+ b /\
            forall a' b', s = a' +:+ sep +:+ b' ->
                          (String.length a <= String.length a')%nat).
  { intros s0 a0 b0 P H. rewrite (partition_here _ _ P) in H.
    injection H as <- <-. destruct (prefix_inv _ _ P) as [t Ht].
    split; [|intros; simpl; lia].
    rewrite append_nil. rewrite Ht at 2. now rewrite drop_append. }
  revert a b. induction s as [|c s IH]; intros a b H.
  - destruct (String.prefix sep "") eqn:P; [now apply Here|].
    cbn [Py.partition] in H. rewrite P in H. discriminate.
  - destruct (String.prefix sep (String c s)) eqn:P; [now apply Here|].
    rewrite (partition_later _ _ _ P) in H.
    destruct (Py.partition sep s) as [[x y]|] eqn:E; [|discriminate].
    injection H as <- <-. destruct (IH _ _ eq_refl) as [-> Hmin].
    split; [reflexivity|]. intros a' b' Heq.
    destruct a' as [|c' a'].
    + rewrite append_nil in Heq. rewrite Heq, prefix_append in P. discriminate.
    + rewrite append_cons in Heq. injection Heq as _ Heq. simpl.
      specialize (Hmin _ _ Heq). lia.
Qed.

Lemma partition_first (sep fm rest : string) :
  (forall a b, fm +:+ sep +:+ rest = a +:+ sep +:+ b ->
               (String.length fm <= String.length a)%nat) ->
  Py.partition sep (fm +:+ sep +:+ rest) = Some (fm, rest).
Proof.
  induction fm as [|c fm IH]; intros Hfirst.
  - rewrite append_nil, partition_here by apply prefix_append.
    now rewrite drop_append.
  - rewrite append_cons.
    destruct (String.prefix sep (String c (fm +:+ sep +:+ rest))) eqn:P.
    + destruct (prefix_inv _ _ P) as [t Ht].
      specialize (Hfirst "" t). rewrite append_cons, append_nil in Hfirst.
      specialize (Hfirst Ht). simpl in Hfirst. lia.
    + rewrite (partition_later _ _ _ P), IH; [reflexivity|].
      intros a b Hab. specialize (Hfirst (String c a) b).
      rewrite !append_cons, Hab in Hfirst. specialize (Hfirst eq_refl).
      simpl in Hfirst. lia.
Qed.

Lemma closes_first_iff (fm rest : string) :
  closes_first fm rest <->
  Py.partition "---" (fm +:+ "---" +:+ rest) = Some (fm, rest).
Proof.
  split.
  - apply partition_first.
  - intros H a b Hab. exact (proj2 (partition_spec _ _ _ _ H) a b Hab).
Qed.

End StringFacts.

(** ** Strings: whitespace characters *)

Section Whitespace.

Ltac bytes :=
  unfold cont, Py.is_space, Py.is_space2, Py.is_space3 in *; cbv zeta in *;
  repeat (rewrite andb_true_iff in * || rewrite orb_true_iff in *
          || rewrite andb_false_iff in * || rewrite orb_false_iff in *
          || rewrite Nat.eqb_eq in * || rewrite Nat.eqb_neq in *
          || rewrite Nat.leb_le in * || rewrite Nat.leb_gt in *);
  exfalso; lia.

Ltac spaces :=
  repeat (cbn [Py.lstrip Py.split_go Py.space_len Py.drop];
          match goal with
          | H : ?b = _ |- context [if ?b then _ else _] => rewrite H
          | |- context [if ?b then _ else _] => destruct b eqn:?
          end);
  try reflexivity.

Lemma is_space_cont (c : ascii) : Py.is_space c = true -> cont c = false.
Proof. intros H. destruct (cont c) eqn:E; [|reflexivity]. bytes. Qed.

Lemma is_space2_cont (c1 c2 : ascii) : Py.is_space2 c1 c2 = true -> cont c2 = true.
Proof. intros H. destruct (cont c2) eqn:E; [reflexivity|]. bytes. Qed.

Lemma is_space2_lead (c1 c2 : ascii) : Py.is_space2 c1 c2 = true -> cont c1 = false.
Proof. intros H. destruct (cont c1) eqn:E; [|reflexivity]. bytes. Qed.

Lemma is_space3_cont (c1 c2 c3 : ascii) :
  Py.is_space3 c1 c2 c3 = true -> cont c1 = false /\ cont c2 = true /\ cont c3 = true.
Proof.
  intros H. destruct (cont c1) eqn:E1, (cont c2) eqn:E2, (cont c3) eqn:E3;
    try (repeat split; reflexivity); bytes.
Qed.

(** A whitespace character does not begin with a continuation byte. *)
Lemma space_len_head (c : ascii) (s : string) :
  Py.space_len (String c s) <> 0%nat -> cont c = false.
Proof.
  destruct s as [|c2 [|c3 r]]; cbn [Py.space_len].
  - destruct (Py.is_space c) eqn:E; [intros _; now apply is_space_cont | congruence].
  - destruct (Py.is_space c) eqn:E; [intros _; now apply is_space_cont |].
    destruct (Py.is_space2 c c2) eqn:E2; [intros _; now apply is_space2_lead in E2 | congruence].
  - destruct (Py.is_space c) eqn:E; [intros _; now apply is_space_cont |].
    destruct (Py.is_space2 c c2) eqn:E2; [intros _; now apply is_space2_lead in E2 |].
    destruct (Py.is_space3 c c2 c3) eqn:E3; [intros _; now apply is_space3_cont in E3 | congruence].
Qed.

Lemma space_len_le (s : string) : (Py.space_len s <= String.length s)%nat.
Proof.
  destruct s as [|c1 [|c2 [|c3 r]]]; cbn [Py.space_len String.length];
    repeat match goal with |- context [if ?b then _ else _] => destruct b end; lia.
Qed.

(** The whitespace character at the head of a text is at the head of
    every text that extends it. *)
Lemma space_len_app (a z : string) (k : nat) :
  Py.space_len a = S k -> Py.space_len (a +:+ z) = S k.
Proof.
  destruct a as [|c1 [|c2 [|c3 r]]]; cbn [Py.space_len]; [discriminate|..];
    rewrite ?append_cons, ?append_nil.
  - destruct (Py.is_space c1) eqn:E1; [|discriminate].
    intros <-. destruct z as [|d1 [|d2 z]]; cbn [Py.space_len]; now rewrite E1.
  - destruct (Py.is_space c1) eqn:E1.
    { intros <-. destruct z; cbn [Py.space_len]; now rewrite E1. }
    destruct (Py.is_space2 c1 c2) eqn:E2; [|discriminate].
    intros <-. destruct z; cbn [Py.space_len]; now rewrite E1, E2.
  - cbn [Py.space_len]. trivial.
Qed.

Lemma space_starts_clean (z : string) : Py.space_len z <> 0%nat -> starts_clean z.
Proof. destruct z as [|d z]; [easy|]. apply space_len_head. Qed.

(** A whitespace character does not straddle the place where a
    character begins. *)
Lemma space_len_app_0 (a z : string) :
  a <> "" -> Py.space_len a = 0%nat -> starts_clean z ->
  Py.space_len (a +:+ z) = 0%nat.
Proof.
  intros Ha H0 Hz.
  destruct z as [|d z]; [now rewrite append_nil_r|].
  cbn [starts_clean] in Hz.
  destruct a as [|c1 [|c2 [|c3 r]]]; [now destruct Ha|..];
    rewrite ?append_cons, ?append_nil; cbn [Py.space_len] in *.
  - destruct (Py.is_space c1) eqn:E1; [discriminate|].
    destruct z as [|d2 z]; cbn [Py.space_len]; rewrite ?E1.
    + destruct (Py.is_space2 c1 d) eqn:E2; [|reflexivity].
      apply is_space2_cont in E2. congruence.
    + destruct (Py.is_space2 c1 d) eqn:E2; [apply is_space2_cont in E2; congruence|].
      destruct (Py.is_space3 c1 d d2) eqn:E3; [|reflexivity].
      apply is_space3_cont in E3. destruct E3 as (_ & E3 & _). congruence.
  - destruct (Py.is_space c1) eqn:E1; [discriminate|].
    destruct (Py.is_space2 c1 c2) eqn:E2; [discriminate|].
    destruct (Py.is_space3 c1 c2 d) eqn:E3; [|reflexivity].
    apply is_space3_cont in E3. destruct E3 as (_ & _ & E3). congruence.
  - exact H0.
Qed.

Lemma lstrip_eq (s : string) :
  Py.lstrip s = match Py.space_len s with
                | O => s
                | S k => Py.lstrip (Py.drop (S k) s)
                end.
Proof.
  destruct s as [|c1 [|c2 [|c3 r]]]; spaces.
Qed.

Lemma split_go_eq (cur : option string) (s : string) :
  Py.split_go cur s =
  match Py.space_len s with
  | O => match s with
         | EmptyString => Py.flush cur
         | String c r => Py.split_go (Py.push c cur) r
         end
  | S k => Py.flush cur ++ Py.split_go None (Py.drop (S k) s)
  end.
Proof.
  destruct s as [|c1 [|c2 [|c3 r]]]; spaces.
Qed.

Lemma length_drop (k : nat) (s : string) :
  String.length (Py.drop k s) = (String.length s - k)%nat.
Proof.
  revert s. induction k as [|k IH]; intros [|c s]; cbn [Py.drop String.length]; try lia.
  rewrite IH. lia.
Qed.

Lemma drop_app_le (k : nat) (a z : string) :
  (k <= String.length a)%nat -> Py.drop k (a +:+ z) = Py.drop k a +:+ z.
Proof.
  revert a. induction k as [|k IH]; intros a Hk.
  - now destruct a, z.
  - destruct a as [|c a]; cbn [String.length] in Hk; [lia|].
    rewrite append_cons. cbn [Py.drop]. apply IH. lia.
Qed.

Lemma string_length_ind (P : string -> Prop) :
  (forall s, (forall t, (String.length t < String.length s)%nat -> P t) -> P s) ->
  forall s, P s.
Proof.
  intros H s. remember (String.length s) as n eqn:Hn. revert s Hn.
  induction n as [n IH] using lt_wf_ind. intros s ->.
  apply H. intros t Ht. exact (IH _ Ht t eq_refl).
Qed.

Lemma drop_shorter (k : nat) (s : string) :
  Py.space_len s = S k -> (String.length (Py.drop (S k) s) < String.length s)%nat.
Proof. intros H. pose proof (space_len_le s). rewrite length_drop. lia. Qed.

End Whitespace.

(** ** Strings: tokens *)

Section Tokens.

Lemma split_go_lstrip (s : string) :
  Py.split_go None (Py.lstrip s) = Py.split_go None s.
Proof.
  induction s as [s IH] using string_length_ind.
  rewrite lstrip_eq. destruct (Py.space_len s) as [|k] eqn:E; [reflexivity|].
  rewrite IH by now apply drop_shorter.
  now rewrite (split_go_eq None s), E.
Qed.

(** Text up to a place where whitespace begins and the text from there
    on are split apart. *)
Lemma split_go_app (a z : string) :
  z = "" \/ Py.space_len z <> 0%nat ->
  forall cur, Py.split_go cur (a +:+ z) = Py.split_go cur a ++ Py.split_go None z.
Proof.
  intros Hz. induction a as [a IH] using string_length_ind. intros cur.
  destruct a as [|c a'].
  - rewrite append_nil. cbn [Py.split_go].
    destruct Hz as [->|Hz]; [cbn; now rewrite app_nil_r|].
    rewrite !(split_go_eq _ z). now destruct (Py.space_len z).
  - destruct (Py.space_len (String c a')) as [|k] eqn:E.
    + rewrite (split_go_eq cur (String c a' +:+ z)), (split_go_eq cur (String c a')), E.
      rewrite space_len_app_0; [| easy | exact E |].
      * rewrite append_cons. apply IH. cbn. lia.
      * destruct Hz as [->|Hz]; [exact I | now apply space_starts_clean].
    + rewrite (split_go_eq cur (String c a' +:+ z)), (split_go_eq cur (String c a')).
      rewrite (space_len_app _ _ _ E), E.
      rewrite drop_app_le by (rewrite <- E; apply space_len_le).
      rewrite IH by now apply drop_shorter.
      now rewrite app_assoc.
Qed.

(** What [rstrip] removes is whitespace. *)
Lemma rstrip_spec (s : string) :
  exists z, s = Py.rstrip s +:+ z /\ Py.lstrip z = "".
Proof.
  induction s as [|c s (z & Hs & Hz)]; [now exists ""|].
  cbn [Py.rstrip].
  destruct (Nat.eqb_spec (Py.space_len (String c (Py.rstrip s)))
              (String.length (String c (Py.rstrip s)))) as [E|E].
  - exists (String c (Py.rstrip s) +:+ z). split.
    + rewrite append_nil, append_cons. now rewrite <- Hs.
    + rewrite lstrip_eq.
      destruct (Py.space_len (String c (Py.rstrip s))) as [|k] eqn:Ek;
        [cbn in E; lia|].
      rewrite (space_len_app _ _ _ Ek), E, drop_append. exact Hz.
  - exists z. split; [|exact Hz]. rewrite append_cons. now rewrite <- Hs.
Qed.

Lemma lstrip_empty (z : string) : Py.lstrip z = "" -> z = "" \/ Py.space_len z <> 0%nat.
Proof.
  intros H. destruct z as [|c z]; [now left|]. right. intros E.
  rewrite lstrip_eq, E in H. discriminate.
Qed.

Lemma split_go_rstrip (s : string) :
  forall cur, Py.split_go cur (Py.rstrip s) = Py.split_go cur s.
Proof.
  intros cur. destruct (rstrip_spec s) as (z & Hs & Hz).
  transitivity (Py.split_go cur (Py.rstrip s +:+ z)); [|now rewrite <- Hs].
  rewrite split_go_app by now apply lstrip_empty.
  rewrite <- (split_go_lstrip z), Hz. cbn. now rewrite app_nil_r.
Qed.

(** The tokens of a command are those of the trimmed command. *)
Lemma split_strip (s : string) : Py.split (Py.strip s) = Py.split s.
Proof. unfold Py.split, Py.strip. now rewrite split_go_rstrip, split_go_lstrip. Qed.

(** Text up to a whitespace character and text after it are split
    apart. *)
Lemma split_go_space_app (a b : string) (c : ascii) :
  Py.is_space c = true ->
  forall cur,
    Py.split_go cur (a +:+ String c b) = Py.split_go cur a ++ Py.split_go None b.
Proof.
  intros Hc cur.
  assert (E : Py.space_len (String c b) = 1%nat).
  { destruct b as [|c2 [|c3 r]]; cbn [Py.space_len]; now rewrite Hc. }
  rewrite split_go_app by (right; rewrite E; discriminate).
  now rewrite (split_go_eq None (String c b)), E.
Qed.

End Tokens.

(** ** Strings: trimming *)

Section Trim.

Lemma lstrip_head (s : string) : head_ok (Py.lstrip s).
Proof.
  unfold head_ok. induction s as [s IH] using string_length_ind.
  rewrite lstrip_eq. destruct (Py.space_len s) as [|k] eqn:E; [exact E|].
  apply IH. now apply drop_shorter.
Qed.

Lemma lstrip_fixed (s : string) : head_ok s -> Py.lstrip s = s.
Proof. unfold head_ok. intros H. now rewrite lstrip_eq, H. Qed.

Lemma rstrip_head (s : string) : head_ok s -> head_ok (Py.rstrip s).
Proof.
  unfold head_ok. intros H. destruct (rstrip_spec s) as (z & Hs & _).
  destruct (Py.space_len (Py.rstrip s)) as [|k] eqn:E; [reflexivity|].
  apply (space_len_app _ z) in E. rewrite <- Hs in E. congruence.
Qed.

Lemma rstrip_idempotent (s : string) : Py.rstrip (Py.rstrip s) = Py.rstrip s.
Proof.
  induction s as [|c s IH]; [reflexivity|].
  cbn [Py.rstrip].
  destruct (Nat.eqb (Py.space_len (String c (Py.rstrip s)))
              (String.length (String c (Py.rstrip s)))) eqn:E; [reflexivity|].
  cbn [Py.rstrip]. now rewrite IH, E.
Qed.

(** Trimming a trimmed text changes nothing. *)
Lemma strip_idempotent (s : string) : Py.strip (Py.strip s) = Py.strip s.
Proof.
  unfold Py.strip.
  rewrite (lstrip_fixed (Py.rstrip (Py.lstrip s))).
  - apply rstrip_idempotent.
  - apply rstrip_head, lstrip_head.
Qed.

End Trim.

Section Chars.

Ltac bytes_in H :=
  unfold Py.is_space, Py.is_space2, Py.is_space3 in H; cbv zeta in H;
  repeat (rewrite andb_true_iff in H || rewrite orb_true_iff in H
          || rewrite Nat.eqb_eq in H || rewrite Nat.leb_le in H).

Ltac in_chars := refine (bool_decide_unpack _ _); vm_compute; exact I.

Lemma byte_eq (c : ascii) (n : nat) : nat_of_ascii c = n -> c = ascii_of_nat n.
Proof. intros <-. now rewrite ascii_nat_embedding. Qed.

Lemma is_space_char (c : ascii) :
  Py.is_space c = true -> String c "" ∈ whitespace_chars.
Proof.
  intros H. bytes_in H.
  assert (E : (nat_of_ascii c = 9 \/ nat_of_ascii c = 10 \/ nat_of_ascii c = 11 \/
               nat_of_ascii c = 12 \/ nat_of_ascii c = 13 \/ nat_of_ascii c = 28 \/
               nat_of_ascii c = 29 \/ nat_of_ascii c = 30 \/ nat_of_ascii c = 31 \/
               nat_of_ascii c = 32)%nat) by lia.
  clear H.
  repeat destruct E as [E|E]; apply byte_eq in E; subst c; in_chars.
Qed.

Lemma is_space2_char (c1 c2 : ascii) :
  Py.is_space2 c1 c2 = true -> String c1 (String c2 "") ∈ whitespace_chars.
Proof.
  intros H. bytes_in H. destruct H as [E1 [E2|E2]];
    apply byte_eq in E1, E2; subst c1 c2; in_chars.
Qed.

Lemma is_space3_char (c1 c2 c3 : ascii) :
  Py.is_space3 c1 c2 c3 = true -> String c1 (String c2 (String c3 "")) ∈ whitespace_chars.
Proof.
  intros H. bytes_in H.
  destruct H as [[[[[E1 E2] E3]|[[E1 E2] E3]]|[[E1 E2] E3]]|[[E1 E2] E3]];
    apply byte_eq in E1, E2; subst c1 c2.
  - apply byte_eq in E3; subst c3; in_chars.
  - assert (E : (nat_of_ascii c3 = 128 \/ nat_of_ascii c3 = 129 \/ nat_of_ascii c3 = 130 \/
                 nat_of_ascii c3 = 131 \/ nat_of_ascii c3 = 132 \/ nat_of_ascii c3 = 133 \/
                 nat_of_ascii c3 = 134 \/ nat_of_ascii c3 = 135 \/ nat_of_ascii c3 = 136 \/
                 nat_of_ascii c3 = 137 \/ nat_of_ascii c3 = 138 \/ nat_of_ascii c3 = 168 \/
                 nat_of_ascii c3 = 169 \/ nat_of_ascii c3 = 175)%nat) by lia.
    clear E3. repeat destruct E as [E|E]; apply byte_eq in E; subst c3; in_chars.
  - apply byte_eq in E3; subst c3; in_chars.
  - apply byte_eq in E3; subst c3; in_chars.
Qed.

(** [space_len] finds the whitespace characters, and only them. *)
Lemma space_len_char (w r : string) :
  w ∈ whitespace_chars ->
  Py.space_len (w +:+ r) = String.length w /\ w <> "".
Proof.
  intros Hin. unfold whitespace_chars in Hin.
  repeat (apply elem_of_cons in Hin; destruct Hin as [->|Hin]);
    try (split; [now apply space_len_app | discriminate]).
  now apply elem_of_nil in Hin.
Qed.

Lemma space_len_inv (s : string) (k : nat) :
  Py.space_len s = S k ->
  exists w r, w ∈ whitespace_chars /\ s = w +:+ r /\ String.length w = S k.
Proof.
  destruct s as [|c1 [|c2 [|c3 r]]]; cbn [Py.space_len]; [discriminate|..].
  - destruct (Py.is_space c1) eqn:E1; [|discriminate]. intros <-.
    exists (String c1 ""), "". split; [now apply is_space_char | easy].
  - destruct (Py.is_space c1) eqn:E1.
    { intros <-. exists (String c1 ""), (String c2 "").
      split; [now apply is_space_char | easy]. }
    destruct (Py.is_space2 c1 c2) eqn:E2; [|discriminate]. intros <-.
    exists (String c1 (String c2 "")), "". split; [now apply is_space2_char | easy].
  - destruct (Py.is_space c1) eqn:E1.
    { intros <-. exists (String c1 ""), (String c2 (String c3 r)).
      split; [now apply is_space_char | easy]. }
    destruct (Py.is_space2 c1 c2) eqn:E2.
    { intros <-. exists (String c1 (String c2 "")), (String c3 r).
      split; [now apply is_space2_char | easy]. }
    destruct (Py.is_space3 c1 c2 c3) eqn:E3; [|discriminate]. intros <-.
    exists (String c1 (String c2 (String c3 ""))), r.
    split; [now apply is_space3_char | easy].
Qed.

End Chars.

Section TrimSpec.

Lemma head_ok_no_space (b : string) :
  head_ok b -> forall w r, w ∈ whitespace_chars -> b <> w +:+ r.
Proof.
  unfold head_ok. intros Hb w r Hw ->.
  destruct (space_len_char w r Hw) as [E Hne]. rewrite Hb in E.
  destruct w; [now destruct Hne | discriminate].
Qed.

(** What [lstrip] removes is whitespace. *)
Lemma lstrip_spec (s : string) : exists l, s = l +:+ Py.lstrip s /\ blank l.
Proof.
  induction s as [s IH] using string_length_ind.
  rewrite lstrip_eq. destruct (Py.space_len s) as [|k] eqn:E.
  - exists "". split; [reflexivity | constructor].
  - destruct (space_len_inv s k E) as (w & r & Hw & -> & Hl).
    rewrite <- Hl, drop_append.
    destruct (IH r) as (l & Hr & Hb).
    { rewrite length_append. lia. }
    exists (w +:+ l). split; [|now constructor].
    rewrite append_assoc. now rewrite <- Hr.
Qed.

Lemma rstrip_blank (s : string) : exists r, s = Py.rstrip s +:+ r /\ blank r.
Proof.
  destruct (rstrip_spec s) as (z & Hs & Hz). exists z. split; [exact Hs|].
  destruct (lstrip_spec z) as (l & Hl & Hb). rewrite Hz, append_nil_r in Hl. now subst l.
Qed.

(** [rstrip] leaves no whitespace character at the end. *)
Lemma rstrip_no_space (s : string) :
  forall a w, w ∈ whitespace_chars -> Py.rstrip s <> a +:+ w.
Proof.
  induction s as [|c s IH]; intros a w Hw; destruct (space_len_char w "" Hw) as [Ew Hne].
  - cbn [Py.rstrip]. intros H. destruct a; [rewrite append_nil in H; now destruct Hne | discriminate].
  - cbn [Py.rstrip].
    destruct (Nat.eqb_spec (Py.space_len (String c (Py.rstrip s)))
                (String.length (String c (Py.rstrip s)))) as [E|E].
    + intros H. destruct a; [rewrite append_nil in H; now destruct Hne | discriminate].
    + intros H. destruct a as [|c' a].
      * rewrite append_nil in H. rewrite H in E. rewrite append_nil_r in Ew. contradiction.
      * rewrite append_cons in H. injection H as _ H. exact (IH a w Hw H).
Qed.

(** [strip] specified without reference to how it is computed: what it
    removes on either side is whitespace, and what it leaves has no
    whitespace character at either end. *)
Lemma strip_spec (s : string) :
  (exists l r, s = l +:+ Py.strip s +:+ r /\ blank l /\ blank r) /\
  trimmed (Py.strip s).
Proof.
  unfold Py.strip. split.
  - destruct (lstrip_spec s) as (l & Hl & Hbl).
    destruct (rstrip_blank (Py.lstrip s)) as (r & Hr & Hbr).
    exists l, r. split; [|easy]. now rewrite <- Hr.
  - intros w Hw. split.
    + intros r. apply head_ok_no_space; [|exact Hw]. apply rstrip_head, lstrip_head.
    + intros a. now apply rstrip_no_space.
Qed.

End TrimSpec.

(** ** Strings: the first token *)

Section FirstToken.

(** A run without whitespace, read from the start, is one token. *)
Lemma split_go_run (tok : string) :
  (forall a b, tok = a +:+ b -> Py.space_len b = 0%nat) ->
  forall acc : string,
    Py.split_go (Some acc) tok = [String.rev_app acc tok].
Proof.
  induction tok as [|c tok IH]; intros Hrun acc; [reflexivity|].
  rewrite split_go_eq, (Hrun "" (String c tok) eq_refl).
  unfold Py.push. cbn [default]. rewrite IH; [reflexivity|].
  intros a b ->. apply (Hrun (String c a) b). reflexivity.
Qed.

(** A text splits into the run up to the first whitespace character and
    the rest. *)
Lemma span_run (s : string) :
  exists tok r,
    s = tok +:+ r /\ (r = "" \/ Py.space_len r <> 0%nat) /\
    forall a b, tok = a +:+ b -> b <> "" -> Py.space_len (b +:+ r) = 0%nat.
Proof.
  induction s as [|c s (tok & r & Hs & Hr & Hrun)].
  - exists "", "". split; [reflexivity|]. split; [now left|].
    intros [|x a] b H; [|discriminate]. rewrite append_nil in H. now subst b.
  - destruct (Py.space_len (String c s)) as [|k] eqn:E.
    + exists (String c tok), r. split; [now rewrite append_cons, <- Hs|].
      split; [exact Hr|]. intros [|x a] b H Hb.
      * rewrite append_nil in H. subst b. now rewrite append_cons, <- Hs.
      * rewrite append_cons in H. injection H as _ H. exact (Hrun a b H Hb).
    + exists "", (String c s). split; [reflexivity|]. split; [right; now rewrite E|].
      intros [|x a] b H; [|discriminate]. rewrite append_nil in H. now subst b.
Qed.

(** The first token of [s.split()]: whitespace only stands before it,
    it is not empty, no whitespace character occurs in it, and the text
    ends after it or goes on with a whitespace character. *)
Lemma split_first_token (s tok : string) (rest : list string) :
  Py.split s = tok :: rest ->
  exists l r,
    s = l +:+ tok +:+ r /\ blank l /\ tok <> "" /\ spaceless tok /\
    (r = "" \/ exists w r', w ∈ whitespace_chars /\ r = w +:+ r').
Proof.
  unfold Py.split. intros H. rewrite <- split_go_lstrip in H.
  destruct (lstrip_spec s) as (l & Hl & Hb).
  pose proof (lstrip_head s) as Hh. unfold head_ok in Hh.
  destruct (span_run (Py.lstrip s)) as (t & r & Ht & Hr & Hrun).
  assert (Hrun' : forall a b, t = a +:+ b -> Py.space_len b = 0%nat).
  { intros a b Hab. destruct b as [|x b]; [reflexivity|].
    specialize (Hrun a (String x b) Hab ltac:(discriminate)).
    destruct (Py.space_len (String x b)) as [|k] eqn:E; [reflexivity|].
    rewrite (space_len_app _ r _ E) in Hrun. discriminate. }
  rewrite Ht, (split_go_app t r Hr) in H.
  destruct t as [|c t].
  - exfalso. rewrite append_nil in Ht. cbn in H.
    destruct Hr as [->|Hr]; [discriminate H | rewrite <- Ht in Hr; contradiction].
  - rewrite split_go_eq, (Hrun' "" (String c t) eq_refl) in H.
    unfold Py.push in H. cbn [default] in H.
    rewrite (split_go_run t) in H.
    2:{ intros a b ->. apply (Hrun' (String c a) b). reflexivity. }
    cbn in H. injection H as <- _.
    exists l, r. split; [now rewrite <- Ht|]. split; [exact Hb|].
    split; [discriminate|]. split.
    + intros a w r0 Hw Hab.
      specialize (Hrun a (w +:+ r0) Hab).
      destruct (space_len_char w (r0 +:+ r) Hw) as [E Hne].
      rewrite append_assoc, E in Hrun.
      destruct w as [|x w]; [now destruct Hne|].
      specialize (Hrun ltac:(discriminate)). discriminate.
    + destruct Hr as [->|Hr]; [now left|]. right.
      destruct (Py.space_len r) as [|k] eqn:E; [now destruct Hr|].
      destruct (space_len_inv r k E) as (w & r' & Hw & -> & _). eauto.
Qed.

End FirstToken.

(** ** Parser: progressive disclosure *)

Section Parser.

Variable h : Host.

Lemma split_definition_file (fm rest : string) :
  closes_first fm rest ->
  Py.split_sep "---" 2 ("---" +:+ fm +:+ "---" +:+ rest) = [""; fm; rest].
Proof.
  intros Hc. cbn [Py.split_sep].
  rewrite partition_here by apply prefix_append.
  rewrite drop_append.
  now rewrite (proj1 (closes_first_iff fm rest) Hc).
Qed.

Lemma parse_frontmatter_mapping (fm rest : string) (kvs : list (string * yaml)) :
  closes_first fm rest ->
  yaml_load h fm = Ok (YMap kvs) ->
  parse_frontmatter h ("---" +:+ fm +:+ "---" +:+ rest)
  = Ok (stringify_metadata h kvs, Py.strip rest).
Proof.
  intros Hc Hy. unfold parse_frontmatter, Py.startswith.
  rewrite prefix_append. cbn [negb].
  rewrite (split_definition_file _ _ Hc), Hy. reflexivity.
Qed.

(** Every text [parse_frontmatter] accepts has this shape, so that
    [closes_first] only names the parts. *)
Lemma parse_frontmatter_shape (content : string) (md : list (string * yaml)) (body : string) :
  parse_frontmatter h content = Ok (md, body) ->
  exists fm rest,
    content = "---" +:+ fm +:+ "---" +:+ rest /\ closes_first fm rest /\
    body = Py.strip rest.
Proof.
  unfold parse_frontmatter, Py.startswith.
  destruct (String.prefix "---" content) eqn:P; cbn [negb]; [|discriminate].
  destruct (prefix_inv _ _ P) as [t ->].
  cbn [Py.split_sep]. rewrite partition_here by apply prefix_append.
  rewrite drop_append.
  destruct (Py.partition "---" t) as [[fm rest]|] eqn:E; [|discriminate].
  destruct (partition_spec _ _ _ _ E) as [-> Hmin].
  intros H. exists fm, rest. split; [reflexivity|]. split; [exact Hmin|].
  destruct (yaml_load h fm) as [[| |]|[]]; try discriminate. now injection H.
Qed.

(** Stringifying the nested [metadata] leaves a scalar field as it is. *)
Lemma assoc_stringify_scalar (k s : string) (kvs : list (string * yaml)) :
  assoc k kvs = Some (YStr s) ->
  assoc k (stringify_metadata h kvs) = Some (YStr s).
Proof.
  induction kvs as [|[k' v] kvs IH]; [discriminate|].
  cbn [assoc stringify_metadata fmap list_fmap].
  destruct v as [s'|m|l]; cbn [assoc];
    try (destruct (String.eqb k' "metadata"); cbn [assoc]);
    destruct (String.eqb k k'); auto; discriminate.
Qed.

Lemma nonempty_str_strip (s : string) :
  Py.strip s <> "" -> nonempty_str (YStr s) = Some s.
Proof.
  intros Hs. unfold nonempty_str.
  destruct (String.eqb_spec (Py.strip s) ""); [contradiction | reflexivity].
Qed.

Lemma read_skill_loaded (dir d md fm rest : string) (kvs : list (string * yaml))
    (n desc : string) (load : bool) :
  resolve h dir = Ok d ->
  find_skill_md h d = Some md ->
  read_text h md = Ok ("---" +:+ fm +:+ "---" +:+ rest) ->
  closes_first fm rest ->
  yaml_load h fm = Ok (YMap kvs) ->
  assoc "name" kvs = Some (YStr n) -> Py.strip n <> "" ->
  assoc "description" kvs = Some (YStr desc) -> Py.strip desc <> "" ->
  exists skill,
    read_skill h dir load = Ok skill /\
    name skill = Py.strip n /\ description skill = Py.strip desc /\ path skill = d /\
    state skill = (if load then ACTIVATED else DISCOVERED) /\
    instructions skill = (if load then Some (Py.strip rest) else None).
Proof.
  intros Hr Hf Ht Hc Hy Hn Hn' Hd Hd'.
  unfold read_skill. rewrite Hr. cbn [bind]. rewrite Hf, Ht. cbn [bind].
  rewrite (parse_frontmatter_mapping _ _ _ Hc Hy). cbn [bind].
  rewrite (assoc_stringify_scalar _ _ _ Hn), (assoc_stringify_scalar _ _ _ Hd).
  rewrite (nonempty_str_strip _ Hn'), (nonempty_str_strip _ Hd').
  eexists. split; [reflexivity|]. cbn. auto.
Qed.

End Parser.

(** The two modes of [read_skill] on a definition file whose front
    matter holds no [---] ([closes_first]) and gives [name] and
    [description] as strings that are not empty once trimmed: without
    instructions the skill is in state DISCOVERED and has none; with
    them it is in state ACTIVATED and its instructions are the text after
    the closing delimiter, trimmed. *)
Theorem read_skill_progressive_disclosure
    (h : Host) (dir d md fm rest : string) (kvs : list (string * yaml)) (n desc : string) :
  resolve h dir = Ok d ->
  find_skill_md h d = Some md ->
  read_text h md = Ok ("---" +:+ fm +:+ "---" +:+ rest) ->
  closes_first fm rest ->
  yaml_load h fm = Ok (YMap kvs) ->
  assoc "name" kvs = Some (YStr n) -> Py.strip n <> "" ->
  assoc "description" kvs = Some (YStr desc) -> Py.strip desc <> "" ->
  exists s0 s1 : LoadedSkill,
    read_skill h dir false = Ok s0 /\ state s0 = DISCOVERED /\ instructions s0 = None /\
    read_skill h dir true = Ok s1 /\ state s1 = ACTIVATED /\
    instructions s1 = Some (Py.strip rest).
Proof.
  intros Hr Hf Ht Hc Hy Hn Hn' Hd Hd'.
  destruct (read_skill_loaded h dir d md fm rest kvs n desc false) as (s0 & E0 & P0); auto.
  destruct (read_skill_loaded h dir d md fm rest kvs n desc true) as (s1 & E1 & P1); auto.
  exists s0, s1. intuition.
Qed.

Lemma read_skill_progressive_disclosure_witness :
  exists s0 s1 : LoadedSkill,
    read_skill (Demo.host1 ∅ Demo.echo) "/skills/demo" false = Ok s0 /\
    state s0 = DISCOVERED /\ instructions s0 = None /\
    read_skill (Demo.host1 ∅ Demo.echo) "/skills/demo" true = Ok s1 /\
    state s1 = ACTIVATED /\
    instructions s1 = Some (Py.strip (nl +:+ "# Demo" +:+ nl)).
Proof.
  apply (read_skill_progressive_disclosure (Demo.host1 ∅ Demo.echo)
           "/skills/demo" "/skills/demo" "/skills/demo/SKILL.md"
           (Demo.front_matter "demo" "A demo skill" "Bash(nmap:*)")
           (nl +:+ "# Demo" +:+ nl)
           [("name", YStr "demo"); ("description", YStr "A demo skill");
            ("allowed-tools", YStr "Bash(nmap:*)")]
           "demo" "A demo skill").
  - reflexivity.
  - vm_compute. reflexivity.
  - vm_compute. reflexivity.
  - apply closes_first_iff. vm_compute. reflexivity.
  - vm_compute. reflexivity.
  - reflexivity.
  - vm_compute. discriminate.
  - reflexivity.
  - vm_compute. discriminate.
Defined.

(** C6, where the code departs from it. The definition file of
    [Demo.host4] is well formed: a line [---], a block that is a YAML
    mapping with a name and a description, a closing line [---], and the
    body [# Demo]. Its description holds three dashes, and
    [parse_frontmatter] cuts the content at these, the first [---] after
    the opening one, and not at the closing line: [read_skill] returns a
    skill whose description is cut short and whose instructions are the
    rest of the description, the closing line and the body, not the
    body. *)
Theorem read_skill_cuts_at_inner_dashes :
  let h := Demo.host4 in
  read_text h "/skills/demo/SKILL.md" = Ok Demo.dashes_md /\
  file_layout Demo.dashes_md =
    Some ("name: demo" +:+ nl +:+ "description: Convert notes --- fast", "# Demo" +:+ nl) /\
  yaml_load h (nl +:+ "name: demo" +:+ nl +:+ "description: Convert notes --- fast" +:+ nl) =
    Ok (YMap [("name", YStr "demo"); ("description", YStr "Convert notes --- fast")]) /\
  exists s : LoadedSkill,
    read_skill h "/skills/demo" true = Ok s /\
    state s = ACTIVATED /\
    name s = "demo" /\
    description s = "Convert notes" /\
    instructions s = Some ("fast" +:+ nl +:+ "---" +:+ nl +:+ "# Demo") /\
    instructions s <> Some (Py.strip ("# Demo" +:+ nl)).
Proof.
  cbv zeta. split; [vm_compute; reflexivity|].
  split; [vm_compute; reflexivity|].
  split; [vm_compute; reflexivity|].
  eexists. split; [vm_compute; reflexivity|].
  repeat split; try (vm_compute; reflexivity).
  vm_compute. discriminate.
Qed.

(** ** Executor: ad-hoc commands fail closed *)

(** C2. When the executor has sandboxing enabled, firejail is absent and
    network access or filesystem writes are to be restricted,
    [run_command] returns a refusal (the network one when the network is
    restricted, the filesystem one otherwise) and starts no child process. *)
Theorem run_command_fails_closed
    (h : Host) (ex : ScriptExecutor) (command : string) (tmo : option Z) :
  sandbox_mode ex = true ->
  _has_firejail ex = false ->
  allow_network ex = false \/ allow_filesystem_write ex = false ->
  run_command h ex command tmo =
  (if allow_network ex then refuse_filesystem else refuse_network, []).
Proof.
  intros Hs Hf Hr. unfold run_command. rewrite Hs, Hf.
  destruct (allow_network ex), (allow_filesystem_write ex), Hr;
    try discriminate; reflexivity.
Qed.

Lemma run_command_fails_closed_witness :
  run_command (Demo.host1 ∅ Demo.echo)
    (new_executor (Demo.host1 ∅ Demo.echo) true None 30 false false) "echo hi" None =
  (refuse_network, []).
Proof.
  apply (run_command_fails_closed (Demo.host1 ∅ Demo.echo)
           (new_executor (Demo.host1 ∅ Demo.echo) true None 30 false false)
           "echo hi" None).
  - reflexivity.
  - reflexivity.
  - left. reflexivity.
Defined.

(** The refusals are texts that explain themselves. *)
Example refusals_explain :
  Py.startswith refuse_network "Error: Network access is disabled but firejail is not installed" = true /\
  Py.startswith refuse_filesystem "Error: Filesystem write is disabled but firejail is not installed" = true.
Proof. split; reflexivity. Qed.

(** With firejail absent and sandboxing off, the command does run. *)
Example run_command_unsandboxed :
  run_command (Demo.host1 ∅ Demo.echo)
    (new_executor (Demo.host1 ∅ Demo.echo) false None 30 false false) "echo hi" None =
  ("ok", [mkSpawn ["bash"; "-c"; "echo hi"] None None 30]).
Proof. reflexivity. Qed.

(** ** Executor: a timeout is a result *)

(** C5. When [run] has started the child (the script passed the
    containment check, its interpreter is allowed, it exists and is a
    file) and the child outlives the effective timeout (the override of
    the call, or the configured default), [run] returns an
    [ExecutionResult] with [timed_out] set, return code [-1], empty
    stdout and the stderr text [Script timed out after N seconds]. *)
Theorem run_timeout_is_a_result
    (h : Host) (ex : ScriptExecutor) (script_path : string) (arguments : list string)
    (working_dir : string) (tmo : option Z) (interpreter : string) :
  _validate_script_path h script_path working_dir = Ok tt ->
  _get_interpreter h ex script_path = Ok interpreter ->
  path_exists h script_path = true ->
  is_file h script_path = true ->
  subprocess_run h
    (mkSpawn (_build_command h ex interpreter script_path arguments working_dir)
       (Some working_dir) (Some (_get_restricted_env h working_dir))
       (Py.int_or tmo (timeout ex))) = TimeoutExpired ->
  run h ex script_path arguments working_dir tmo =
  Ok {| returncode := -1;
        stdout := "";
        stderr := "Script timed out after " +:+
                  Py.str_of_int (Py.int_or tmo (timeout ex)) +:+ " seconds";
        timed_out := true |}.
Proof.
  intros Hv Hi He Hf Hp. unfold run.
  rewrite Hv, Hi. cbn [bind]. rewrite He, Hf. cbn [negb]. now rewrite Hp.
Qed.

Lemma run_timeout_is_a_result_witness :
  run (Demo.host1 ∅ Demo.never_ends)
    (new_executor (Demo.host1 ∅ Demo.never_ends) true None 30 false false)
    "/skills/demo/scripts/slow.py" ["--fast"] "/skills/demo" (Some 5) =
  Ok {| returncode := -1; stdout := "";
        stderr := "Script timed out after 5 seconds"; timed_out := true |}.
Proof.
  apply (run_timeout_is_a_result (Demo.host1 ∅ Demo.never_ends)
           (new_executor (Demo.host1 ∅ Demo.never_ends) true None 30 false false)
           "/skills/demo/scripts/slow.py" ["--fast"] "/skills/demo" (Some 5) "python3").
  - vm_compute. reflexivity.
  - vm_compute. reflexivity.
  - vm_compute. reflexivity.
  - vm_compute. reflexivity.
  - reflexivity.
Defined.

(** ** Executor: the environment of the child *)

Section RestrictedEnv.

Variables (h : Host) (working_dir : string).

(** Two chains of insertions are compared key by key. *)
Ltac by_lookup :=
  apply map_eq; intros ?;
  rewrite !lookup_insert, ?lookup_singleton;
  repeat case_decide; simplify_eq; done.

Lemma restricted_env_plain :
  environ h !! "VIRTUAL_ENV" = None ->
  _get_restricted_env h working_dir = minimal_env h working_dir.
Proof.
  intros Hv. unfold _get_restricted_env, minimal_env. rewrite Hv. by_lookup.
Qed.

Lemma restricted_env_virtualenv (venv : string) :
  environ h !! "VIRTUAL_ENV" = Some venv ->
  _get_restricted_env h working_dir =
  <["VIRTUAL_ENV" := venv]>
    (<["PATH" := venv +:+ "/bin:/usr/bin:/bin:/usr/local/bin"]>
       (minimal_env h working_dir)).
Proof.
  intros Hv. unfold _get_restricted_env, minimal_env. rewrite Hv.
  repeat (rewrite (lookup_total_insert_ne _ _ "PATH") by done).
  rewrite lookup_total_singleton_eq. by_lookup.
Qed.

End RestrictedEnv.

(** C8, as the code has it. The environment of the child is the minimal
    one (the fixed [PATH], [HOME], [LANG] and [LC_ALL] inherited or
    defaulted, [PWD] and [PYTHONPATH] set to the working directory) when
    the caller has no [VIRTUAL_ENV]; when it has one, [VIRTUAL_ENV] is
    inherited as well and its [bin] directory is put in front of the fixed
    [PATH]. No other variable of the caller passes. *)
Theorem restricted_env_exact (h : Host) (working_dir : string) :
  _get_restricted_env h working_dir =
  match environ h !! "VIRTUAL_ENV" with
  | None => minimal_env h working_dir
  | Some venv =>
      <["VIRTUAL_ENV" := venv]>
        (<["PATH" := venv +:+ "/bin:/usr/bin:/bin:/usr/local/bin"]>
           (minimal_env h working_dir))
  end.
Proof.
  destruct (environ h !! "VIRTUAL_ENV") as [venv|] eqn:Hv.
  - now apply restricted_env_virtualenv.
  - now apply restricted_env_plain.
Qed.

(** C8 as stated fails: inside a virtualenv the child inherits
    [VIRTUAL_ENV] and its [PATH] is not the fixed one. *)
Lemma restricted_env_inherits_virtualenv :
  _get_restricted_env
    (Demo.host1 {["VIRTUAL_ENV" := "/venv"; "AWS_SECRET" := "k"]} Demo.echo) "/skills/demo"
  <> minimal_env
    (Demo.host1 {["VIRTUAL_ENV" := "/venv"; "AWS_SECRET" := "k"]} Demo.echo) "/skills/demo".
Proof.
  intros E.
  apply (f_equal (fun env : gmap string string => env !! "VIRTUAL_ENV")) in E.
  vm_compute in E. discriminate.
Qed.

Example restricted_env_in_virtualenv :
  let env := _get_restricted_env
    (Demo.host1 {["VIRTUAL_ENV" := "/venv"; "AWS_SECRET" := "k"]} Demo.echo) "/skills/demo" in
  env !! "VIRTUAL_ENV" = Some "/venv" /\
  env !! "PATH" = Some "/venv/bin:/usr/bin:/bin:/usr/local/bin" /\
  env !! "AWS_SECRET" = None.
Proof. vm_compute. auto. Qed.

(** ** Executor: interpreter resolution *)

Section Interpreter.

Variables (h : Host) (ex : ScriptExecutor).

Lemma get_interpreter_undetermined (script_path : string) :
  detect_interpreter h script_path = None ->
  exists msg, _get_interpreter h ex script_path = Raise (SecurityError msg).
Proof. intros Hd. unfold _get_interpreter. rewrite Hd. eauto. Qed.

Lemma get_interpreter_not_allowed (script_path i : string) :
  detect_interpreter h script_path = Some i ->
  normalize_interpreter i ∉ allowed_interpreters ex ->
  _get_interpreter h ex script_path =
  Raise (SecurityError (not_allowed_msg ex (normalize_interpreter i))).
Proof.
  intros Hd Hn. unfold _get_interpreter. rewrite Hd.
  now rewrite bool_decide_eq_false_2.
Qed.

Lemma get_interpreter_allowed (script_path i : string) :
  detect_interpreter h script_path = Some i ->
  normalize_interpreter i ∈ allowed_interpreters ex ->
  _get_interpreter h ex script_path = Ok (normalize_interpreter i).
Proof.
  intros Hd Hn. unfold _get_interpreter. rewrite Hd.
  now rewrite bool_decide_eq_true_2.
Qed.

(** The containment check passes or raises a [SecurityError]. *)
Lemma validate_script_path_cases (script_path skill_dir : string) :
  _validate_script_path h script_path skill_dir = Ok tt \/
  exists msg, _validate_script_path h script_path skill_dir = Raise (SecurityError msg).
Proof.
  unfold _validate_script_path.
  destruct (resolve h script_path) as [sr|e1]; cbn [bind];
    [destruct (resolve h skill_dir) as [kr|e2]; cbn [bind] |].
  - destruct (negb _ && negb _); eauto.
  - destruct e2; eauto.
  - destruct e1; eauto.
Qed.

(** A shebang line that calls [env] names the word after it. *)
Lemma shebang_env (x : string) :
  Py.split x = [x] ->
  shebang_interpreter ("#!/usr/bin/env " +:+ x +:+ nl) = Some x.
Proof.
  intros Hx. unfold shebang_interpreter, Py.startswith.
  change ("#!/usr/bin/env " +:+ x +:+ nl) with ("#!" +:+ "/usr/bin/env " +:+ x +:+ nl).
  rewrite prefix_append.
  change 2%nat with (String.length "#!"). rewrite drop_append, split_strip.
  change ("/usr/bin/env " +:+ x +:+ nl) with ("/usr/bin/env" +:+ String " " (x +:+ nl)).
  unfold Py.split. rewrite split_go_space_app by reflexivity.
  unfold nl. rewrite split_go_space_app by reflexivity.
  fold (Py.split x). rewrite Hx. reflexivity.
Qed.

End Interpreter.

(** C4, as the code has it. [run] checks that the script lies in the
    working directory before it resolves the interpreter. If neither the
    extension table nor a shebang line determines an interpreter, [run]
    raises SecurityError. If one is determined but its normalized name is
    not in the allowlist, [run] raises SecurityError too, and for a script
    that passes the containment check this error names the rejected
    interpreter and the allowlist. *)
Theorem run_rejects_interpreter
    (h : Host) (ex : ScriptExecutor) (script_path : string) (arguments : list string)
    (working_dir : string) (tmo : option Z) :
  (detect_interpreter h script_path = None ->
   exists msg, run h ex script_path arguments working_dir tmo = Raise (SecurityError msg))
  /\
  (forall i : string,
     detect_interpreter h script_path = Some i ->
     normalize_interpreter i ∉ allowed_interpreters ex ->
     (exists msg, run h ex script_path arguments working_dir tmo = Raise (SecurityError msg))
     /\
     (_validate_script_path h script_path working_dir = Ok tt ->
      run h ex script_path arguments working_dir tmo =
      Raise (SecurityError
               ("Interpreter '" +:+ normalize_interpreter i +:+ "' not allowed. Allowed: " +:+
                Py.join ", " (allowed_interpreters ex))))).
Proof.
  split.
  - intros Hd. unfold run.
    destruct (validate_script_path_cases h script_path working_dir) as [-> | [msg ->]];
      cbn [bind]; [|eauto].
    destruct (get_interpreter_undetermined h ex _ Hd) as [msg ->]. cbn [bind]. eauto.
  - intros i Hd Hn.
    pose proof (get_interpreter_not_allowed h ex _ _ Hd Hn) as Hg.
    split.
    + unfold run.
      destruct (validate_script_path_cases h script_path working_dir) as [-> | [msg ->]];
        cbn [bind]; [|eauto].
      rewrite Hg. cbn [bind]. eauto.
    + intros Hv. unfold run. rewrite Hv. cbn [bind]. rewrite Hg. reflexivity.
Qed.

(** C4 as stated fails: for a script outside the working directory the
    SecurityError of [run] is the one of the containment check, which names
    neither the interpreter nor the allowlist. *)
Lemma run_containment_error_comes_first :
  detect_interpreter (Demo.host1 ∅ Demo.echo) "/skills/demo/scripts/slow.py" = Some "python3" /\
  (normalize_interpreter "python3" ∉
     allowed_interpreters
       (new_executor (Demo.host1 ∅ Demo.echo) true (Some ["bash"]) 30 false false)) /\
  run (Demo.host1 ∅ Demo.echo)
    (new_executor (Demo.host1 ∅ Demo.echo) true (Some ["bash"]) 30 false false)
    "/skills/demo/scripts/slow.py" [] "/skills/demo/scripts_private" None =
  Raise (SecurityError "Script path '/skills/demo/scripts/slow.py' is outside skill directory") /\
  Py.contains "python3"
    "Script path '/skills/demo/scripts/slow.py' is outside skill directory" = false /\
  Py.contains "bash"
    "Script path '/skills/demo/scripts/slow.py' is outside skill directory" = false.
Proof.
  repeat split; try (vm_compute; reflexivity).
  vm_compute. intros H. apply list_elem_of_In in H. simpl in H.
  destruct H as [H|[]]. discriminate.
Qed.

(** The extension table, the shebang line and the normalisation. *)
Example detect_by_extension :
  detect_interpreter (Demo.host1 ∅ Demo.echo) "/x/a.py" = Some "python3" /\
  detect_interpreter (Demo.host1 ∅ Demo.echo) "/x/a.SH" = Some "bash" /\
  detect_interpreter (Demo.host1 ∅ Demo.echo) "/x/a.bash" = Some "bash" /\
  detect_interpreter (Demo.host1 ∅ Demo.echo) "/x/a.js" = Some "node".
Proof. repeat split; vm_compute; reflexivity. Qed.

Example detect_by_shebang :
  detect_interpreter (Demo.host1 ∅ Demo.echo) "/skills/demo/scripts/tool" = Some "ruby" /\
  detect_interpreter (Demo.host1 ∅ Demo.echo) "/skills/demo/scripts/legacy" = Some "python2.7" /\
  detect_interpreter (Demo.host1 ∅ Demo.echo) "/skills/demo/scripts/notes" = None /\
  detect_interpreter (Demo.host1 ∅ Demo.echo) "/skills/demo/scripts/missing" = None.
Proof. repeat split; vm_compute; reflexivity. Qed.

Example normalize_python :
  normalize_interpreter "python3.11" = "python3" /\
  normalize_interpreter "python2.7" = "python" /\
  normalize_interpreter "pythonw" = "python" /\
  normalize_interpreter "ruby" = "ruby".
Proof. repeat split; reflexivity. Qed.

Example run_names_rejected_interpreter :
  run (Demo.host1 ∅ Demo.echo)
    (new_executor (Demo.host1 ∅ Demo.echo) true None 30 false false)
    "/skills/demo/scripts/tool" [] "/skills/demo" None =
  Raise (SecurityError "Interpreter 'ruby' not allowed. Allowed: python3, python, bash, sh, node").
Proof. vm_compute. reflexivity. Qed.

(** ** The bash tool: gating by the active skill *)

(** *** The pattern of allowed-tools *)

Section BashPattern.

Lemma contains_cons (c : ascii) (g : string) :
  Py.contains ":" (String c g) = Ascii.eqb c ":" || Py.contains ":" g.
Proof.
  cbn [Py.contains String.prefix].
  destruct (ascii_dec ":" c) as [<-|Hne].
  - now destruct g.
  - destruct (Ascii.eqb_spec c ":") as [->|_]; [now destruct Hne | reflexivity].
Qed.

(** [span_not_colon] cuts the text before its first colon. *)
Lemma span_not_colon_spec (s g r : string) :
  span_not_colon s = (g, r) ->
  s = g +:+ r /\ Py.contains ":" g = false /\ (r = "" \/ Py.startswith r ":" = true).
Proof.
  revert g r. induction s as [|c s IH]; intros g r.
  - intros [= <- <-]. auto.
  - cbn [span_not_colon]. destruct (Ascii.eqb_spec c ":") as [->|Hne].
    + intros [= <- <-]. repeat split. right. now destruct s.
    + destruct (span_not_colon s) as [g0 r0]. intros [= <- <-].
      destruct (IH _ _ eq_refl) as (-> & Hg & Hr).
      repeat split; [|exact Hr]. rewrite contains_cons, Hg.
      now destruct (Ascii.eqb_spec c ":").
Qed.

Lemma span_not_colon_app (g r : string) :
  Py.contains ":" g = false ->
  span_not_colon (g +:+ String ":" r) = (g, String ":" r).
Proof.
  induction g as [|c g IH]; [reflexivity|].
  rewrite contains_cons, append_cons. intros H.
  apply orb_false_elim in H as [Hc Hg].
  cbn [span_not_colon]. now rewrite Hc, (IH Hg).
Qed.

(** A match at the head of [s] is an occurrence of the pattern there,
    with a prefix that is not empty and holds no colon. *)
Lemma bash_pattern_match_sound (s g : string) :
  bash_pattern_match s = Some g ->
  g <> "" /\ Py.contains ":" g = false /\
  exists r, s = "Bash(" +:+ g +:+ ":*)" +:+ r.
Proof.
  unfold bash_pattern_match, Py.startswith.
  destruct (String.prefix "Bash(" s) eqn:P; [|discriminate].
  apply prefix_inv in P as [t ->].
  change 5%nat with (String.length "Bash("). rewrite drop_append.
  destruct (span_not_colon t) as [g0 r0] eqn:E.
  apply span_not_colon_spec in E as (-> & Hg & _).
  destruct (String.eqb_spec g0 "") as [|Hne]; [discriminate|].
  destruct (String.prefix ":*)" r0) eqn:P'; [|discriminate].
  apply prefix_inv in P' as [r ->]. intros [= <-]. eauto.
Qed.

Lemma bash_pattern_match_complete (g r : string) :
  g <> "" -> Py.contains ":" g = false ->
  bash_pattern_match ("Bash(" +:+ g +:+ ":*)" +:+ r) = Some g.
Proof.
  intros Hne Hg. unfold bash_pattern_match, Py.startswith.
  rewrite prefix_append.
  change 5%nat with (String.length "Bash("). rewrite drop_append.
  change (":*)" +:+ r) with (String ":" ("*)" +:+ r)).
  rewrite (span_not_colon_app _ _ Hg).
  destruct (String.eqb_spec g "") as [|_]; [contradiction|].
  change (String ":" ("*)" +:+ r)) with (":*)" +:+ r).
  now rewrite prefix_append.
Qed.

(** Every prefix [findall] returns is declared in the text. *)
Lemma findall_go_sound (s : string) :
  forall (skip : nat) (g : string),
    g ∈ findall_go skip s ->
    g <> "" /\ Py.contains ":" g = false /\
    exists a r, s = a +:+ "Bash(" +:+ g +:+ ":*)" +:+ r.
Proof.
  induction s as [|c s IH]; intros skip g Hin; [inversion Hin|].
  assert (Later : forall k, g ∈ findall_go k s ->
            g <> "" /\ Py.contains ":" g = false /\
            exists a r, String c s = a +:+ "Bash(" +:+ g +:+ ":*)" +:+ r).
  { intros k Hk. destruct (IH _ _ Hk) as (Hne & Hg & a & r & ->).
    repeat split; auto. exists (String c a), r. now rewrite append_cons. }
  cbn [findall_go] in Hin. destruct skip as [|k]; [|now apply (Later k)].
  destruct (bash_pattern_match (String c s)) as [g0|] eqn:E; [|now apply (Later 0%nat)].
  apply elem_of_cons in Hin as [->|Hin]; [|now apply (Later _ Hin)].
  destruct (bash_pattern_match_sound _ _ E) as (Hne & Hg & r & Hr).
  repeat split; auto. exists "", r. now rewrite append_nil.
Qed.

Lemma findall_go_skip (s : string) :
  forall skip : nat, (String.length s <= skip)%nat -> findall_go skip s = [].
Proof.
  induction s as [|c s IH]; intros skip Hs; [reflexivity|].
  cbn [String.length] in Hs. destruct skip as [|k]; [lia|].
  cbn [findall_go]. apply IH. lia.
Qed.

(** A single declaration is found. *)
Lemma findall_single (g : string) :
  g <> "" -> Py.contains ":" g = false ->
  bash_pattern_findall ("Bash(" +:+ g +:+ ":*)") = [g].
Proof.
  intros Hne Hg. unfold bash_pattern_findall.
  pose proof (bash_pattern_match_complete g "" Hne Hg) as Hm.
  change (":*)" +:+ "") with ":*)" in Hm.
  change ("Bash(" +:+ g +:+ ":*)") with (String "B" ("ash(" +:+ g +:+ ":*)")) in *.
  cbn [findall_go]. rewrite Hm. f_equal. apply findall_go_skip.
  rewrite !length_append. cbn [String.length]. lia.
Qed.

End BashPattern.



(** What the tool compares: the token of an accepted command stands in
    it after whitespace only, holds no whitespace character, and is
    followed by the end of the command or by a whitespace character. *)
Lemma bash_permitted_token (hp : Heap) (m : SkillManager) (command : string) :
  bash_permitted hp m command ->
  exists (l : nat) (skill : LoadedSkill) (tools before tok after : string),
    get_active_skill hp m = Some (l, skill) /\
    allowed_tools skill = Some (YStr tools) /\
    tok ∈ bash_pattern_findall tools /\
    command = before +:+ tok +:+ after /\
    blank before /\ spaceless tok /\
    (after = "" \/ exists w r, w ∈ whitespace_chars /\ after = w +:+ r).
Proof.
  intros (l & skill & tools & tok & rest & Ha & Ht & _ & Hs & Hin).
  destruct (split_first_token _ _ _ Hs) as (before & after & Hc & Hb & _ & Hsp & Hr).
  exists l, skill, tools, before, tok, after. auto 10.
Qed.

(** The scenario of the specification: with the prefix [nmap] declared
    and the skill active, [nmap -sV target] reaches the executor and
    [rm -rf /] is rejected. *)
Example bash_scenario :
  let h := Demo.host1 ∅ Demo.echo in
  let ex := new_executor h false None 30 false false in
  let '(_, hp, m) := discover h [] (new_manager ["/skills"] false) in
  let '(_, hp, m) := activate h hp m "demo" in
  bash h ex hp m "nmap -sV target" =
    (Ok "ok", [mkSpawn ["bash"; "-c"; "nmap -sV target"] None None 30]) /\
  bash h ex hp m "rm -rf /" =
    (Ok "Error: Command 'rm' is not allowed by skill 'demo'. Allowed commands: nmap", []).
Proof. vm_compute. auto. Qed.

(** A no-break space separates tokens as a space does. *)
Example bash_no_break_space :
  let h := Demo.host1 ∅ Demo.echo in
  let ex := new_executor h false None 30 false false in
  let command := "nmap" +:+ String "194" (String "160" "-sV target") in
  let '(_, hp, m) := discover h [] (new_manager ["/skills"] false) in
  let '(_, hp, m) := activate h hp m "demo" in
  Py.split command = ["nmap"; "-sV"; "target"] /\
  bash h ex hp m command = (Ok "ok", [mkSpawn ["bash"; "-c"; command] None None 30]).
Proof. vm_compute. auto. Qed.

(** Before any activation the tool refuses. *)
Example bash_no_active_skill :
  let h := Demo.host1 ∅ Demo.echo in
  let '(_, hp, m) := discover h [] (new_manager ["/skills"] false) in
  bash h (new_executor h false None 30 false false) hp m "nmap -sV target" =
    (Ok "Error: No skill is active. Activate a skill first.", []).
Proof. vm_compute. reflexivity. Qed.

(** ** Manager: resolution of resource paths *)

Section ResourcePath.

Variables (h : Host) (hp : Heap) (m : SkillManager).

(** What the check of [get_resource_path] does enforce: a path it
    returns exists and its text begins with the text of the resolved
    resource directory. *)
Lemma get_resource_path_prefixed (skill_name resource_type filename p : string) :
  get_resource_path h hp m skill_name resource_type filename = Ok p ->
  exists (l : nat) (skill : LoadedSkill) (base_dir base_resolved : string),
    get_skill hp m skill_name = Some (l, skill) /\
    is_dir h base_dir = true /\
    resolve h (path_join base_dir filename) = Ok p /\
    resolve h base_dir = Ok base_resolved /\
    Py.startswith p base_resolved = true /\
    path_exists h p = true.
Proof.
  unfold get_resource_path.
  destruct (get_skill hp m skill_name) as [[l skill]|] eqn:Hg; [|discriminate].
  intros H.
  assert (Hb : exists base_dir,
             is_dir h base_dir = true /\
             match (let* rp := resolve h (path_join base_dir filename) in
                    let* br := resolve h base_dir in
                    if negb (Py.startswith rp br)
                    then Raise (ResourceNotFoundError skill_name resource_type filename)
                    else Ok rp) with
             | Ok rp => if negb (path_exists h rp)
                        then Raise (ResourceNotFoundError skill_name resource_type filename)
                        else Ok rp
             | Raise _ => Raise (ResourceNotFoundError skill_name resource_type filename)
             end = Ok p).
  { unfold scripts_dir, references_dir, assets_dir, subdir_if_present in H.
    destruct (String.eqb resource_type "scripts");
      [|destruct (String.eqb resource_type "references");
        [|destruct (String.eqb resource_type "assets")]];
      cbn [bind] in H; try discriminate;
      match type of H with
      | context [is_dir h ?d] => destruct (is_dir h d) eqn:Hd; [exists d; auto | discriminate]
      end. }
  destruct Hb as (base_dir & Hd & Hb).
  destruct (resolve h (path_join base_dir filename)) as [rp|] eqn:Hr1;
    cbn [bind] in Hb; [|discriminate].
  destruct (resolve h base_dir) as [br|] eqn:Hr2; cbn [bind] in Hb; [|discriminate].
  destruct (Py.startswith rp br) eqn:Hp; cbn [negb] in Hb; [|discriminate].
  destruct (path_exists h rp) eqn:He; cbn [negb] in Hb; [|discriminate].
  injection Hb as <-. exists l, skill, base_dir, br. auto 10.
Qed.

End ResourcePath.

(** C1 at a failing input. The skill [demo] has a [scripts] directory
    and, next to it, [scripts_private]. The file name
    [../scripts_private/token.txt] resolves outside [scripts], yet
    [get_resource_path] returns the path: the test compares texts, and the
    text of the sibling directory begins with the text of [scripts]. *)
Theorem get_resource_path_sibling_escape :
  let h := Demo.host1 ∅ Demo.echo in
  let '(_, hp, m) := discover h [] (new_manager ["/skills"] false) in
  (exists l skill, get_skill hp m "demo" = Some (l, skill) /\
                   scripts_dir h skill = Some "/skills/demo/scripts") /\
  resolve h (path_join "/skills/demo/scripts" "../scripts_private/token.txt")
    = Ok "/skills/demo/scripts_private/token.txt" /\
  resolve h "/skills/demo/scripts" = Ok "/skills/demo/scripts" /\
  path_within "/skills/demo/scripts_private/token.txt" "/skills/demo/scripts" = false /\
  get_resource_path h hp m "demo" "scripts" "../scripts_private/token.txt"
    = Ok "/skills/demo/scripts_private/token.txt".
Proof.
  vm_compute. split; [eexists _, _; split; reflexivity | repeat split].
Qed.

(** The sibling check of the executor refuses the same path. *)
Example validate_script_path_refuses_sibling :
  _validate_script_path (Demo.host1 ∅ Demo.echo)
    "/skills/demo/scripts/../scripts_private/token.txt" "/skills/demo/scripts"
  = Raise (SecurityError
      "Script path '/skills/demo/scripts/../scripts_private/token.txt' is outside skill directory").
Proof. vm_compute. reflexivity. Qed.

(** A traversal that leaves the text of the directory is refused, whether
    or not the target exists. *)
Example get_resource_path_refuses_parent :
  let h := Demo.host1 ∅ Demo.echo in
  let '(_, hp, m) := discover h [] (new_manager ["/skills"] false) in
  get_resource_path h hp m "demo" "scripts" "../SKILL.md"
    = Raise (ResourceNotFoundError "demo" "scripts" "../SKILL.md") /\
  get_resource_path h hp m "demo" "scripts" "/skills/demo/SKILL.md"
    = Raise (ResourceNotFoundError "demo" "scripts" "/skills/demo/SKILL.md") /\
  get_resource_path h hp m "demo" "scripts" "slow.py"
    = Ok "/skills/demo/scripts/slow.py".
Proof. vm_compute. auto. Qed.

(** ** Manager: activation mutates in place *)

Section Activation.

Variables (h : Host) (hp : Heap) (m : SkillManager).

Lemma get_skill_Some (nm : string) (l : nat) (skill : LoadedSkill) :
  get_skill hp m nm = Some (l, skill) <->
  assoc nm (_skills m) = Some l /\ hp !! l = Some skill.
Proof.
  unfold get_skill. destruct (assoc nm (_skills m)) as [l'|].
  - destruct (hp !! l') as [s|] eqn:E; split.
    + intros [= -> ->]. auto.
    + intros [[= ->] H]. rewrite E in H. now injection H as ->.
    + discriminate.
    + intros [[= ->] H]. rewrite E in H. discriminate.
  - split; [discriminate | intros [? _]; discriminate].
Qed.

Lemma same_metadata_refl (s : LoadedSkill) : same_metadata s s.
Proof. repeat split. Qed.

Lemma same_metadata_activated (s : LoadedSkill) (ins : string) :
  same_metadata s (activated s ins).
Proof. repeat split. Qed.

End Activation.

(** C9. [activate(name)] leaves the manager's dictionary as it is (the
    same names bound to the same objects) and the heap of the same size;
    every skill object keeps its name, description, path, license,
    compatibility, allowed-tools and metadata; and an object other than
    the one bound to [name] is not changed at all. This holds whether
    [activate] returns or raises. *)
Theorem activate_frame (h : Host) (hp : Heap) (m : SkillManager) (nm : string) :
  let '(_, hp', m') := activate h hp m nm in
  _skills m' = _skills m /\
  length hp' = length hp /\
  forall (l : nat) (skill : LoadedSkill),
    hp !! l = Some skill ->
    exists skill' : LoadedSkill,
      hp' !! l = Some skill' /\
      same_metadata skill skill' /\
      (assoc nm (_skills m) <> Some l -> skill' = skill).
Proof.
  unfold activate.
  destruct (get_skill hp m nm) as [[l0 skill0]|] eqn:Hg.
  2: { repeat split; auto. intros l skill Hl. exists skill.
       auto using same_metadata_refl. }
  apply get_skill_Some in Hg as [Ha Hl0].
  destruct (bool_decide (state skill0 = ACTIVATED)).
  { repeat split; auto. intros l skill Hl. exists skill.
    auto using same_metadata_refl. }
  destruct (read_instructions h (path skill0)) as [ins|e].
  2: { repeat split; auto. intros l skill Hl. exists skill.
       auto using same_metadata_refl. }
  split; [reflexivity|]. split; [apply length_insert|].
  intros l skill Hl. destruct (decide (l = l0)) as [->|Hne].
  - rewrite Hl0 in Hl. injection Hl as <-.
    exists (activated skill0 ins). split.
    + apply list_lookup_insert_eq. now apply lookup_lt_Some in Hl0.
    + split; [apply same_metadata_activated | congruence].
  - exists skill. rewrite list_lookup_insert_ne by auto.
    auto using same_metadata_refl.
Qed.

(** What activation does change, on success. *)
Lemma activate_loads (h : Host) (hp : Heap) (m : SkillManager) (nm : string)
    (l : nat) (skill : LoadedSkill) (ins : string) :
  get_skill hp m nm = Some (l, skill) ->
  state skill = DISCOVERED ->
  read_instructions h (path skill) = Ok ins ->
  activate h hp m nm =
  (Ok l, <[l := activated skill ins]> hp, set_active m (Some nm)).
Proof.
  intros Hg Hs Hr. unfold activate. rewrite Hg, Hs, Hr. reflexivity.
Qed.

Example activate_demo :
  let h := Demo.host1 ∅ Demo.echo in
  let '(_, hp, m) := discover h [] (new_manager ["/skills"] false) in
  let '(r, hp', m') := activate h hp m "demo" in
  r = Ok 0%nat /\ _skills m' = [("demo", 0%nat)] /\ _active_skill m' = Some "demo" /\
  (state <$> hp' !! 0%nat) = Some ACTIVATED /\
  (instructions <$> hp' !! 0%nat) = Some (Some "# Demo").
Proof. vm_compute. auto 10. Qed.

(** ** Manager: discovery *)

Section AssocFacts.

Context {V : Type}.

Lemma assoc_snoc (n k : string) (v : V) (kvs : list (string * V)) :
  assoc n (kvs ++ [(k, v)]) =
  match assoc n kvs with
  | Some x => Some x
  | None => if String.eqb n k then Some v else None
  end.
Proof.
  induction kvs as [|[k' v'] kvs IH]; [reflexivity|].
  cbn [app assoc]. now destruct (String.eqb n k').
Qed.

Lemma assoc_is_Some (n : string) (kvs : list (string * V)) :
  is_Some (assoc n kvs) <-> n ∈ kvs.*1.
Proof.
  induction kvs as [|[k' v'] kvs IH]; cbn [assoc fmap list_fmap fst].
  - split; [intros [? ?]; discriminate | intros H; inversion H].
  - rewrite elem_of_cons. destruct (String.eqb_spec n k') as [->|Hne].
    + split; eauto.
    + rewrite IH. split; [auto | intros [?|?]; [contradiction | auto]].
Qed.

End AssocFacts.

Lemma first_named_snoc (n : string) (L : list LoadedSkill) (s : LoadedSkill) :
  first_named n (L ++ [s]) =
  match first_named n L with
  | Some x => Some x
  | None => if String.eqb (name s) n then Some s else None
  end.
Proof.
  unfold first_named. induction L as [|x L IH]; [reflexivity|].
  cbn [app List.find]. now destruct (String.eqb (name x) n).
Qed.

Lemma first_named_name (n : string) (L : list LoadedSkill) (s : LoadedSkill) :
  first_named n L = Some s -> name s = n /\ s ∈ L.
Proof.
  unfold first_named. intros H. apply List.find_some in H as [Hin Hn].
  split; [now apply String.eqb_eq | now apply list_elem_of_In].
Qed.

Section Discovery.

Variable h : Host.

(** A skill read in discovery mode: metadata only, and a name. *)
Lemma read_skill_discovered (dir : string) (s : LoadedSkill) :
  read_skill h dir false = Ok s ->
  state s = DISCOVERED /\ instructions s = None /\ name s <> "".
Proof.
  unfold read_skill.
  destruct (resolve h dir) as [d|]; cbn [bind]; [|discriminate].
  destruct (find_skill_md h d); [|discriminate].
  destruct (read_text h _); cbn [bind]; [|discriminate].
  destruct (parse_frontmatter h _) as [[fm body]|]; cbn [bind]; [|discriminate].
  destruct (assoc "name" fm) as [vn|]; [|discriminate].
  destruct (assoc "description" fm) as [vd|]; [|discriminate].
  destruct (nonempty_str vn) as [n|] eqn:Hn; [|discriminate].
  destruct (nonempty_str vd) as [d'|]; [|discriminate].
  intros [= <-]. cbn. repeat split.
  unfold nonempty_str in Hn. destruct vn as [x| |]; try discriminate.
  destruct (String.eqb_spec (Py.strip x) ""); [discriminate|].
  now injection Hn as <-.
Qed.

Lemma loadable_discovered (v : bool) (c : string) (s : LoadedSkill) :
  loadable h v c = Some s ->
  state s = DISCOVERED /\ instructions s = None /\ name s <> "".
Proof.
  unfold loadable, declares. destruct (_ && _); [|discriminate].
  destruct (read_skill h c false) eqn:E; [|discriminate].
  intros [= <-]. now apply (read_skill_discovered c).
Qed.

(** One step of the inner loop is [accept] on what the child loads. *)
Lemma discover_subdir_loadable (v : bool) (acc : Scan) (subdir : string) :
  discover_subdir h v acc subdir =
  match loadable h v subdir with
  | Some s => accept acc s
  | None => acc
  end.
Proof.
  destruct acc as [[hp skills] discovered].
  unfold discover_subdir, loadable, is_candidate, declares, accept.
  destruct (is_dir h subdir); cbn [negb andb]; [|reflexivity].
  destruct (path_exists h (path_join subdir "SKILL.md")),
           (path_exists h (path_join subdir "skill.md")); cbn [negb andb orb];
    try reflexivity;
    destruct v; cbn [negb andb orb];
    try destruct (bool_decide (validate h subdir = [])); cbn [negb];
    try reflexivity; destruct (read_skill h subdir false); reflexivity.
Qed.

Lemma foldl_discover_subdir (v : bool) (l : list string) :
  forall acc : Scan,
    foldl (discover_subdir h v) acc l = foldl accept acc (omap (loadable h v) l).
Proof.
  induction l as [|c l IH]; intros acc; [reflexivity|].
  cbn [foldl omap list_omap]. rewrite IH, discover_subdir_loadable.
  now destruct (loadable h v c).
Qed.

Lemma foldl_discover_dir (v : bool) (dirs : list string) :
  forall acc : Scan,
    foldl (discover_dir h v) acc dirs =
    foldl (discover_subdir h v) acc
      (concat ((fun d => path_join d <$> iterdir h d) <$>
               filter (fun d => path_exists h d && is_dir h d = true) dirs)).
Proof.
  induction dirs as [|d dirs IH]; intros acc; [reflexivity|].
  cbn [foldl]. rewrite IH. unfold discover_dir.
  rewrite filter_cons. destruct (path_exists h d), (is_dir h d); cbn [negb andb];
    case_decide; try discriminate; try (exfalso; auto; fail); try reflexivity.
  cbn [fmap list_fmap concat]. now rewrite foldl_app.
Qed.

(** [discover] is [accept] folded over what the scanned children load. *)
Lemma discover_unfold (hp : Heap) (m : SkillManager) :
  discover h hp m =
  (let '(hp', skills, discovered) :=
     foldl accept (hp, [], [])
       (omap (loadable h (_validate_on_load m)) (scanned h m)) in
   (discovered, hp', set_skills m skills)).
Proof.
  unfold discover. now rewrite foldl_discover_dir, foldl_discover_subdir.
Qed.

End Discovery.

Section ScanInvariant.

Variable hp0 : Heap.

Lemma scan_ok_init : scan_ok hp0 [] (hp0, [], []).
Proof.
  repeat split; try reflexivity.
  - constructor.
  - exists []. now rewrite app_nil_r.
  - discriminate.
  - discriminate.
Qed.

Lemma scan_ok_accept (L : list LoadedSkill) (acc : Scan) (s : LoadedSkill) :
  scan_ok hp0 L acc -> scan_ok hp0 (L ++ [s]) (accept acc s).
Proof.
  destruct acc as [[hp skills] discovered].
  intros (Hk & Hnd & [ext Hext] & Hb & Hl). unfold accept.
  destruct (assoc (name s) skills) as [l0|] eqn:E.
  - (* the name is taken: nothing moves *)
    repeat split; eauto; try (apply (Hb _ _ H)).
    intros n. rewrite first_named_snoc, <- Hl.
    destruct (assoc n skills ≫= (hp !!.)) eqn:En; [reflexivity|].
    destruct (String.eqb_spec (name s) n) as [<-|]; [|reflexivity].
    rewrite E in En. cbn in En.
    destruct (Hb _ _ E) as [_ Hlt]. apply lookup_lt_is_Some_2 in Hlt as [x Hx].
    rewrite Hx in En. discriminate.
  - (* a new name: a new object, bound last *)
    assert (Hnew : name s ∉ discovered).
    { rewrite <- Hk, <- assoc_is_Some, E. intros [? ?]. discriminate. }
    split; [|split; [|split; [|split]]].
    + rewrite fmap_app, Hk. reflexivity.
    + apply NoDup_app. split; [exact Hnd|]. split.
      * intros x Hx Hx'. apply list_elem_of_singleton in Hx'. now subst.
      * apply NoDup_singleton.
    + exists (ext ++ [s]). now rewrite Hext, app_assoc.
    + intros n l. rewrite assoc_snoc, length_app. cbn [length].
      destruct (assoc n skills) as [l'|] eqn:En.
      * intros [= <-]. destruct (Hb _ _ En). lia.
      * destruct (String.eqb n (name s)); [|discriminate].
        intros [= <-]. rewrite Hext, length_app. lia.
    + intros n. rewrite assoc_snoc, first_named_snoc, <- Hl.
      destruct (assoc n skills) as [l'|] eqn:En.
      * cbn. destruct (Hb _ _ En) as [_ Hlt].
        rewrite lookup_app_l by exact Hlt.
        apply lookup_lt_is_Some_2 in Hlt as [x Hx]. now rewrite Hx.
      * cbn. rewrite String.eqb_sym.
        destruct (String.eqb (name s) n); [|reflexivity].
        cbn. now rewrite list_lookup_middle.
Qed.

Lemma scan_ok_foldl (L : list LoadedSkill) :
  scan_ok hp0 L (foldl accept (hp0, [], []) L).
Proof.
  induction L as [|s L IH] using rev_ind; [apply scan_ok_init|].
  rewrite foldl_app. cbn [foldl]. now apply scan_ok_accept.
Qed.

End ScanInvariant.

Section DiscoverResult.

Variables (h : Host) (hp : Heap) (m : SkillManager).

(** The result of [discover], with the invariant of the pass. *)
Lemma discover_result :
  exists (hp' : list LoadedSkill) (skills : list (string * nat)),
    discover h hp m = (skills.*1, hp', set_skills m skills) /\
    scan_ok hp (omap (loadable h (_validate_on_load m)) (scanned h m))
      (hp', skills, skills.*1).
Proof.
  rewrite discover_unfold.
  pose proof (scan_ok_foldl hp
                (omap (loadable h (_validate_on_load m)) (scanned h m))) as Hok.
  destruct (foldl accept _ _) as [[hp' skills] discovered].
  exists hp', skills. destruct Hok as (Hk & Hrest). subst discovered.
  split; [reflexivity|]. now split.
Qed.

(** With validation off, or every candidate valid, the skills read are
    the ones the candidates declare. *)
Lemma loadable_declared (v : bool) (l : list string) :
  (v = false \/
   forall c, c ∈ l -> is_candidate h c = true -> validate h c = []) ->
  omap (loadable h v) l =
  omap (declares h) (filter (fun c => is_candidate h c = true) l).
Proof.
  induction l as [|c l IH]; intros Hv; [reflexivity|].
  assert (Hl : v = false \/
               forall c, c ∈ l -> is_candidate h c = true -> validate h c = []).
  { destruct Hv as [?|Hv]; [now left | right].
    intros c' Hc'. apply Hv. apply elem_of_cons. now right. }
  rewrite filter_cons. cbn [omap list_omap]. unfold loadable at 1.
  destruct (is_candidate h c) eqn:Hc; case_decide; try discriminate;
    try (exfalso; auto; fail); cbn [andb].
  - assert (Hok : negb v || bool_decide (validate h c = []) = true).
    { destruct Hv as [->|Hv]; [reflexivity|].
      rewrite bool_decide_eq_true_2; [apply orb_true_r|].
      apply Hv; [apply elem_of_cons; now left | exact Hc]. }
    rewrite Hok. cbn [omap list_omap]. now rewrite IH.
  - now apply IH.
Qed.

End DiscoverResult.

Lemma get_skill_bind (hp : Heap) (m : SkillManager) (nm : string) :
  snd <$> get_skill hp m nm = assoc nm (_skills m) ≫= (hp !!.).
Proof.
  unfold get_skill. destruct (assoc nm (_skills m)) as [l|]; [|reflexivity].
  cbn. now destruct (hp !! l).
Qed.

(** C7. With validation off, or every candidate valid: the names
    [discover] returns are without repetition and are the keys of the
    dictionary; a name is returned exactly when some candidate declares
    it; and the dictionary binds it to the skill read from the first
    candidate, in scan order, that declares it. A later candidate with
    the same name leaves no trace. *)
Theorem discover_first_wins (h : Host) (hp : Heap) (m : SkillManager) :
  (_validate_on_load m = false \/
   forall c, c ∈ candidates h m -> validate h c = []) ->
  let '(discovered, hp', m') := discover h hp m in
  NoDup discovered /\
  skill_names m' = discovered /\
  forall nm : string,
    (nm ∈ discovered <-> is_Some (first_named nm (declared h m))) /\
    snd <$> get_skill hp' m' nm = first_named nm (declared h m).
Proof.
  intros Hv.
  destruct (discover_result h hp m) as (hp' & skills & -> & _ & Hnd & _ & Hb & Hl).
  rewrite loadable_declared in Hl.
  2: { destruct Hv as [?|Hv]; [now left | right]. intros c Hc Hcand.
       apply Hv. apply list_elem_of_filter. now split. }
  fold (candidates h m) in Hl. fold (declared h m) in Hl.
  split; [exact Hnd|]. split; [reflexivity|]. intros nm.
  rewrite get_skill_bind. cbn [_skills set_skills]. split; [|apply Hl].
  rewrite <- Hl, <- assoc_is_Some. split.
  - intros [l Hn]. rewrite Hn. cbn.
    destruct (Hb _ _ Hn) as [_ Hlt]. now apply lookup_lt_is_Some_2.
  - destruct (assoc nm skills); [eauto | intros [? ?]; discriminate].
Qed.

Lemma discover_first_wins_witness :
  let '(discovered, hp', m') :=
    discover Demo.host2 [] (new_manager ["/a"; "/b"] false) in
  NoDup discovered /\
  skill_names m' = discovered /\
  forall nm : string,
    (nm ∈ discovered <->
     is_Some (first_named nm (declared Demo.host2 (new_manager ["/a"; "/b"] false)))) /\
    snd <$> get_skill hp' m' nm =
    first_named nm (declared Demo.host2 (new_manager ["/a"; "/b"] false)).
Proof.
  apply (discover_first_wins Demo.host2 [] (new_manager ["/a"; "/b"] false)).
  left. reflexivity.
Defined.

(** The scenario of the specification: both roots hold a skill named
    [dup]; the one of the first root is kept and the other is absent. *)
Example discover_dup :
  let m := new_manager ["/a"; "/b"] true in
  (description <$> declared Demo.host2 m) = ["first"; "second"] /\
  let '(discovered, hp', m') := discover Demo.host2 [] m in
  discovered = ["dup"] /\ skill_names m' = ["dup"] /\
  (description <$> hp') = ["first"] /\
  (path <$> (snd <$> get_skill hp' m' "dup")) = Some "/a/one".
Proof. vm_compute. auto. Qed.

(** C10. [discover] does not touch the active-skill pointer. After it,
    [get_active_skill] returns nothing when the active name was not
    rediscovered; when it was, it returns the object this pass created for
    that name, which is in state DISCOVERED and has no instructions. *)
Theorem discover_keeps_active_pointer (h : Host) (hp : Heap) (m : SkillManager) :
  let '(discovered, hp', m') := discover h hp m in
  _active_skill m' = _active_skill m /\
  forall nm : string,
    _active_skill m = Some nm ->
    (nm ∉ discovered -> get_active_skill hp' m' = None) /\
    (nm ∈ discovered ->
     exists (l : nat) (skill : LoadedSkill),
       get_active_skill hp' m' = Some (l, skill) /\
       name skill = nm /\ state skill = DISCOVERED /\ instructions skill = None /\
       hp !! l = None).
Proof.
  destruct (discover_result h hp m) as (hp' & skills & -> & _ & _ & _ & Hb & Hl).
  split; [reflexivity|]. intros nm Ha.
  unfold get_active_skill. cbn [_active_skill set_active set_skills]. rewrite Ha.
  split.
  - intros Hnot. destruct (String.eqb nm ""); [reflexivity|].
    unfold get_skill. cbn [_skills set_skills].
    destruct (assoc nm skills) eqn:En; [|reflexivity].
    exfalso. apply Hnot, assoc_is_Some. eauto.
  - intros Hin. apply assoc_is_Some in Hin as [l Hn].
    destruct (Hb _ _ Hn) as [Hge Hlt].
    apply lookup_lt_is_Some_2 in Hlt as [skill Hs].
    pose proof (Hl nm) as Hf. rewrite Hn in Hf. cbn in Hf. rewrite Hs in Hf.
    symmetry in Hf. apply first_named_name in Hf as [Hname Hmem].
    apply list_elem_of_omap in Hmem as (c & _ & Hc).
    apply loadable_discovered in Hc as (Hst & Hins & Hne).
    exists l, skill.
    destruct (String.eqb_spec nm "") as [->|_]; [congruence|].
    unfold get_skill. cbn [_skills set_skills]. rewrite Hn, Hs.
    repeat split; auto. now apply lookup_ge_None_2.
Qed.

(** After activation and a second discovery the active skill is a new
    object in state DISCOVERED; the activated one is no longer bound. *)
Example rediscover_active :
  let h := Demo.host1 ∅ Demo.echo in
  let '(_, hp, m) := discover h [] (new_manager ["/skills"] false) in
  let '(_, hp, m) := activate h hp m "demo" in
  let '(_, hp', m') := discover h hp m in
  (state <$> hp') = [ACTIVATED; DISCOVERED] /\
  _active_skill m' = Some "demo" /\
  (fst <$> get_active_skill hp' m') = Some 1%nat /\
  (state <$> (snd <$> get_active_skill hp' m')) = Some DISCOVERED.
Proof. vm_compute. auto. Qed.

(** When the active name is gone from the filesystem, the pointer stays
    and [get_active_skill] answers nothing. *)
Example rediscover_gone :
  let h := Demo.host1 ∅ Demo.echo in
  let '(_, hp, m) := discover h [] (new_manager ["/skills"] false) in
  let '(_, hp, m) := activate h hp m "demo" in
  let '(names, hp', m') := discover Demo.host2 hp m in
  names = [] /\ _active_skill m' = Some "demo" /\ get_active_skill hp' m' = None.
Proof. vm_compute. auto. Qed.

(** * Further properties of the program *)

(** ** Parser: failures and results *)

Lemma demo_yaml_raises_yaml_errors dirs files docs env bins proc :
  yaml_raises_yaml_errors (Demo.host dirs files docs env bins proc).
Proof.
  intros s e. cbn [yaml_load Demo.host].
  destruct (assoc s docs); [discriminate|]. intros [= <-]. eauto.
Qed.

(** The ways [parse_frontmatter] ends: with a result, with ParseError,
    or with what strictyaml raised when that is not a YAMLError. *)
Lemma parse_frontmatter_cases (h : Host) (content : string) :
  (exists r, parse_frontmatter h content = Ok r) \/
  (exists msg, parse_frontmatter h content = Raise (ParseError msg)) \/
  (exists fm e, yaml_load h fm = Raise e /\ parse_frontmatter h content = Raise e).
Proof.
  unfold parse_frontmatter.
  destruct (negb (Py.startswith content "---")); [eauto|].
  destruct (Py.split_sep "---" 2 content) as [|p0 [|fm [|rest tl]]]; eauto.
  destruct (yaml_load h fm) as [[| |]|e'] eqn:E; eauto.
  destruct e'; eauto 6.
Qed.

(** A YAMLError never leaves [parse_frontmatter] as it is. *)
Lemma parse_frontmatter_wraps_yaml_error (h : Host) (content msg : string) :
  parse_frontmatter h content <> Raise (YAMLError msg).
Proof.
  unfold parse_frontmatter.
  destruct (negb (Py.startswith content "---")); [discriminate|].
  destruct (Py.split_sep "---" 2 content) as [|p0 [|fm [|rest tl]]]; try discriminate.
  destruct (yaml_load h fm) as [[| |]|[]]; discriminate.
Qed.

(** X1. Whatever the text, [parse_frontmatter] fails only with
    ParseError, as long as strictyaml itself raises only YAMLError: a
    text without the opening delimiter, without a closing one, with a
    front matter that is not YAML or not a mapping all give ParseError. *)
Theorem parse_frontmatter_fails_with_parse_error
    (h : Host) (content : string) (e : exn) :
  yaml_raises_yaml_errors h ->
  parse_frontmatter h content = Raise e ->
  exists msg, e = ParseError msg.
Proof.
  intros Hy He.
  destruct (parse_frontmatter_cases h content) as [[r Hr]|[[msg Hm]|(fm & e' & Hl & Hr)]].
  - rewrite Hr in He. discriminate.
  - rewrite Hm in He. injection He as <-. eauto.
  - rewrite Hr in He. injection He as <-.
    destruct (Hy _ _ Hl) as [msg ->].
    now apply parse_frontmatter_wraps_yaml_error in Hr.
Qed.

Lemma parse_frontmatter_fails_with_parse_error_witness :
  exists msg,
    ParseError "SKILL.md frontmatter not properly closed with ---" = ParseError msg.
Proof.
  apply (parse_frontmatter_fails_with_parse_error (Demo.host1 ∅ Demo.echo)
           "--- name: demo" _).
  - apply demo_yaml_raises_yaml_errors.
  - vm_compute. reflexivity.
Defined.

(** What a result of [parse_frontmatter] tells about the text. *)
Lemma parse_frontmatter_ok_inv
    (h : Host) (content : string) (md : list (string * yaml)) (body : string) :
  parse_frontmatter h content = Ok (md, body) ->
  exists (fm rest : string) (kvs : list (string * yaml)),
    content = "---" +:+ fm +:+ "---" +:+ rest /\
    closes_first fm rest /\
    yaml_load h fm = Ok (YMap kvs) /\
    md = stringify_metadata h kvs /\
    body = Py.strip rest.
Proof.
  unfold parse_frontmatter, Py.startswith.
  destruct (String.prefix "---" content) eqn:P; cbn [negb]; [|discriminate].
  destruct (prefix_inv _ _ P) as [t ->].
  cbn [Py.split_sep]. rewrite partition_here by apply prefix_append.
  rewrite drop_append.
  destruct (Py.partition "---" t) as [[fm rest]|] eqn:E; [|discriminate].
  destruct (partition_spec _ _ _ _ E) as [-> Hmin].
  destruct (yaml_load h fm) as [[|kvs|]|[]] eqn:Hy; try discriminate.
  intros [= <- <-]. exists fm, rest, kvs. repeat split; auto.
Qed.

(** X2. A text [parse_frontmatter] accepts begins with [---], holds a
    second [---], and the body returned is the text after the first
    such [---], trimmed: what stands before and after the body in that
    text is whitespace characters only, and the body has no whitespace
    character at either end ([blank] and [trimmed], over the list of
    Python's whitespace characters). The front matter between the two
    delimiters is what strictyaml loaded as a mapping. *)
Theorem parse_frontmatter_accepts
    (h : Host) (content : string) (md : list (string * yaml)) (body : string) :
  parse_frontmatter h content = Ok (md, body) ->
  exists (fm rest : string) (kvs : list (string * yaml)),
    content = "---" +:+ fm +:+ "---" +:+ rest /\
    closes_first fm rest /\
    yaml_load h fm = Ok (YMap kvs) /\
    md = stringify_metadata h kvs /\
    (exists l r : string, rest = l +:+ body +:+ r /\ blank l /\ blank r) /\
    trimmed body.
Proof.
  intros H.
  destruct (parse_frontmatter_ok_inv h content md body H)
    as (fm & rest & kvs & Hc & Hf & Hy & Hm & Hb).
  exists fm, rest, kvs. subst body.
  destruct (strip_spec rest) as [Hparts Htrim].
  split; [exact Hc|]. split; [exact Hf|]. split; [exact Hy|]. split; [exact Hm|].
  split; [exact Hparts | exact Htrim].
Qed.

Lemma parse_frontmatter_accepts_witness :
  exists (fm rest : string) (kvs : list (string * yaml)),
    Demo.skill_md "dup" "first" "" "# One" = "---" +:+ fm +:+ "---" +:+ rest /\
    closes_first fm rest /\
    yaml_load Demo.host2 fm = Ok (YMap kvs) /\
    [("name", YStr "dup"); ("description", YStr "first"); ("allowed-tools", YStr "")]
      = stringify_metadata Demo.host2 kvs /\
    (exists l r : string, rest = l +:+ "# One" +:+ r /\ blank l /\ blank r) /\
    trimmed "# One".
Proof.
  apply (parse_frontmatter_accepts Demo.host2 (Demo.skill_md "dup" "first" "" "# One")).
  vm_compute. reflexivity.
Defined.

(** X3. [read_skill] fails with ParseError (no definition file, or a
    malformed one), with ValidationError (name or description missing,
    not a string, or empty once trimmed), or with what the filesystem
    raised when the directory was resolved or the file read; with nothing
    else, as long as strictyaml raises only YAMLError. *)
Theorem read_skill_failures
    (h : Host) (skill_dir : string) (load_instructions : bool) (e : exn) :
  yaml_raises_yaml_errors h ->
  read_skill h skill_dir load_instructions = Raise e ->
  (exists msg, e = ParseError msg) \/
  (exists msg, e = ValidationError msg) \/
  resolve h skill_dir = Raise e \/
  (exists md, read_text h md = Raise e).
Proof.
  intros Hy. unfold read_skill.
  destruct (resolve h skill_dir) as [d|e0]; cbn [bind];
    [|intros [= <-]; auto].
  destruct (find_skill_md h d) as [md|]; [|intros [= <-]; eauto].
  destruct (read_text h md) as [content|e1] eqn:Hr; cbn [bind];
    [|intros [= <-]; eauto 6].
  destruct (parse_frontmatter h content) as [[fm body]|e2] eqn:Hp; cbn [bind].
  - destruct (assoc "name" fm) as [vn|]; [|intros [= <-]; eauto].
    destruct (assoc "description" fm) as [vd|]; [|intros [= <-]; eauto].
    destruct (nonempty_str vn); [|intros [= <-]; eauto].
    destruct (nonempty_str vd); [discriminate | intros [= <-]; eauto].
  - intros [= <-].
    destruct (parse_frontmatter_cases h content) as [[r Hq]|[[msg Hm]|(fm & e' & Hl & Hq)]].
    + rewrite Hq in Hp. discriminate.
    + rewrite Hm in Hp. injection Hp as <-. eauto.
    + rewrite Hq in Hp. injection Hp as <-. destruct (Hy _ _ Hl) as [msg ->].
      now apply parse_frontmatter_wraps_yaml_error in Hq.
Qed.

Lemma read_skill_failures_witness :
  (exists msg, ParseError "SKILL.md not found in /skills/none" = ParseError msg) \/
  (exists msg, ParseError "SKILL.md not found in /skills/none" = ValidationError msg) \/
  resolve (Demo.host1 ∅ Demo.echo) "/skills/none"
    = Raise (ParseError "SKILL.md not found in /skills/none") \/
  (exists md, read_text (Demo.host1 ∅ Demo.echo) md
              = Raise (ParseError "SKILL.md not found in /skills/none")).
Proof.
  apply (read_skill_failures (Demo.host1 ∅ Demo.echo) "/skills/none" false).
  - apply demo_yaml_raises_yaml_errors.
  - vm_compute. reflexivity.
Defined.

Lemma nonempty_str_inv (v : yaml) (s : string) :
  nonempty_str v = Some s -> v = YStr s /\ Py.strip s <> "".
Proof.
  unfold nonempty_str. destruct v as [x| |]; try discriminate.
  destruct (String.eqb_spec (Py.strip x) ""); [discriminate|].
  intros [= <-]. auto.
Qed.

(** [read_skill], when it returns, inverted. *)
Lemma read_skill_ok_inv (h : Host) (skill_dir : string) (load : bool) (s : LoadedSkill) :
  read_skill h skill_dir load = Ok s ->
  exists (d md content body n desc : string) (fm : list (string * yaml)),
    resolve h skill_dir = Ok d /\
    find_skill_md h d = Some md /\
    read_text h md = Ok content /\
    parse_frontmatter h content = Ok (fm, body) /\
    assoc "name" fm = Some (YStr n) /\ Py.strip n <> "" /\
    assoc "description" fm = Some (YStr desc) /\ Py.strip desc <> "" /\
    s = {| name := Py.strip n;
           description := Py.strip desc;
           path := d;
           state := if load then ACTIVATED else DISCOVERED;
           license := assoc "license" fm;
           compatibility := assoc "compatibility" fm;
           allowed_tools := assoc "allowed-tools" fm;
           metadata := default (YMap []) (assoc "metadata" fm);
           instructions := if load then Some body else None |}.
Proof.
  unfold read_skill.
  destruct (resolve h skill_dir) as [d|]; cbn [bind]; [|discriminate].
  destruct (find_skill_md h d) as [md|] eqn:Hf; [|discriminate].
  destruct (read_text h md) as [content|] eqn:Ht; cbn [bind]; [|discriminate].
  destruct (parse_frontmatter h content) as [[fm body]|] eqn:Hp; cbn [bind]; [|discriminate].
  destruct (assoc "name" fm) as [vn|] eqn:Hvn; [|discriminate].
  destruct (assoc "description" fm) as [vd|] eqn:Hvd; [|discriminate].
  destruct (nonempty_str vn) as [n|] eqn:Hn; [|discriminate].
  destruct (nonempty_str vd) as [desc|] eqn:Hd; [|discriminate].
  apply nonempty_str_inv in Hn as [-> Hn], Hd as [-> Hd].
  intros [= <-]. exists d, md, content, body, n, desc, fm. repeat split; auto.
Qed.

(** X4. A skill [read_skill] returns has a name and a description that
    are not empty and carry no whitespace character at either end
    ([trimmed], over the list of Python's whitespace characters), its path
    is the resolved directory, and its state and instructions go together:
    DISCOVERED with none, or ACTIVATED with a trimmed body. *)
Theorem read_skill_result
    (h : Host) (skill_dir : string) (load_instructions : bool) (s : LoadedSkill) :
  read_skill h skill_dir load_instructions = Ok s ->
  resolve h skill_dir = Ok (path s) /\
  name s <> "" /\ trimmed (name s) /\
  description s <> "" /\ trimmed (description s) /\
  (if load_instructions
   then state s = ACTIVATED /\
        exists body, instructions s = Some body /\ trimmed body
   else state s = DISCOVERED /\ instructions s = None).
Proof.
  intros H.
  destruct (read_skill_ok_inv _ _ _ _ H)
    as (d & md & content & body & n & desc & fm & Hr & _ & _ & Hp & _ & Hn & _ & Hd & ->).
  cbn [name description path state instructions].
  split; [exact Hr|]. split; [exact Hn|]. split; [apply strip_spec|].
  split; [exact Hd|]. split; [apply strip_spec|].
  destruct load_instructions; [|auto]. split; [reflexivity|].
  exists body. split; [reflexivity|].
  destruct (parse_frontmatter_ok_inv _ _ _ _ Hp) as (_ & rest & _ & _ & _ & _ & _ & ->).
  apply strip_spec.
Qed.

Lemma read_skill_result_witness :
  resolve Demo.host2 "/b/../a/one" = Ok "/a/one" /\
  "dup" <> "" /\ trimmed "dup" /\
  "first" <> "" /\ trimmed "first" /\
  (ACTIVATED = ACTIVATED /\
   exists body, Some "# One" = Some body /\ trimmed body).
Proof.
  apply (read_skill_result Demo.host2 "/b/../a/one" true
           {| name := "dup"; description := "first"; path := "/a/one";
              state := ACTIVATED; license := None; compatibility := None;
              allowed_tools := Some (YStr ""); metadata := YMap []; instructions := Some "# One" |}).
  vm_compute. reflexivity.
Defined.

(** Whitespace is Python's: a name that is a no-break space is empty
    once trimmed, and a body wrapped in no-break spaces is trimmed. *)
Example read_skill_no_break_space :
  let nbsp := String "194" (String "160" "") in
  let h := Demo.host ["/s"; "/s/x"; "/s/y"]
             [("/s/x/SKILL.md", Demo.skill_md nbsp "d" "" "# B");
              ("/s/y/SKILL.md", Demo.skill_md "y" "d" "" (nbsp +:+ "# B" +:+ nbsp))]
             [Demo.doc nbsp "d" ""; Demo.doc "y" "d" ""] ∅ [] Demo.echo in
  read_skill h "/s/x" false =
    Raise (ValidationError "Field 'name' must be a non-empty string") /\
  read_instructions h "/s/y" = Ok "# B".
Proof. vm_compute. split; reflexivity. Qed.

(** X5. Loading lazily gives what loading eagerly gives: when discovery
    read a skill from a directory, reading its instructions from the
    skill's path succeeds, and the skill with these instructions, marked
    activated, is the skill [read_skill(dir, load_instructions=True)]
    returns. (The path of a skill is resolved; resolving it again must
    leave it as it is.) *)
Theorem lazy_load_agrees_with_eager (h : Host) (skill_dir : string) (s0 : LoadedSkill) :
  resolve_idempotent h ->
  read_skill h skill_dir false = Ok s0 ->
  exists ins : string,
    read_instructions h (path s0) = Ok ins /\
    read_skill h skill_dir true = Ok (activated s0 ins).
Proof.
  intros Hres H.
  destruct (read_skill_ok_inv _ _ _ _ H)
    as (d & md & content & body & n & desc & fm & Hr & Hf & Ht & Hp & Hn & Hn' & Hd & Hd' & ->).
  cbn [path]. exists body. split.
  - unfold read_instructions. rewrite (Hres _ _ Hr). cbn [bind].
    rewrite Hf, Ht. cbn [bind]. now rewrite Hp.
  - unfold read_skill. rewrite Hr. cbn [bind]. rewrite Hf, Ht. cbn [bind].
    rewrite Hp. cbn [bind]. rewrite Hn, Hd.
    now rewrite (nonempty_str_strip _ Hn'), (nonempty_str_strip _ Hd').
Qed.

Lemma plain_host_resolve_idempotent dirs files docs proc :
  resolve_idempotent (plain_host dirs files docs proc).
Proof. intros p q. cbn [resolve plain_host]. now intros [= <-]. Qed.

Lemma lazy_load_agrees_with_eager_witness :
  exists ins : string,
    read_instructions plain2 "/a/one" = Ok ins /\
    read_skill plain2 "/a/one" true
    = Ok (activated
            {| name := "dup"; description := "first"; path := "/a/one";
               state := DISCOVERED; license := None; compatibility := None;
               allowed_tools := Some (YStr ""); metadata := YMap []; instructions := None |} ins).
Proof.
  apply (lazy_load_agrees_with_eager plain2 "/a/one"
           {| name := "dup"; description := "first"; path := "/a/one";
              state := DISCOVERED; license := None; compatibility := None;
              allowed_tools := Some (YStr ""); metadata := YMap []; instructions := None |}).
  - apply plain_host_resolve_idempotent.
  - vm_compute. reflexivity.
Defined.

(** ** Manager: more on discovery *)

Section MoreDiscovery.

Variable h : Host.

(** The names a pass returns are built by [first_names]' step. *)
Lemma foldl_accept_names (L : list LoadedSkill) :
  forall acc : Scan,
    acc.1.2.*1 = acc.2 ->
    (foldl accept acc L).1.2.*1 = (foldl accept acc L).2 /\
    (foldl accept acc L).2 =
    foldl (fun names s => if bool_decide (name s ∈ names) then names else names ++ [name s])
          acc.2 L.
Proof.
  induction L as [|s L IH]; intros [[hp skills] names] Hk; [now split|].
  cbn [foldl]. cbn [fst snd] in Hk. subst names.
  assert (Hacc : accept (hp, skills, skills.*1) s =
                 if bool_decide (name s ∈ skills.*1) then (hp, skills, skills.*1)
                 else (hp ++ [s], skills ++ [(name s, length hp)], skills.*1 ++ [name s])).
  { unfold accept. destruct (assoc (name s) skills) eqn:E.
    - rewrite bool_decide_eq_true_2; [reflexivity|]. apply assoc_is_Some. eauto.
    - rewrite bool_decide_eq_false_2; [reflexivity|].
      rewrite <- assoc_is_Some, E. intros [? ?]. discriminate. }
  rewrite Hacc. cbn [fst snd].
  destruct (bool_decide (name s ∈ skills.*1)).
  - now apply IH.
  - destruct (IH (hp ++ [s], skills ++ [(name s, length hp)], skills.*1 ++ [name s]))
      as [H1 H2]; [cbn [fst snd]; now rewrite fmap_app|]. now split.
Qed.

Lemma discover_names (hp : Heap) (m : SkillManager) :
  (discover h hp m).1.1 =
  first_names (omap (loadable h (_validate_on_load m)) (scanned h m)).
Proof.
  rewrite discover_unfold. unfold first_names.
  pose proof (foldl_accept_names
                (omap (loadable h (_validate_on_load m)) (scanned h m))
                (hp, [], []) eq_refl) as [_ Hn].
  destruct (foldl accept _ _) as [[hp' skills] names]. exact Hn.
Qed.

(** The pass reads the filesystem and the two settings of the manager,
    not its dictionary, its pointer or the heap. *)
Lemma discover_reads_settings (hp1 hp2 : Heap) (m1 m2 : SkillManager) :
  _skill_dirs m1 = _skill_dirs m2 ->
  _validate_on_load m1 = _validate_on_load m2 ->
  omap (loadable h (_validate_on_load m1)) (scanned h m1) =
  omap (loadable h (_validate_on_load m2)) (scanned h m2).
Proof. unfold scanned. now intros -> ->. Qed.

End MoreDiscovery.

(** X6. [discover] returns the names of the skills it could load, each
    once, in the order in which the scan first met them. *)
Theorem discover_returns_first_names (h : Host) (hp : Heap) (m : SkillManager) :
  (discover h hp m).1.1 =
  first_names (omap (loadable h (_validate_on_load m)) (scanned h m)) /\
  NoDup (discover h hp m).1.1 /\
  forall nm : string,
    nm ∈ (discover h hp m).1.1 <->
    exists c, c ∈ scanned h m /\
              exists s, loadable h (_validate_on_load m) c = Some s /\ name s = nm.
Proof.
  split; [apply discover_names|].
  destruct (discover_result h hp m) as (hp' & skills & E & _ & Hnd & _ & Hb & Hl).
  rewrite E. cbn [fst snd]. split; [exact Hnd|]. intros nm.
  rewrite <- assoc_is_Some. split.
  - intros [l Hn]. destruct (Hb _ _ Hn) as [_ Hlt].
    apply lookup_lt_is_Some_2 in Hlt as [s Hs].
    pose proof (Hl nm) as Hf. rewrite Hn in Hf. cbn in Hf. rewrite Hs in Hf.
    symmetry in Hf. apply first_named_name in Hf as [Hname Hmem].
    apply list_elem_of_omap in Hmem as (c & Hc & Hload). eauto.
  - intros (c & Hc & s & Hload & Hname).
    assert (Hin : s ∈ omap (loadable h (_validate_on_load m)) (scanned h m)).
    { apply list_elem_of_omap. eauto. }
    destruct (first_named nm (omap (loadable h (_validate_on_load m)) (scanned h m)))
      as [x|] eqn:Hf.
    + rewrite <- Hl in Hf. destruct (assoc nm skills); [eauto | discriminate].
    + unfold first_named in Hf. apply list_elem_of_In in Hin.
      eapply List.find_none in Hf; [|exact Hin]. cbn in Hf.
      rewrite Hname, String.eqb_refl in Hf. discriminate.
Qed.

(** X7. [discover] is idempotent: run again on the same filesystem it
    returns the same names in the same order, and binds each name to a
    skill with the same fields (a new object each time). *)
Theorem discover_idempotent (h : Host) (hp : Heap) (m : SkillManager) :
  let '(names1, hp1, m1) := discover h hp m in
  let '(names2, hp2, m2) := discover h hp1 m1 in
  names2 = names1 /\
  forall nm : string,
    snd <$> get_skill hp2 m2 nm = snd <$> get_skill hp1 m1 nm.
Proof.
  pose proof (discover_names h hp m) as N1.
  destruct (discover_result h hp m) as (hp1 & sk1 & E1 & _ & _ & _ & _ & L1).
  rewrite E1 in *. cbn [fst snd] in N1.
  pose proof (discover_names h hp1 (set_skills m sk1)) as N2.
  destruct (discover_result h hp1 (set_skills m sk1)) as (hp2 & sk2 & E2 & _ & _ & _ & _ & L2).
  rewrite E2 in *. cbn [fst snd] in N2.
  rewrite (discover_reads_settings h hp1 hp (set_skills m sk1) m eq_refl eq_refl) in N2, L2.
  split; [congruence|]. intros nm.
  rewrite !get_skill_bind. cbn [_skills set_skills]. now rewrite L1, L2.
Qed.

(** X8. After [discover], every binding of the dictionary is to an
    object this pass created, whose own name is the key, which is not
    empty; the object is in state DISCOVERED and carries no instructions.
    Two names are never bound to one object. *)
Theorem discover_binds_new_metadata
    (h : Host) (hp : Heap) (m : SkillManager)
    (names : list string) (hp' : list LoadedSkill) (m' : SkillManager)
    (nm : string) (l : nat) :
  discover h hp m = (names, hp', m') ->
  assoc nm (_skills m') = Some l ->
  nm ∈ names /\ nm <> "" /\ hp !! l = None /\
  (exists skill : LoadedSkill,
     hp' !! l = Some skill /\ name skill = nm /\
     state skill = DISCOVERED /\ instructions skill = None) /\
  (forall nm' : string, assoc nm' (_skills m') = Some l -> nm' = nm).
Proof.
  intros E Hn.
  destruct (discover_result h hp m) as (hp1 & sk & E' & _ & _ & _ & Hb & Hl).
  rewrite E' in E. injection E as <- <- <-. cbn [_skills set_skills] in *.
  destruct (Hb _ _ Hn) as [Hge Hlt].
  apply lookup_lt_is_Some_2 in Hlt as [skill Hs].
  assert (Hkey : forall k, assoc k sk = Some l -> name skill = k /\
                   state skill = DISCOVERED /\ instructions skill = None /\ k <> "").
  { intros k Hk. pose proof (Hl k) as Hf. rewrite Hk in Hf. cbn in Hf. rewrite Hs in Hf.
    symmetry in Hf. apply first_named_name in Hf as [Hname Hmem].
    apply list_elem_of_omap in Hmem as (c & _ & Hc).
    apply loadable_discovered in Hc as (Hst & Hins & Hne). subst k. auto. }
  destruct (Hkey _ Hn) as (Hname & Hst & Hins & Hne).
  split; [apply assoc_is_Some; eauto|]. split; [exact Hne|].
  split; [now apply lookup_ge_None_2|]. split; [eauto 6|].
  intros nm' Hn'. destruct (Hkey _ Hn') as [Hname' _]. congruence.
Qed.

Lemma discover_binds_new_metadata_witness :
  "dup" ∈ ["dup"] /\ "dup" <> "" /\ ([] : list LoadedSkill) !! 0%nat = None /\
  (exists skill : LoadedSkill,
     [{| name := "dup"; description := "first"; path := "/a/one";
         state := DISCOVERED; license := None; compatibility := None;
         allowed_tools := Some (YStr ""); metadata := YMap []; instructions := None |}] !! 0%nat
     = Some skill /\ name skill = "dup" /\
     state skill = DISCOVERED /\ instructions skill = None) /\
  (forall nm' : string,
     assoc nm' (_skills (set_skills (new_manager ["/a"; "/b"] true) [("dup", 0%nat)]))
     = Some 0%nat -> nm' = "dup").
Proof.
  apply (discover_binds_new_metadata Demo.host2 [] (new_manager ["/a"; "/b"] true)
           ["dup"] _ (set_skills (new_manager ["/a"; "/b"] true) [("dup", 0%nat)])
           "dup" 0%nat).
  - vm_compute. reflexivity.
  - reflexivity.
Defined.

(** X9. [discover] neither changes nor removes an object that existed
    before: the heap only grows, so a reference kept from an earlier pass
    still reads the same skill, activated or not. The configured
    directories, the validation setting and the active-skill pointer stay
    as they were. *)
Theorem discover_keeps_old_objects (h : Host) (hp : Heap) (m : SkillManager) :
  let '(_, hp', m') := discover h hp m in
  (exists ext, hp' = hp ++ ext) /\
  (forall (l : nat) (skill : LoadedSkill), hp !! l = Some skill -> hp' !! l = Some skill) /\
  _skill_dirs m' = _skill_dirs m /\
  _validate_on_load m' = _validate_on_load m /\
  _active_skill m' = _active_skill m.
Proof.
  destruct (discover_result h hp m) as (hp1 & sk & -> & _ & _ & [ext ->] & _ & _).
  repeat split; eauto.
  intros l skill Hl. now apply lookup_app_l_Some.
Qed.

(** X10. A configured directory that does not exist, or is not a
    directory, contributes nothing: the pass gives the names and the heap
    it gives without that entry in the configuration. *)
Theorem discover_skips_missing_root
    (h : Host) (hp : Heap) (pre post : list string) (bad : string) (v : bool) :
  path_exists h bad && is_dir h bad = false ->
  (discover h hp (new_manager (pre ++ bad :: post) v)).1 =
  (discover h hp (new_manager (pre ++ post) v)).1 /\
  _skills (discover h hp (new_manager (pre ++ bad :: post) v)).2 =
  _skills (discover h hp (new_manager (pre ++ post) v)).2.
Proof.
  intros Hbad. rewrite !discover_unfold.
  assert (Hs : scanned h (new_manager (pre ++ bad :: post) v) =
               scanned h (new_manager (pre ++ post) v)).
  { unfold scanned. cbn [_skill_dirs new_manager].
    rewrite !filter_app, filter_cons.
    case_decide; [congruence | reflexivity]. }
  cbn [_validate_on_load new_manager]. rewrite Hs.
  now destruct (foldl accept _ _) as [[hp' sk] names].
Qed.

Lemma discover_skips_missing_root_witness :
  (discover Demo.host2 [] (new_manager (["/a"] ++ "/missing" :: ["/b"]) true)).1 =
  (discover Demo.host2 [] (new_manager (["/a"] ++ ["/b"]) true)).1 /\
  _skills (discover Demo.host2 [] (new_manager (["/a"] ++ "/missing" :: ["/b"]) true)).2 =
  _skills (discover Demo.host2 [] (new_manager (["/a"] ++ ["/b"]) true)).2.
Proof.
  apply (discover_skips_missing_root Demo.host2 [] ["/a"] ["/b"] "/missing" true).
  vm_compute. reflexivity.
Defined.

(** ** Manager: more on activation *)

Section MoreActivation.

Variable h : Host.

Lemma set_active_twice (m : SkillManager) (a b : option string) :
  set_active (set_active m a) b = set_active m b.
Proof. reflexivity. Qed.

(** The three ways [activate] ends. *)
Lemma activate_cases (hp : Heap) (m : SkillManager) (nm : string) :
  (get_skill hp m nm = None /\
   activate h hp m nm = (Raise (SkillNotFoundError nm (skill_names m)), hp, m)) \/
  (exists l skill,
     get_skill hp m nm = Some (l, skill) /\ state skill = ACTIVATED /\
     activate h hp m nm = (Ok l, hp, set_active m (Some nm))) \/
  (exists l skill,
     get_skill hp m nm = Some (l, skill) /\ state skill = DISCOVERED /\
     ((exists ins, read_instructions h (path skill) = Ok ins /\
                   activate h hp m nm =
                   (Ok l, <[l := activated skill ins]> hp, set_active m (Some nm))) \/
      (exists e, read_instructions h (path skill) = Raise e /\
                 activate h hp m nm =
                 (Raise (ValidationError
                           ("Failed to load instructions for skill '" +:+ nm +:+ "': " +:+
                            exn_str e)), hp, m)))).
Proof.
  unfold activate. destruct (get_skill hp m nm) as [[l skill]|] eqn:Hg; [|auto].
  right. destruct (state skill) eqn:Hs.
  - right. exists l, skill. rewrite bool_decide_eq_false_2 by discriminate.
    split; [reflexivity|]. split; [exact Hs|].
    destruct (read_instructions h (path skill)) as [ins|e]; [left | right]; eauto.
  - left. exists l, skill. rewrite bool_decide_eq_true_2 by reflexivity. auto.
Qed.

End MoreActivation.

(** X11. Activating a name that is not a key of the dictionary raises
    SkillNotFoundError carrying the name and the list of the known names,
    and changes nothing. After a discovery that list is the list of names
    [discover] returned. *)
Theorem activate_unknown_name
    (h : Host) (hp : Heap) (m : SkillManager) (nm : string)
    (names : list string) (hp' : list LoadedSkill) (m' : SkillManager) :
  discover h hp m = (names, hp', m') ->
  nm ∉ names ->
  activate h hp' m' nm = (Raise (SkillNotFoundError nm names), hp', m').
Proof.
  intros E Hnot.
  destruct (discover_result h hp m) as (hp1 & sk & E' & _).
  rewrite E' in E. injection E as <- <- <-.
  destruct (activate_cases h hp1 (set_skills m sk) nm)
    as [[_ ->]|[(l & skill & Hg & _)|(l & skill & Hg & _)]]; [reflexivity| |];
    apply get_skill_Some in Hg as [Ha _]; exfalso; apply Hnot, assoc_is_Some;
    cbn [_skills set_skills] in Ha; eauto.
Qed.

Lemma activate_unknown_name_witness :
  activate Demo.host2 
    [{| name := "dup"; description := "first"; path := "/a/one";
        state := DISCOVERED; license := None; compatibility := None;
        allowed_tools := Some (YStr ""); metadata := YMap []; instructions := None |}]
    (set_skills (new_manager ["/a"; "/b"] true) [("dup", 0%nat)]) "pdf"
  = (Raise (SkillNotFoundError "pdf" ["dup"]),
     [{| name := "dup"; description := "first"; path := "/a/one";
         state := DISCOVERED; license := None; compatibility := None;
         allowed_tools := Some (YStr ""); metadata := YMap []; instructions := None |}],
     set_skills (new_manager ["/a"; "/b"] true) [("dup", 0%nat)]).
Proof.
  apply (activate_unknown_name Demo.host2 [] (new_manager ["/a"; "/b"] true) "pdf").
  - vm_compute. reflexivity.
  - intros H. apply list_elem_of_singleton in H. discriminate.
Defined.

(** X12. When [activate] raises, nothing has changed: the heap, the
    dictionary and the active-skill pointer are as before, and the error
    is SkillNotFoundError (unknown name) or ValidationError (the
    instructions could not be read). *)
Theorem activate_failure_changes_nothing
    (h : Host) (hp : Heap) (m : SkillManager) (nm : string)
    (e : exn) (hp' : list LoadedSkill) (m' : SkillManager) :
  activate h hp m nm = (Raise e, hp', m') ->
  hp' = hp /\ m' = m /\
  (e = SkillNotFoundError nm (skill_names m) \/ exists msg, e = ValidationError msg).
Proof.
  intros E.
  destruct (activate_cases h hp m nm)
    as [[_ H]|[(l & skill & _ & _ & H)|(l & skill & _ & _ & [(ins & _ & H)|(e' & _ & H)])]];
    rewrite H in E; try discriminate; injection E as <- <- <-; eauto.
Qed.

Lemma activate_failure_changes_nothing_witness :
  ([] : list LoadedSkill) = [] /\
  new_manager ["/a"] true = new_manager ["/a"] true /\
  (SkillNotFoundError "pdf" [] = SkillNotFoundError "pdf" (skill_names (new_manager ["/a"] true)) \/
   exists msg, SkillNotFoundError "pdf" [] = ValidationError msg).
Proof.
  apply (activate_failure_changes_nothing Demo.host2 [] (new_manager ["/a"] true) "pdf").
  reflexivity.
Defined.

(** X13. When [activate] returns, the name is bound to the object
    returned, the pointer holds the name, the object is in state ACTIVATED,
    and [get_active_skill] returns it (for a name that is not empty). An
    object that was in state DISCOVERED now carries the instructions read
    from its path, and is otherwise as before. *)
Theorem activate_success
    (h : Host) (hp : Heap) (m : SkillManager) (nm : string)
    (l : nat) (hp' : list LoadedSkill) (m' : SkillManager) :
  activate h hp m nm = (Ok l, hp', m') ->
  assoc nm (_skills m') = Some l /\
  _active_skill m' = Some nm /\
  exists skill skill' : LoadedSkill,
    hp !! l = Some skill /\ hp' !! l = Some skill' /\
    state skill' = ACTIVATED /\
    (nm <> "" -> get_active_skill hp' m' = Some (l, skill')) /\
    (state skill = ACTIVATED -> skill' = skill /\ hp' = hp) /\
    (state skill = DISCOVERED ->
     exists ins, read_instructions h (path skill) = Ok ins /\ skill' = activated skill ins).
Proof.
  intros E.
  assert (Hactive : forall skill', assoc nm (_skills m) = Some l -> hp' !! l = Some skill' ->
            nm <> "" ->
            get_active_skill hp' (set_active m (Some nm)) = Some (l, skill')).
  { intros skill' Ha Hl Hne. unfold get_active_skill, get_skill.
    cbn [_active_skill _skills set_active].
    destruct (String.eqb_spec nm ""); [contradiction|]. now rewrite Ha, Hl. }
  destruct (activate_cases h hp m nm)
    as [[_ H]|[(l0 & skill & Hg & Hs & H)|(l0 & skill & Hg & Hs & [(ins & Hr & H)|(e' & _ & H)])]];
    rewrite H in E; try discriminate; injection E as <- <- <-;
    apply get_skill_Some in Hg as [Ha Hl]; (split; [exact Ha|]); (split; [reflexivity|]).
  - exists skill, skill. repeat split; auto. rewrite Hs. discriminate.
  - assert (Hl' : <[l0 := activated skill ins]> hp !! l0 = Some (activated skill ins)).
    { apply list_lookup_insert_eq. now apply lookup_lt_Some in Hl. }
    exists skill, (activated skill ins). repeat split; auto; try congruence.
    intros _. eauto.
Qed.

Lemma activate_success_witness :
  let skill := {| name := "dup"; description := "first"; path := "/a/one";
                  state := DISCOVERED; license := None; compatibility := None;
                  allowed_tools := Some (YStr ""); metadata := YMap []; instructions := None |} in
  let m := set_skills (new_manager ["/a"; "/b"] true) [("dup", 0%nat)] in
  assoc "dup" (_skills (set_active m (Some "dup"))) = Some 0%nat /\
  _active_skill (set_active m (Some "dup")) = Some "dup" /\
  exists skill0 skill' : LoadedSkill,
    [skill] !! 0%nat = Some skill0 /\ [activated skill "# One"] !! 0%nat = Some skill' /\
    state skill' = ACTIVATED /\
    ("dup" <> "" ->
     get_active_skill [activated skill "# One"] (set_active m (Some "dup"))
     = Some (0%nat, skill')) /\
    (state skill0 = ACTIVATED -> skill' = skill0 /\ [activated skill "# One"] = [skill]) /\
    (state skill0 = DISCOVERED ->
     exists ins, read_instructions Demo.host2 (path skill0) = Ok ins /\
                 skill' = activated skill0 ins).
Proof.
  apply (activate_success Demo.host2
           [{| name := "dup"; description := "first"; path := "/a/one";
               state := DISCOVERED; license := None; compatibility := None;
               allowed_tools := Some (YStr ""); metadata := YMap []; instructions := None |}]
           (set_skills (new_manager ["/a"; "/b"] true) [("dup", 0%nat)]) "dup" 0%nat).
  vm_compute. reflexivity.
Defined.

(** X14. Activating again is a no-op that reads nothing: after
    [activate] has returned, a second [activate] of the same name, on any
    filesystem, returns the same object and leaves the heap, the
    dictionary and the pointer as the first one left them. *)
Theorem reactivate_is_noop
    (h h2 : Host) (hp : Heap) (m : SkillManager) (nm : string)
    (l : nat) (hp' : list LoadedSkill) (m' : SkillManager) :
  activate h hp m nm = (Ok l, hp', m') ->
  activate h2 hp' m' nm = (Ok l, hp', m').
Proof.
  intros E.
  assert (Hagain : forall skill', assoc nm (_skills m) = Some l -> hp' !! l = Some skill' ->
            state skill' = ACTIVATED ->
            activate h2 hp' (set_active m (Some nm)) nm =
            (Ok l, hp', set_active m (Some nm))).
  { intros skill' Ha Hl Hs. unfold activate, get_skill. cbn [_skills set_active].
    rewrite Ha, Hl, Hs. now rewrite bool_decide_eq_true_2. }
  destruct (activate_cases h hp m nm)
    as [[_ H]|[(l0 & skill & Hg & Hs & H)|(l0 & skill & Hg & Hs & [(ins & Hr & H)|(e' & _ & H)])]];
    rewrite H in E; try discriminate; injection E as <- <- <-;
    apply get_skill_Some in Hg as [Ha Hl].
  - now apply (Hagain skill).
  - apply (Hagain (activated skill ins)); auto.
    apply list_lookup_insert_eq. now apply lookup_lt_Some in Hl.
Qed.

Lemma reactivate_is_noop_witness :
  activate (Demo.host1 ∅ Demo.echo)
    [activated {| name := "dup"; description := "first"; path := "/a/one";
                  state := DISCOVERED; license := None; compatibility := None;
                  allowed_tools := Some (YStr ""); metadata := YMap []; instructions := None |} "# One"]
    (set_active (set_skills (new_manager ["/a"; "/b"] true) [("dup", 0%nat)]) (Some "dup"))
    "dup"
  = (Ok 0%nat,
     [activated {| name := "dup"; description := "first"; path := "/a/one";
                   state := DISCOVERED; license := None; compatibility := None;
                   allowed_tools := Some (YStr ""); metadata := YMap []; instructions := None |} "# One"],
     set_active (set_skills (new_manager ["/a"; "/b"] true) [("dup", 0%nat)]) (Some "dup")).
Proof.
  apply (reactivate_is_noop Demo.host2 (Demo.host1 ∅ Demo.echo)
           [{| name := "dup"; description := "first"; path := "/a/one";
               state := DISCOVERED; license := None; compatibility := None;
               allowed_tools := Some (YStr ""); metadata := YMap []; instructions := None |}]
           (set_skills (new_manager ["/a"; "/b"] true) [("dup", 0%nat)]) "dup" 0%nat).
  vm_compute. reflexivity.
Defined.

(** ** Manager: more on resource paths *)

Section MoreResourcePath.

Variables (h : Host) (hp : Heap) (m : SkillManager).

Lemma get_resource_path_typed (skill_name resource_type filename : string)
    (l : nat) (skill : LoadedSkill) :
  get_skill hp m skill_name = Some (l, skill) ->
  resource_type ∈ resource_types ->
  get_resource_path h hp m skill_name resource_type filename =
  if is_dir h (path_join (path skill) resource_type)
  then resource_in h (path_join (path skill) resource_type) skill_name resource_type filename
  else Raise (ResourceNotFoundError skill_name resource_type filename).
Proof.
  intros Hg Ht. unfold get_resource_path. rewrite Hg.
  unfold resource_types in Ht. rewrite !elem_of_cons in Ht.
  destruct Ht as [->|[->|[->|Ht]]]; [| | |inversion Ht];
    cbn [String.eqb Ascii.eqb Bool.eqb bind];
    unfold scripts_dir, references_dir, assets_dir, subdir_if_present;
    (destruct (is_dir h _); reflexivity).
Qed.

Lemma get_resource_path_untyped (skill_name resource_type filename : string)
    (l : nat) (skill : LoadedSkill) :
  get_skill hp m skill_name = Some (l, skill) ->
  resource_type ∉ resource_types ->
  exists msg,
    get_resource_path h hp m skill_name resource_type filename = Raise (ValueError msg).
Proof.
  intros Hg Ht. unfold get_resource_path. rewrite Hg.
  unfold resource_types in Ht. rewrite !elem_of_cons in Ht.
  destruct (String.eqb_spec resource_type "scripts"); [tauto|].
  destruct (String.eqb_spec resource_type "references"); [tauto|].
  destruct (String.eqb_spec resource_type "assets"); [tauto|].
  cbn [bind]. eauto.
Qed.

Lemma resource_in_cases (base_dir skill_name resource_type filename : string) :
  resource_in h base_dir skill_name resource_type filename
    = Raise (ResourceNotFoundError skill_name resource_type filename) \/
  exists p base_resolved,
    resource_in h base_dir skill_name resource_type filename = Ok p /\
    resolve h (path_join base_dir filename) = Ok p /\
    resolve h base_dir = Ok base_resolved /\
    Py.startswith p base_resolved = true /\
    path_exists h p = true.
Proof.
  unfold resource_in.
  destruct (resolve h (path_join base_dir filename)) as [p|]; cbn [bind]; [|auto].
  destruct (resolve h base_dir) as [b|]; cbn [bind]; [|auto].
  destruct (Py.startswith p b) eqn:Hp; cbn [negb]; [|auto].
  destruct (path_exists h p) eqn:He; cbn [negb]; [|auto].
  right. exists p, b. auto.
Qed.

End MoreResourcePath.

(** X15. A path [get_resource_path] returns is the resolved form of the
    file name joined to the skill's directory of that type, which exists
    as a directory; the path exists, and its text begins with the text of
    the resolved directory. The type is one of scripts, references and
    assets. *)
Theorem get_resource_path_returns
    (h : Host) (hp : Heap) (m : SkillManager)
    (skill_name resource_type filename p : string) :
  get_resource_path h hp m skill_name resource_type filename = Ok p ->
  resource_type ∈ resource_types /\
  exists (l : nat) (skill : LoadedSkill) (base_resolved : string),
    get_skill hp m skill_name = Some (l, skill) /\
    is_dir h (path_join (path skill) resource_type) = true /\
    resolve h (path_join (path_join (path skill) resource_type) filename) = Ok p /\
    resolve h (path_join (path skill) resource_type) = Ok base_resolved /\
    Py.startswith p base_resolved = true /\
    path_exists h p = true.
Proof.
  intros E.
  destruct (get_skill hp m skill_name) as [[l skill]|] eqn:Hg.
  2: { unfold get_resource_path in E. rewrite Hg in E. discriminate. }
  destruct (decide (resource_type ∈ resource_types)) as [Ht|Ht].
  2: { destruct (get_resource_path_untyped h hp m _ _ filename _ _ Hg Ht) as [msg H].
       rewrite H in E. discriminate. }
  split; [exact Ht|].
  rewrite (get_resource_path_typed h hp m _ _ _ _ _ Hg Ht) in E.
  destruct (is_dir h (path_join (path skill) resource_type)) eqn:Hd; [|discriminate].
  destruct (resource_in_cases h (path_join (path skill) resource_type)
              skill_name resource_type filename)
    as [H|(p' & b & H & Hr & Hb & Hp & He)]; rewrite H in E; [discriminate|].
  injection E as ->. exists l, skill, b. auto 10.
Qed.

Lemma get_resource_path_returns_witness :
  "scripts" ∈ resource_types /\
  exists (l : nat) (skill : LoadedSkill) (base_resolved : string),
    get_skill
      [{| name := "demo"; description := "A demo skill"; path := "/skills/demo";
          state := DISCOVERED; license := None; compatibility := None;
          allowed_tools := Some (YStr "Bash(nmap:*)"); metadata := YMap []; instructions := None |}]
      (set_skills (new_manager ["/skills"] false) [("demo", 0%nat)]) "demo"
    = Some (l, skill) /\
    is_dir (Demo.host1 ∅ Demo.echo) (path_join (path skill) "scripts") = true /\
    resolve (Demo.host1 ∅ Demo.echo)
      (path_join (path_join (path skill) "scripts") "./slow.py")
    = Ok "/skills/demo/scripts/slow.py" /\
    resolve (Demo.host1 ∅ Demo.echo) (path_join (path skill) "scripts") = Ok base_resolved /\
    Py.startswith "/skills/demo/scripts/slow.py" base_resolved = true /\
    path_exists (Demo.host1 ∅ Demo.echo) "/skills/demo/scripts/slow.py" = true.
Proof.
  apply (get_resource_path_returns (Demo.host1 ∅ Demo.echo)
           [{| name := "demo"; description := "A demo skill"; path := "/skills/demo";
               state := DISCOVERED; license := None; compatibility := None;
               allowed_tools := Some (YStr "Bash(nmap:*)"); metadata := YMap []; instructions := None |}]
           (set_skills (new_manager ["/skills"] false) [("demo", 0%nat)])
           "demo" "scripts" "./slow.py" "/skills/demo/scripts/slow.py").
  vm_compute. reflexivity.
Defined.

(** X16. The failures of [get_resource_path] on a filesystem whose
    tests answer ([is_dir()] and [exists()] raise nothing, as the host has
    them; what they raise would leave the function as it is, since both
    are called outside the [try]): an unknown skill gives
    SkillNotFoundError with the known names; a known skill with a type
    other than scripts, references and assets gives ValueError; and a
    known skill with one of these types gives one and the same
    ResourceNotFoundError, naming skill, type and file name, whether the
    directory is missing, the path cannot be resolved, the path leaves the
    directory's text, or the file does not exist. *)
Theorem get_resource_path_failures
    (h : Host) (hp : Heap) (m : SkillManager)
    (skill_name resource_type filename : string) (e : exn) :
  get_resource_path h hp m skill_name resource_type filename = Raise e ->
  (get_skill hp m skill_name = None /\
   e = SkillNotFoundError skill_name (skill_names m)) \/
  (is_Some (get_skill hp m skill_name) /\ (resource_type ∉ resource_types) /\
   exists msg, e = ValueError msg) \/
  (is_Some (get_skill hp m skill_name) /\ resource_type ∈ resource_types /\
   e = ResourceNotFoundError skill_name resource_type filename).
Proof.
  intros E.
  destruct (get_skill hp m skill_name) as [[l skill]|] eqn:Hg.
  2: { left. unfold get_resource_path in E. rewrite Hg in E.
       injection E as <-. auto. }
  right. destruct (decide (resource_type ∈ resource_types)) as [Ht|Ht].
  - right. split; [eauto|]. split; [exact Ht|].
    rewrite (get_resource_path_typed h hp m _ _ _ _ _ Hg Ht) in E.
    destruct (is_dir h (path_join (path skill) resource_type)); [|congruence].
    destruct (resource_in_cases h (path_join (path skill) resource_type)
                skill_name resource_type filename)
      as [H|(p' & b & H & _)]; rewrite H in E; congruence.
  - left. split; [eauto|]. split; [exact Ht|].
    destruct (get_resource_path_untyped h hp m _ _ filename _ _ Hg Ht) as [msg H].
    rewrite H in E. injection E as <-. eauto.
Qed.

Lemma get_resource_path_failures_witness :
  let hp := [{| name := "demo"; description := "A demo skill"; path := "/skills/demo";
                state := DISCOVERED; license := None; compatibility := None;
                allowed_tools := Some (YStr "Bash(nmap:*)"); metadata := YMap [];
                instructions := None |}] in
  let m := set_skills (new_manager ["/skills"] false) [("demo", 0%nat)] in
  (get_skill hp m "demo" = None /\
   ResourceNotFoundError "demo" "assets" "logo.png"
   = SkillNotFoundError "demo" (skill_names m)) \/
  (is_Some (get_skill hp m "demo") /\ ("assets" ∉ resource_types) /\
   exists msg, ResourceNotFoundError "demo" "assets" "logo.png" = ValueError msg) \/
  (is_Some (get_skill hp m "demo") /\ "assets" ∈ resource_types /\
   ResourceNotFoundError "demo" "assets" "logo.png"
   = ResourceNotFoundError "demo" "assets" "logo.png").
Proof.
  apply (get_resource_path_failures (Demo.host1 ∅ Demo.echo)
           [{| name := "demo"; description := "A demo skill"; path := "/skills/demo";
               state := DISCOVERED; license := None; compatibility := None;
               allowed_tools := Some (YStr "Bash(nmap:*)"); metadata := YMap []; instructions := None |}]
           (set_skills (new_manager ["/skills"] false) [("demo", 0%nat)])
           "demo" "assets" "logo.png").
  vm_compute. reflexivity.
Defined.

(** ** Executor: containment, failures, the command *)

Section MoreExecutor.

Variables (h : Host) (ex : ScriptExecutor).

Lemma validate_script_path_resolved (script_path skill_dir sr kr : string) :
  resolve h script_path = Ok sr ->
  resolve h skill_dir = Ok kr ->
  _validate_script_path h script_path skill_dir =
  if path_within sr kr then Ok tt
  else Raise (SecurityError ("Script path '" +:+ script_path +:+ "' is outside skill directory")).
Proof.
  intros Hs Hk. unfold _validate_script_path, path_within. rewrite Hs, Hk. cbn [bind].
  destruct (Py.startswith sr (kr +:+ "/")), (String.eqb sr kr); reflexivity.
Qed.

Lemma get_interpreter_cases (script_path : string) :
  (exists i, _get_interpreter h ex script_path = Ok i /\ i ∈ allowed_interpreters ex) \/
  (exists msg, _get_interpreter h ex script_path = Raise (SecurityError msg)).
Proof.
  unfold _get_interpreter.
  destruct (detect_interpreter h script_path) as [i|]; [|eauto].
  destruct (bool_decide (normalize_interpreter i ∈ allowed_interpreters ex)) eqn:Hb;
    cbn [negb]; [|eauto].
  apply bool_decide_eq_true in Hb. eauto.
Qed.

(** [run] from the point where the checks have passed. *)
Lemma run_checked (script_path : string) (arguments : list string) (working_dir : string)
    (tmo : option Z) (interpreter : string) :
  _validate_script_path h script_path working_dir = Ok tt ->
  _get_interpreter h ex script_path = Ok interpreter ->
  path_exists h script_path = true ->
  is_file h script_path = true ->
  run h ex script_path arguments working_dir tmo =
  collect script_path (Py.int_or tmo (timeout ex))
    (subprocess_run h
       (mkSpawn (_build_command h ex interpreter script_path arguments working_dir)
          (Some working_dir) (Some (_get_restricted_env h working_dir))
          (Py.int_or tmo (timeout ex)))).
Proof.
  intros Hv Hi He Hf. unfold run, collect. rewrite Hv, Hi. cbn [bind].
  rewrite He, Hf. cbn [negb]. reflexivity.
Qed.

End MoreExecutor.

(** X17. The containment check of the executor goes by whole path
    components: a script whose resolved path is the resolved working
    directory, or lies below it, passes; for any other script, a sibling
    whose name merely extends the directory's name included, [run] raises
    SecurityError and nothing is run. *)
Theorem run_contains_scripts
    (h : Host) (ex : ScriptExecutor) (script_path : string) (arguments : list string)
    (working_dir : string) (tmo : option Z) (sr kr : string) :
  resolve h script_path = Ok sr ->
  resolve h working_dir = Ok kr ->
  (path_within sr kr = true -> _validate_script_path h script_path working_dir = Ok tt) /\
  (path_within sr kr = false ->
   run h ex script_path arguments working_dir tmo =
   Raise (SecurityError ("Script path '" +:+ script_path +:+ "' is outside skill directory"))).
Proof.
  intros Hs Hk.
  pose proof (validate_script_path_resolved h _ _ _ _ Hs Hk) as Hv.
  split; intros Hw; rewrite Hw in Hv; [exact Hv|].
  unfold run. now rewrite Hv.
Qed.

Lemma run_contains_scripts_witness :
  (path_within "/skills/demo/scripts_private/token.txt" "/skills/demo/scripts" = true ->
   _validate_script_path (Demo.host1 ∅ Demo.echo)
     "/skills/demo/scripts/../scripts_private/token.txt" "/skills/demo/scripts" = Ok tt) /\
  (path_within "/skills/demo/scripts_private/token.txt" "/skills/demo/scripts" = false ->
   run (Demo.host1 ∅ Demo.echo)
     (new_executor (Demo.host1 ∅ Demo.echo) true None 30 false false)
     "/skills/demo/scripts/../scripts_private/token.txt" [] "/skills/demo/scripts" None =
   Raise (SecurityError
            ("Script path '" +:+ "/skills/demo/scripts/../scripts_private/token.txt" +:+
             "' is outside skill directory"))).
Proof.
  apply (run_contains_scripts (Demo.host1 ∅ Demo.echo)
           (new_executor (Demo.host1 ∅ Demo.echo) true None 30 false false)
           "/skills/demo/scripts/../scripts_private/token.txt" [] "/skills/demo/scripts" None
           "/skills/demo/scripts_private/token.txt" "/skills/demo/scripts").
  - reflexivity.
  - reflexivity.
Defined.

(** X18. On a filesystem whose tests answer ([exists()] and
    [is_file()] raise nothing, as the host has them; both are called
    before the [try], so what they raise would leave [run] as it is),
    [run] raises nothing but SecurityError (containment, interpreter) and
    ExecutionError (the script is missing or not a file, the interpreter
    is not found, permission is denied, or any other failure of the child,
    wrapped); the ExecutionError names the script. *)
Theorem run_failures
    (h : Host) (ex : ScriptExecutor) (script_path : string) (arguments : list string)
    (working_dir : string) (tmo : option Z) (e : exn) :
  run h ex script_path arguments working_dir tmo = Raise e ->
  (exists msg, e = SecurityError msg) \/
  (exists reason, e = ExecutionError script_path reason).
Proof.
  unfold run.
  destruct (validate_script_path_cases h script_path working_dir) as [-> | [msg ->]];
    cbn [bind]; [|intros [= <-]; eauto].
  destruct (get_interpreter_cases h ex script_path) as [(i & -> & _) | [msg ->]];
    cbn [bind]; [|intros [= <-]; eauto].
  destruct (negb (path_exists h script_path)); [intros [= <-]; eauto|].
  destruct (negb (is_file h script_path)); [intros [= <-]; eauto|].
  destruct (subprocess_run h _); try discriminate; intros [= <-]; eauto.
Qed.

Lemma run_failures_witness :
  (exists msg, ExecutionError "/skills/demo/scripts/gone.py" "Script file does not exist"
               = SecurityError msg) \/
  (exists reason, ExecutionError "/skills/demo/scripts/gone.py" "Script file does not exist"
                  = ExecutionError "/skills/demo/scripts/gone.py" reason).
Proof.
  apply (run_failures (Demo.host1 ∅ Demo.echo)
           (new_executor (Demo.host1 ∅ Demo.echo) true None 30 false false)
           "/skills/demo/scripts/gone.py" [] "/skills/demo" None).
  vm_compute. reflexivity.
Defined.

(** X19. Script execution fails open: when firejail is absent (or
    sandboxing is off), a script that passes the checks is run as the
    plain command of interpreter, script and arguments, whatever the
    network and filesystem settings ask for; [run] returns what this
    child gives. *)
Theorem run_without_firejail_is_plain
    (h : Host) (ex : ScriptExecutor) (script_path : string) (arguments : list string)
    (working_dir : string) (tmo : option Z) (interpreter : string) :
  sandbox_mode ex && _has_firejail ex = false ->
  _validate_script_path h script_path working_dir = Ok tt ->
  _get_interpreter h ex script_path = Ok interpreter ->
  path_exists h script_path = true ->
  is_file h script_path = true ->
  run h ex script_path arguments working_dir tmo =
  collect script_path (Py.int_or tmo (timeout ex))
    (subprocess_run h
       (mkSpawn (default interpreter (which h interpreter) :: script_path :: arguments)
          (Some working_dir) (Some (_get_restricted_env h working_dir))
          (Py.int_or tmo (timeout ex)))).
Proof.
  intros Hno Hv Hi He Hf.
  rewrite (run_checked h ex _ _ _ _ _ Hv Hi He Hf).
  unfold _build_command. now rewrite Hno.
Qed.

Lemma run_without_firejail_is_plain_witness :
  run (Demo.host1 ∅ Demo.echo)
    (new_executor (Demo.host1 ∅ Demo.echo) true None 30 false false)
    "/skills/demo/scripts/slow.py" ["-v"] "/skills/demo" None =
  collect "/skills/demo/scripts/slow.py" 30
    (Demo.echo
       (mkSpawn ["python3"; "/skills/demo/scripts/slow.py"; "-v"]
          (Some "/skills/demo")
          (Some (_get_restricted_env (Demo.host1 ∅ Demo.echo) "/skills/demo")) 30)).
Proof.
  apply (run_without_firejail_is_plain (Demo.host1 ∅ Demo.echo)
           (new_executor (Demo.host1 ∅ Demo.echo) true None 30 false false)
           "/skills/demo/scripts/slow.py" ["-v"] "/skills/demo" None "python3").
  - reflexivity.
  - vm_compute. reflexivity.
  - vm_compute. reflexivity.
  - vm_compute. reflexivity.
  - vm_compute. reflexivity.
Defined.

(** X20. For a script whose extension is in the table, the interpreter
    is decided by the extension alone: the file is not read, so a shebang
    line cannot override it, and any two filesystems give the same
    answer. *)
Theorem known_extension_decides
    (h1 h2 : Host) (ex : ScriptExecutor) (script_path i : string) :
  assoc (Py.lower (path_suffix script_path)) interpreter_map = Some i ->
  detect_interpreter h1 script_path = Some i /\
  _get_interpreter h1 ex script_path = _get_interpreter h2 ex script_path.
Proof.
  intros Ht.
  assert (Hd : forall h, detect_interpreter h script_path = Some i).
  { intros h. unfold detect_interpreter. rewrite Ht.
    unfold interpreter_map in Ht. cbn [assoc] in Ht.
    repeat match type of Ht with
           | (if ?b then _ else _) = _ => destruct b
           end; try discriminate; injection Ht as <-; reflexivity. }
  split; [apply Hd|]. unfold _get_interpreter. now rewrite !Hd.
Qed.

Lemma known_extension_decides_witness :
  detect_interpreter (Demo.host1 ∅ Demo.echo) "/skills/demo/scripts/tool.SH" = Some "bash" /\
  _get_interpreter (Demo.host1 ∅ Demo.echo)
    (new_executor Demo.host2 true None 30 false false) "/skills/demo/scripts/tool.SH" =
  _get_interpreter Demo.host2
    (new_executor Demo.host2 true None 30 false false) "/skills/demo/scripts/tool.SH".
Proof.
  apply (known_extension_decides (Demo.host1 ∅ Demo.echo) Demo.host2
           (new_executor Demo.host2 true None 30 false false)
           "/skills/demo/scripts/tool.SH" "bash").
  reflexivity.
Defined.

(** ** Executor: the text of [run_command] *)

Section CommandText.

Lemma append_not_empty (c : ascii) (a b : string) : String c a +:+ b <> "".
Proof. rewrite append_cons. discriminate. Qed.

Lemma append_empty_r (a b : string) : b <> "" -> a +:+ b <> "".
Proof.
  intros Hb. destruct a as [|c a]; [now rewrite append_nil|]. apply append_not_empty.
Qed.

(** A text that begins where a character begins, and not with
    whitespace, survives [lstrip] whatever stands before it. *)
Lemma lstrip_keeps_tail (p a : string) :
  a <> "" -> head_ok a -> starts_clean a -> exists q, Py.lstrip (p +:+ a) = q +:+ a.
Proof.
  intros Ha Hh Hc. induction p as [p IH] using string_length_ind.
  destruct p as [|c p'].
  - exists "". rewrite !append_nil. now apply lstrip_fixed.
  - destruct (Py.space_len (String c p')) as [|k] eqn:E.
    + exists (String c p'). apply lstrip_fixed. unfold head_ok.
      now apply space_len_app_0.
    + rewrite lstrip_eq, (space_len_app _ _ _ E).
      rewrite drop_app_le by (rewrite <- E; apply space_len_le).
      apply IH. now apply drop_shorter.
Qed.

(** A whitespace character of more than one byte ends with a
    continuation byte. *)
Lemma space_len_last (y : string) (c : ascii) :
  Py.space_len (y +:+ String c "") = String.length (y +:+ String c "") ->
  Py.is_space c = true \/ cont c = true.
Proof.
  destruct y as [|d1 [|d2 [|d3 y]]]; rewrite ?append_cons, ?append_nil;
    cbn [Py.space_len String.length].
  - destruct (Py.is_space c); [now left | discriminate].
  - destruct (Py.is_space d1); [discriminate|].
    destruct (Py.is_space2 d1 c) eqn:E; [|discriminate].
    right. now apply is_space2_cont in E.
  - destruct (Py.is_space d1); [discriminate|].
    destruct (Py.is_space2 d1 d2); [discriminate|].
    destruct (Py.is_space3 d1 d2 c) eqn:E; [|discriminate].
    right. now apply is_space3_cont in E.
  - rewrite length_append. cbn [String.length].
    repeat match goal with |- context [if ?b then _ else _] => destruct b end; lia.
Qed.

(** A text that ends with a character of one byte that is not
    whitespace survives [rstrip]. *)
Lemma rstrip_keeps_last (x : string) (c : ascii) :
  Py.is_space c = false -> cont c = false ->
  Py.rstrip (x +:+ String c "") = x +:+ String c "".
Proof.
  intros Hs Hc. induction x as [|d x IH].
  - rewrite append_nil. cbn. now rewrite Hs.
  - rewrite append_cons. cbn [Py.rstrip]. rewrite IH.
    destruct (Nat.eqb_spec (Py.space_len (String d (x +:+ String c "")))
                (String.length (String d (x +:+ String c "")))) as [E|E]; [|reflexivity].
    apply (space_len_last (String d x) c) in E. destruct E; congruence.
Qed.

Lemma rstrip_bracket (x : string) : Py.rstrip (x +:+ "]") = x +:+ "]".
Proof. now apply rstrip_keeps_last. Qed.

(** The note on the exit code survives [strip]. *)
Lemma strip_keeps_exit_code (p n : string) :
  exists q, Py.strip (p +:+ "[Exit code: " +:+ n +:+ "]") = q +:+ "[Exit code: " +:+ n +:+ "]".
Proof.
  unfold Py.strip.
  destruct (lstrip_keeps_tail p ("[Exit code: " +:+ n +:+ "]")) as [q ->];
    [discriminate | reflexivity | reflexivity |].
  exists q.
  rewrite <- (append_assoc "[Exit code: " n "]"), <- (append_assoc q).
  apply rstrip_bracket.
Qed.

End CommandText.

(** X21. [run_command] never returns the empty text, and starts at most
    one child: a refusal, an error and a timeout are texts of their own,
    and output that is empty or only whitespace is reported as
    [(no output)]. *)
Theorem run_command_text_not_empty
    (h : Host) (ex : ScriptExecutor) (command : string) (tmo : option Z) :
  (run_command h ex command tmo).1 <> "" /\
  (length (run_command h ex command tmo).2 <= 1)%nat.
Proof.
  unfold run_command.
  set (child := mkSpawn _ None None _).
  assert (Hexec :
    (match subprocess_run h child with
     | Completed rc out err =>
         if String.eqb
              (Py.strip
                 (if rc =? 0
                  then (if String.eqb err "" then out else out +:+ nl +:+ err)
                  else (if String.eqb err "" then out else out +:+ nl +:+ err) +:+ nl +:+
                       "[Exit code: " +:+ Py.str_of_int rc +:+ "]")) ""
         then "(no output)"
         else Py.strip
                (if rc =? 0
                 then (if String.eqb err "" then out else out +:+ nl +:+ err)
                 else (if String.eqb err "" then out else out +:+ nl +:+ err) +:+ nl +:+
                      "[Exit code: " +:+ Py.str_of_int rc +:+ "]")
     | TimeoutExpired =>
         "Error: Command timed out after " +:+
         Py.str_of_int (Py.int_or tmo (timeout ex)) +:+ " seconds"
     | FileNotFound e | PermissionDenied e | OtherFailure e => "Error: " +:+ e
     end) <> "").
  { destruct (subprocess_run h child) as [rc out err| | | |];
      try apply append_not_empty.
    match goal with |- (if String.eqb ?s "" then _ else _) <> _ =>
      destruct (String.eqb_spec s ""); [discriminate | assumption] end. }
  destruct (sandbox_mode ex); [|split; [exact Hexec | cbn; lia]].
  destruct (negb (allow_network ex) && negb (_has_firejail ex));
    [split; [discriminate | cbn; lia]|].
  destruct (negb (allow_filesystem_write ex) && negb (_has_firejail ex));
    [split; [discriminate | cbn; lia]|].
  split; [exact Hexec | cbn; lia].
Qed.

(** X22. When the child of [run_command] ends with a return code other
    than zero, the text returned ends with the note [[Exit code: N]]:
    a failure is never reported as plain output or as [(no output)]. *)
Theorem run_command_reports_exit_code
    (h : Host) (ex : ScriptExecutor) (command : string) (tmo : option Z)
    (child : Spawn) (rc : Z) (out err : string) :
  (run_command h ex command tmo).2 = [child] ->
  subprocess_run h child = Completed rc out err ->
  rc <> 0 ->
  exists q, (run_command h ex command tmo).1 =
            q +:+ "[Exit code: " +:+ Py.str_of_int rc +:+ "]".
Proof.
  intros Hc Hp Hrc. revert Hc. unfold run_command.
  set (c := mkSpawn _ None None _).
  assert (Hexec : [c] = [child] ->
    exists q,
      (match subprocess_run h c with
       | Completed rc out err =>
           if String.eqb
                (Py.strip
                   (if rc =? 0
                    then (if String.eqb err "" then out else out +:+ nl +:+ err)
                    else (if String.eqb err "" then out else out +:+ nl +:+ err) +:+ nl +:+
                         "[Exit code: " +:+ Py.str_of_int rc +:+ "]")) ""
           then "(no output)"
           else Py.strip
                  (if rc =? 0
                   then (if String.eqb err "" then out else out +:+ nl +:+ err)
                   else (if String.eqb err "" then out else out +:+ nl +:+ err) +:+ nl +:+
                        "[Exit code: " +:+ Py.str_of_int rc +:+ "]")
       | TimeoutExpired =>
           "Error: Command timed out after " +:+
           Py.str_of_int (Py.int_or tmo (timeout ex)) +:+ " seconds"
       | FileNotFound e | PermissionDenied e | OtherFailure e => "Error: " +:+ e
       end) = q +:+ "[Exit code: " +:+ Py.str_of_int rc +:+ "]").
  { intros [= ->]. rewrite Hp.
    destruct (Z.eqb_spec rc 0) as [|_]; [contradiction|].
    set (body := if String.eqb err "" then out else out +:+ nl +:+ err).
    destruct (strip_keeps_exit_code (body +:+ nl) (Py.str_of_int rc)) as [q Hq].
    rewrite append_assoc in Hq. rewrite Hq. exists q.
    destruct (String.eqb_spec (q +:+ "[Exit code: " +:+ Py.str_of_int rc +:+ "]") "")
      as [E|_]; [|reflexivity].
    exfalso. revert E. apply append_empty_r. discriminate. }
  destruct (sandbox_mode ex); [|exact Hexec].
  destruct (negb (allow_network ex) && negb (_has_firejail ex)); [discriminate|].
  destruct (negb (allow_filesystem_write ex) && negb (_has_firejail ex)); [discriminate|].
  exact Hexec.
Qed.

Lemma run_command_reports_exit_code_witness :
  exists q,
    (run_command (Demo.host1 ∅ fails)
       (new_executor (Demo.host1 ∅ fails) false None 30 false false) "false" None).1 =
    q +:+ "[Exit code: " +:+ Py.str_of_int 2 +:+ "]".
Proof.
  apply (run_command_reports_exit_code (Demo.host1 ∅ fails)
           (new_executor (Demo.host1 ∅ fails) false None 30 false false) "false" None
           (mkSpawn ["bash"; "-c"; "false"] None None 30) 2 "" "boom").
  - reflexivity.
  - reflexivity.
  - discriminate.
Defined.

(** ** The bash tool: more on the gate and the pattern *)

Section MoreBash.

Lemma contains_occurrence (sub a r : string) : Py.contains sub (a +:+ sub +:+ r) = true.
Proof.
  induction a as [|c a IH].
  - rewrite append_nil. destruct (sub +:+ r) eqn:E; cbn [Py.contains];
      rewrite <- E, prefix_append; reflexivity.
  - rewrite append_cons. cbn [Py.contains]. rewrite IH. apply orb_true_r.
Qed.

Lemma assoc_elem {V : Type} (k : string) (v : V) (kvs : list (string * V)) :
  assoc k kvs = Some v -> (k, v) ∈ kvs.
Proof.
  induction kvs as [|[k' v'] kvs IH]; [discriminate|].
  cbn [assoc]. destruct (String.eqb_spec k k') as [->|_].
  - intros [= ->]. apply elem_of_cons. now left.
  - intros H. apply elem_of_cons. right. auto.
Qed.

Lemma findall_go_skip_app (a rest : string) :
  findall_go (String.length a) (a +:+ rest) = findall_go 0 rest.
Proof.
  induction a as [|c a IH]; [reflexivity|].
  rewrite append_cons. cbn [String.length findall_go]. exact IH.
Qed.

(** A declaration at the head of a text is found, and the search goes
    on after it. *)
Lemma findall_go_declaration (p rest : string) :
  p <> "" -> Py.contains ":" p = false ->
  findall_go 0 (bash_declaration p +:+ rest) = p :: findall_go 0 rest.
Proof.
  intros Hne Hp. unfold bash_declaration.
  rewrite !append_assoc.
  pose proof (bash_pattern_match_complete p rest Hne Hp) as Hm.
  change ("Bash(" +:+ p +:+ ":*)" +:+ rest)
    with (String "B" ("ash(" +:+ p +:+ ":*)" +:+ rest)) in *.
  cbn [findall_go]. rewrite Hm. f_equal.
  replace (String.length p + 7)%nat with (String.length ("ash(" +:+ p +:+ ":*)")).
  - assert (Hre : "ash(" +:+ p +:+ ":*)" +:+ rest = ("ash(" +:+ p +:+ ":*)") +:+ rest)
      by now rewrite !append_assoc.
    rewrite Hre. apply findall_go_skip_app.
  - rewrite !length_append. cbn [String.length]. lia.
Qed.

Lemma findall_go_space (s : string) :
  findall_go 0 (String " " s) = findall_go 0 s.
Proof. reflexivity. Qed.

End MoreBash.

(** X23. Ad-hoc commands stay fail-closed behind the bash tool: with
    sandboxing on, firejail absent and a restriction asked for, the tool
    starts no process, whatever the command and whatever skill is
    active. *)
Theorem bash_fails_closed
    (h : Host) (ex : ScriptExecutor) (hp : Heap) (m : SkillManager) (command : string) :
  sandbox_mode ex = true ->
  _has_firejail ex = false ->
  allow_network ex = false \/ allow_filesystem_write ex = false ->
  (bash h ex hp m command).2 = [].
Proof.
  intros Hs Hf Hr.
  assert (Hrun : (run_command h ex command None).2 = []).
  { unfold run_command. rewrite Hs, Hf.
    destruct (allow_network ex), (allow_filesystem_write ex), Hr;
      try discriminate; reflexivity. }
  unfold bash.
  destruct (get_active_skill hp m) as [[l skill]|]; [|reflexivity].
  destruct (allowed_tools skill) as [v|]; [|reflexivity].
  destruct (negb (truthy v)); [reflexivity|].
  destruct v as [tools|kvs|items]; try reflexivity.
  destruct (bash_pattern_findall tools); [reflexivity|].
  destruct (Py.split (Py.strip command)); [reflexivity|].
  destruct (negb (bool_decide _)); [reflexivity|].
  destruct (run_command h ex command None). exact Hrun.
Qed.

Lemma bash_fails_closed_witness :
  (bash (Demo.host1 ∅ Demo.echo)
     (new_executor (Demo.host1 ∅ Demo.echo) true None 30 true false)
     [activated
        {| name := "demo"; description := "A demo skill"; path := "/skills/demo";
           state := DISCOVERED; license := None; compatibility := None;
           allowed_tools := Some (YStr "Bash(nmap:*)"); metadata := YMap []; instructions := None |}
        "# Demo"]
     (set_active (set_skills (new_manager ["/skills"] false) [("demo", 0%nat)]) (Some "demo"))
     "nmap -sV target").2 = [].
Proof.
  apply (bash_fails_closed (Demo.host1 ∅ Demo.echo)
           (new_executor (Demo.host1 ∅ Demo.echo) true None 30 true false)).
  - reflexivity.
  - reflexivity.
  - right. reflexivity.
Defined.

(** X24. The bash tool exists whenever it would accept a command: if
    the active skill permits a command, then some skill of the dictionary
    mentions [Bash(] in its allowed-tools, which is the condition under
    which [_create_bash_tool] builds the tool. *)
Theorem bash_permitted_tool_exists
    (hp : Heap) (m : SkillManager) (command : string) :
  bash_permitted hp m command ->
  _any_skill_needs_bash hp m = true.
Proof.
  intros (l & skill & tools & tok & rest & Ha & Ht & Hne & _ & Hin).
  destruct (findall_go_sound tools 0%nat tok Hin) as (_ & _ & a & r & Htools).
  unfold get_active_skill in Ha.
  destruct (_active_skill m) as [nm|]; [|discriminate].
  destruct (String.eqb nm ""); [discriminate|].
  apply get_skill_Some in Ha as [Hassoc Hl].
  unfold _any_skill_needs_bash. apply existsb_exists.
  exists (nm, l). split; [apply list_elem_of_In, assoc_elem, Hassoc|].
  cbn [snd]. rewrite Hl, Ht. apply andb_true_iff. split.
  - rewrite Htools. destruct a; reflexivity.
  - cbn [py_in]. rewrite Htools. apply contains_occurrence.
Qed.

Lemma bash_permitted_tool_exists_witness :
  _any_skill_needs_bash
    [activated
       {| name := "demo"; description := "A demo skill"; path := "/skills/demo";
          state := DISCOVERED; license := None; compatibility := None;
          allowed_tools := Some (YStr "Bash(nmap:*)"); metadata := YMap []; instructions := None |}
       "# Demo"]
    (set_active (set_skills (new_manager ["/skills"] false) [("demo", 0%nat)]) (Some "demo"))
  = true.
Proof.
  apply (bash_permitted_tool_exists _ _ "nmap -sV target").
  exists 0%nat, (activated
       {| name := "demo"; description := "A demo skill"; path := "/skills/demo";
          state := DISCOVERED; license := None; compatibility := None;
          allowed_tools := Some (YStr "Bash(nmap:*)"); metadata := YMap []; instructions := None |}
       "# Demo"), "Bash(nmap:*)", "nmap", ["-sV"; "target"].
  repeat split; try reflexivity.
  - discriminate.
  - vm_compute. apply elem_of_cons. now left.
Defined.

(** X25. Every prefix the pattern extracts from an allowed-tools text is
    declared in it: the text holds [Bash(], the prefix, a colon, a star
    and a closing parenthesis in a row, and the prefix is not empty and
    holds no colon. *)
Theorem bash_pattern_findall_sound (tools g : string) :
  g ∈ bash_pattern_findall tools ->
  g <> "" /\ Py.contains ":" g = false /\
  exists a r, tools = a +:+ bash_declaration g +:+ r.
Proof.
  intros Hin. unfold bash_pattern_findall in Hin.
  destruct (findall_go_sound tools 0%nat g Hin) as (Hne & Hg & a & r & ->).
  repeat split; auto. exists a, r. unfold bash_declaration.
  now rewrite !append_assoc.
Qed.

Lemma bash_pattern_findall_sound_witness :
  "nikto" <> "" /\ Py.contains ":" "nikto" = false /\
  exists a r, "Read Bash(nmap:*) Bash(nikto:*)" = a +:+ bash_declaration "nikto" +:+ r.
Proof.
  apply (bash_pattern_findall_sound "Read Bash(nmap:*) Bash(nikto:*)" "nikto").
  vm_compute. apply elem_of_cons. right. apply elem_of_cons. now left.
Defined.

(** X26. Declarations are read back: from allowed-tools written as the
    declarations of some prefixes separated by spaces, each prefix not
    empty and without a colon, the pattern extracts exactly these
    prefixes, in order. *)
Theorem bash_pattern_findall_declarations (ps : list string) :
  (forall p, p ∈ ps -> p <> "" /\ Py.contains ":" p = false) ->
  bash_pattern_findall (Py.join " " (bash_declaration <$> ps)) = ps.
Proof.
  unfold bash_pattern_findall, Py.join.
  induction ps as [|p ps IH]; intros Hok; [reflexivity|].
  destruct (Hok p) as [Hne Hp]; [apply elem_of_cons; now left|].
  assert (Hrest : forall q, q ∈ ps -> q <> "" /\ Py.contains ":" q = false).
  { intros q Hq. apply Hok. apply elem_of_cons. now right. }
  specialize (IH Hrest).
  destruct ps as [|p2 ps].
  - cbn [fmap list_fmap String.concat].
    rewrite <- (append_nil_r (bash_declaration p)).
    now rewrite findall_go_declaration.
  - change (String.concat " " (bash_declaration <$> p :: p2 :: ps))
      with (bash_declaration p +:+ String " " (String.concat " " (bash_declaration <$> p2 :: ps))).
    rewrite findall_go_declaration by assumption.
    now rewrite findall_go_space, IH.
Qed.

Lemma bash_pattern_findall_declarations_witness :
  bash_pattern_findall (Py.join " " (bash_declaration <$> ["nmap"; "nikto"; "curl"]))
  = ["nmap"; "nikto"; "curl"].
Proof.
  apply (bash_pattern_findall_declarations ["nmap"; "nikto"; "curl"]).
  intros p Hp. rewrite !elem_of_cons in Hp.
  destruct Hp as [->|[->|[->|Hp]]]; [| | |inversion Hp]; split; (discriminate || reflexivity).
Defined.

(** ** Listings and the script tool *)

Section Listing.

Lemma assoc_nodup {V : Type} (k : string) (v : V) (kvs : list (string * V)) :
  NoDup kvs.*1 -> (k, v) ∈ kvs -> assoc k kvs = Some v.
Proof.
  induction kvs as [|[k' v'] kvs IH]; [intros _ H; inversion H|].
  cbn [fmap list_fmap fst]. intros Hnd Hin.
  apply NoDup_cons in Hnd as [Hnot Hnd]. cbn [assoc].
  apply elem_of_cons in Hin as [[= <- <-]|Hin]; [now rewrite String.eqb_refl|].
  destruct (String.eqb_spec k k') as [->|_]; [|auto].
  exfalso. apply Hnot. apply list_elem_of_fmap. now exists (k', v).
Qed.

(** When every entry of a dictionary leads to an object named like its
    key, the names of the objects listed are the keys. *)
Lemma list_skills_names (hp : Heap) (kvs : list (string * nat)) :
  (forall k l, (k, l) ∈ kvs -> exists s, hp !! l = Some s /\ name s = k) ->
  name <$> omap (fun e : string * nat => hp !! e.2) kvs = kvs.*1.
Proof.
  induction kvs as [|[k l] kvs IH]; intros H; [reflexivity|].
  cbn [omap list_omap fmap list_fmap fst snd].
  destruct (H k l) as (s & -> & Hn); [apply elem_of_cons; now left|].
  cbn [fmap list_fmap]. rewrite Hn. f_equal. apply IH.
  intros k' l' Hin. apply H. apply elem_of_cons. now right.
Qed.

End Listing.

(** The entries of the dictionary [discover] builds. *)
Lemma discover_entries (h : Host) (hp : Heap) (m : SkillManager) :
  exists (hp' : list LoadedSkill) (skills : list (string * nat)),
    discover h hp m = (skills.*1, hp', set_skills m skills) /\
    (forall k l, (k, l) ∈ skills ->
       exists s, hp' !! l = Some s /\ name s = k /\
                 state s = DISCOVERED /\ instructions s = None) /\
    (forall k, k ∈ skills.*1 ->
       exists l s, assoc k skills = Some l /\ hp' !! l = Some s /\ state s = DISCOVERED).
Proof.
  destruct (discover_result h hp m) as (hp' & skills & E & _ & Hnd & _ & Hb & Hl).
  exists hp', skills. split; [exact E|].
  assert (Hassoc : forall k l, assoc k skills = Some l ->
            exists s, hp' !! l = Some s /\ name s = k /\
                      state s = DISCOVERED /\ instructions s = None).
  { intros k l Ha.
    destruct (Hb _ _ Ha) as [_ Hlt]. apply lookup_lt_is_Some_2 in Hlt as [s Hs].
    pose proof (Hl k) as Hf. rewrite Ha in Hf. cbn in Hf. rewrite Hs in Hf.
    symmetry in Hf. apply first_named_name in Hf as [Hname Hmem].
    apply list_elem_of_omap in Hmem as (c & _ & Hc).
    apply loadable_discovered in Hc as (Hst & Hins & _). eauto 6. }
  split.
  - intros k l Hin. apply Hassoc. now apply assoc_nodup.
  - intros k Hin. apply assoc_is_Some in Hin as [l Ha].
    destruct (Hassoc _ _ Ha) as (s & Hs & _ & Hst & _). eauto.
Qed.

(** X27. After [discover], [list_skills()] lists one skill for each name
    returned, in the same order, each in state DISCOVERED and without
    instructions. *)
Theorem discover_list_skills (h : Host) (hp : Heap) (m : SkillManager) :
  let '(names, hp', m') := discover h hp m in
  name <$> list_skills hp' m' = names /\
  forall s, s ∈ list_skills hp' m' -> state s = DISCOVERED /\ instructions s = None.
Proof.
  destruct (discover_entries h hp m) as (hp' & skills & -> & Hentry & _).
  unfold list_skills. cbn [_skills set_skills]. split.
  - apply list_skills_names. intros k l Hin.
    destruct (Hentry k l Hin) as (s & Hs & Hn & _). eauto.
  - intros s Hin. apply list_elem_of_omap in Hin as ([k l] & Hin & Hs). cbn [snd] in Hs.
    destruct (Hentry k l Hin) as (s' & Hs' & _ & Hst & Hins).
    rewrite Hs' in Hs. injection Hs as <-. auto.
Qed.

Section ScriptTool.

Variables (h : Host) (ex : ScriptExecutor) (hp : Heap) (m : SkillManager).

(** Looking for a script of a known skill ends with a path or with
    ResourceNotFoundError. *)
Lemma get_script_path_cases (skill_name script_name : string) (l : nat) (skill : LoadedSkill) :
  get_skill hp m skill_name = Some (l, skill) ->
  (exists p, get_resource_path h hp m skill_name "scripts" script_name = Ok p) \/
  get_resource_path h hp m skill_name "scripts" script_name
    = Raise (ResourceNotFoundError skill_name "scripts" script_name).
Proof.
  intros Hg.
  rewrite (get_resource_path_typed h hp m skill_name "scripts" script_name l skill Hg)
    by (apply elem_of_cons; now left).
  destruct (is_dir h (path_join (path skill) "scripts")); [|auto].
  destruct (resource_in_cases h (path_join (path skill) "scripts")
              skill_name "scripts" script_name) as [->|(p & b & -> & _)]; eauto.
Qed.

End ScriptTool.

(** X28. The tool [run_skill_script] lets no exception of
    [get_resource_path], [list_scripts] or [run] escape: whatever the
    skill name, the script name, the arguments, the filesystem and the
    child, it returns a text. (The tests [exists], [is_dir], [is_file] and
    the listing [iterdir] are total on the host.) *)
Theorem run_skill_script_returns
    (h : Host) (ex : ScriptExecutor) (hp : Heap) (m : SkillManager)
    (skill_name script_name arguments : string) :
  exists text : string,
    run_skill_script h ex hp m skill_name script_name arguments = Ok text.
Proof.
  unfold run_skill_script.
  destruct (get_skill hp m skill_name) as [[l skill]|] eqn:Hg; [|eauto].
  destruct (negb (bool_decide (state skill = ACTIVATED))); [eauto|].
  destruct (get_script_path_cases h hp m skill_name script_name l skill Hg) as [[p ->]| ->].
  - destruct (run h ex p _ (path skill) None) as [r|[]]; eauto.
  - unfold list_scripts. rewrite Hg. cbn [bind]. eauto.
Qed.

(** X29. Right after a discovery the tool runs nothing: for every skill
    name, script and arguments, on any filesystem, it answers that the
    skill is not found (a name that was not returned) or that it must be
    activated first (a name that was). *)
Theorem run_skill_script_needs_activation
    (h h2 : Host) (ex : ScriptExecutor) (hp : Heap) (m : SkillManager)
    (skill_name script_name arguments : string) :
  let '(names, hp', m') := discover h hp m in
  run_skill_script h2 ex hp' m' skill_name script_name arguments =
  Ok (if bool_decide (skill_name ∈ names)
      then "Error: Skill '" +:+ skill_name +:+
           "' must be activated before running scripts. Use `activate_skill('" +:+
           skill_name +:+ "')` first."
      else "Error: Skill '" +:+ skill_name +:+ "' not found. Available skills: " +:+
           join_or_none names).
Proof.
  destruct (discover_entries h hp m) as (hp' & skills & -> & Hentry & Hkeys).
  unfold run_skill_script.
  destruct (decide (skill_name ∈ skills.*1)) as [Hin|Hnot].
  - rewrite (bool_decide_eq_true_2 _ Hin).
    destruct (Hkeys _ Hin) as (l & s & Ha & Hs & Hst).
    unfold get_skill. cbn [_skills set_skills]. now rewrite Ha, Hs, Hst.
  - rewrite (bool_decide_eq_false_2 _ Hnot).
    unfold get_skill. cbn [_skills set_skills].
    destruct (assoc skill_name skills) as [l|] eqn:Ha.
    { exfalso. apply Hnot, assoc_is_Some. eauto. }
    unfold list_skills. cbn [_skills set_skills].
    rewrite list_skills_names; [reflexivity|].
    intros k l Hk. destruct (Hentry k l Hk) as (s & Hs & Hn & _). eauto.
Qed.

(** ** The prompt block *)

Section PromptBlock.

(** Escaped text opens no tag. *)
Lemma tags_go_escape (x : string) :
  forall rest, tags_go None (html_escape x +:+ rest) = tags_go None rest.
Proof.
  induction x as [|c x IH]; intros rest; [reflexivity|].
  cbn [html_escape]. rewrite append_assoc. unfold escape_char.
  destruct (Ascii.eqb c "&"); [exact (IH rest)|].
  destruct (Ascii.eqb c "<") eqn:Hlt; [exact (IH rest)|].
  destruct (Ascii.eqb c ">"); [exact (IH rest)|].
  destruct (Ascii.eqb c "034"); [exact (IH rest)|].
  destruct (Ascii.eqb c "'"); [exact (IH rest)|].
  rewrite append_cons, append_nil. cbn [tags_go]. rewrite Hlt. apply IH.
Qed.

(** A field line holds its opening and its closing tag, whatever the
    text of the field. *)
Lemma field_line_tags (tag x : string) :
  (forall y, tags_go None (("<" +:+ tag +:+ ">") +:+ y) = [tag] ++ tags_go None y) ->
  (forall y, tags_go None (("</" +:+ tag +:+ ">") +:+ y) = ["/" +:+ tag] ++ tags_go None y) ->
  line_has_tags (("<" +:+ tag +:+ ">") +:+ html_escape x +:+ ("</" +:+ tag +:+ ">"))
                [tag; "/" +:+ tag].
Proof.
  intros Hopen Hclose rest.
  rewrite append_assoc, Hopen, append_assoc, tags_go_escape, Hclose. reflexivity.
Qed.

Lemma name_line (x : string) :
  line_has_tags ("<name>" +:+ html_escape x +:+ "</name>") ["name"; "/name"].
Proof. apply (field_line_tags "name"); intros y; reflexivity. Qed.

Lemma description_line (x : string) :
  line_has_tags ("<description>" +:+ html_escape x +:+ "</description>")
                ["description"; "/description"].
Proof. apply (field_line_tags "description"); intros y; reflexivity. Qed.

Lemma compatibility_line (x : string) :
  line_has_tags ("<compatibility>" +:+ html_escape x +:+ "</compatibility>")
                ["compatibility"; "/compatibility"].
Proof. apply (field_line_tags "compatibility"); intros y; reflexivity. Qed.

(** The tags of lines joined by newlines are the tags of the lines. *)
Lemma tags_join (lines : list string) (tss : list (list string)) :
  Forall2 line_has_tags lines tss ->
  tags (Py.join nl lines) = concat tss.
Proof.
  unfold tags, Py.join. induction 1 as [|line ts lines tss Hline Hrest IH]; [reflexivity|].
  destruct lines as [|line2 lines].
  - inversion Hrest; subst. cbn [String.concat concat].
    rewrite <- (append_nil_r line), Hline. reflexivity.
  - change (String.concat nl (line :: line2 :: lines))
      with (line +:+ String "010" (String.concat nl (line2 :: lines))).
    rewrite Hline. cbn [concat tags_go]. cbn [Ascii.eqb Bool.eqb]. now rewrite IH.
Qed.

(** The lines of one skill: they hold the tags of its entry when its
    compatibility can be printed, and otherwise [html.escape] raises. *)
Lemma skill_lines_cases (skill : LoadedSkill) :
  match skill_lines skill with
  | Ok ls =>
      compatibility_is_text skill /\
      exists tss, Forall2 line_has_tags ls tss /\ concat tss = skill_tags skill
  | Raise e => (exists msg, e = AttributeError msg) /\ ~ compatibility_is_text skill
  end.
Proof.
  unfold skill_lines, skill_tags, compatibility_is_text.
  destruct (compatibility skill) as [v|]; cbn [bind].
  - destruct (truthy v) eqn:Hv; cbn [bind].
    + destruct v as [c|kvs|items]; cbn [html_escape_value bind].
      * split; [eauto|].
        exists [["skill"]; ["name"; "/name"]; ["description"; "/description"];
                ["compatibility"; "/compatibility"]; ["/skill"]].
        split; [|reflexivity].
        repeat constructor; try (intros rest; reflexivity);
          [apply name_line | apply description_line | apply compatibility_line].
      * split; [eauto|]. intros H. destruct (H eq_refl). discriminate.
      * split; [eauto|]. intros H. destruct (H eq_refl). discriminate.
    + split; [discriminate|].
      exists [["skill"]; ["name"; "/name"]; ["description"; "/description"]; ["/skill"]].
      split; [|reflexivity].
      repeat constructor; try (intros rest; reflexivity);
        [apply name_line | apply description_line].
  - split; [exact I|].
    exists [["skill"]; ["name"; "/name"]; ["description"; "/description"]; ["/skill"]].
    split; [|reflexivity].
    repeat constructor; try (intros rest; reflexivity);
      [apply name_line | apply description_line].
Qed.

Lemma foldl_lines_raise (skills : list LoadedSkill) (e : exn) :
  foldl (fun acc skill =>
           let* lines := acc in
           let* more := skill_lines skill in
           Ok (lines ++ more)) (Raise e) skills = Raise e.
Proof. induction skills as [|s skills IH]; [reflexivity | exact IH]. Qed.

(** The loop over the skills: it ends with the lines of all of them, or
    raises at the first whose compatibility cannot be printed. *)
Lemma foldl_lines_cases (skills : list LoadedSkill) :
  forall init : list string,
    match foldl (fun acc skill =>
                   let* lines := acc in
                   let* more := skill_lines skill in
                   Ok (lines ++ more)) (Ok init) skills with
    | Ok lines =>
        Forall compatibility_is_text skills /\
        exists more tss,
          lines = init ++ more /\ Forall2 line_has_tags more tss /\
          concat tss = concat (skill_tags <$> skills)
    | Raise e =>
        (exists msg, e = AttributeError msg) /\ ~ Forall compatibility_is_text skills
    end.
Proof.
  induction skills as [|s skills IH]; intros init.
  - cbn. split; [constructor|]. exists [], []. rewrite app_nil_r.
    repeat split. constructor.
  - cbn [foldl bind]. pose proof (skill_lines_cases s) as Hs.
    destruct (skill_lines s) as [ls|e]; cbn [bind].
    + destruct Hs as (Hc & ts1 & Hf1 & Hc1).
      specialize (IH (init ++ ls)).
      destruct (foldl _ (Ok (init ++ ls)) skills) as [lines|e].
      * destruct IH as (Hall & more & tss & -> & Hf & Hcs).
        split; [now constructor|].
        exists (ls ++ more), (ts1 ++ tss). rewrite app_assoc.
        split; [reflexivity|]. split; [now apply Forall2_app|].
        cbn [fmap list_fmap concat]. now rewrite concat_app, Hc1, Hcs.
      * destruct IH as (He & Hno). split; [exact He|].
        intros Hall. apply Hno. now inversion Hall.
    + rewrite foldl_lines_raise. destruct Hs as (He & Hno). split; [exact He|].
      intros Hall. apply Hno. now inversion Hall.
Qed.

End PromptBlock.

(** X30. Skill metadata cannot add markup to the prompt block. The
    block is produced exactly when the compatibility of every listed
    skill is absent, falsy or a string; then, whatever the names,
    descriptions and compatibility texts are, the tags of the block are
    the opening tag, for each listed skill the tags of its entry (with the
    compatibility pair when that field is not empty), and the closing
    tag. Otherwise [html.escape] raises AttributeError. *)
Theorem prompt_block_tags (hp : Heap) (m : SkillManager) :
  match generate_skills_prompt_block hp m with
  | Ok text =>
      Forall compatibility_is_text (list_skills hp m) /\
      tags text =
      ["available_skills"] ++ concat (skill_tags <$> list_skills hp m) ++
      ["/available_skills"]
  | Raise e =>
      (exists msg, e = AttributeError msg) /\
      ~ Forall compatibility_is_text (list_skills hp m)
  end.
Proof.
  unfold generate_skills_prompt_block.
  destruct (list_skills hp m) as [|s skills]; [split; [constructor | reflexivity]|].
  pose proof (foldl_lines_cases (s :: skills) ["<available_skills>"]) as H.
  destruct (foldl _ (Ok ["<available_skills>"]) (s :: skills)) as [lines|e];
    cbn [bind]; [|exact H].
  destruct H as (Hall & more & tss & -> & Hf & Hc). split; [exact Hall|].
  rewrite (tags_join _ ([["available_skills"]] ++ tss ++ [["/available_skills"]])).
  - rewrite !concat_app, Hc. reflexivity.
  - rewrite <- app_assoc. apply Forall2_app; [|apply Forall2_app; [exact Hf|]];
      repeat constructor; intros rest; reflexivity.
Qed.

Example prompt_block_escapes :
  let skill := {| name := "x</name><skill>"; description := "a & b";
                  path := "/s/x"; state := DISCOVERED; license := None;
                  compatibility := Some (YStr "needs <git>"); allowed_tools := None;
                  metadata := YMap []; instructions := None |} in
  generate_skills_prompt_block [skill] (set_skills (new_manager [] true) [("x", 0%nat)]) =
  Ok (Py.join nl
        ["<available_skills>"; "<skill>";
         "<name>x&lt;/name&gt;&lt;skill&gt;</name>";
         "<description>a &amp; b</description>";
         "<compatibility>needs &lt;git&gt;</compatibility>";
         "</skill>"; "</available_skills>"]).
Proof. vm_compute. reflexivity. Qed.

(** A compatibility written as a YAML sequence is kept by [read_skill]
    and stops the block. *)
Example prompt_block_nested_compatibility :
  let skill := {| name := "x"; description := "d";
                  path := "/s/x"; state := DISCOVERED; license := None;
                  compatibility := Some (YSeq [YStr "git"]); allowed_tools := None;
                  metadata := YMap []; instructions := None |} in
  generate_skills_prompt_block [skill] (set_skills (new_manager [] true) [("x", 0%nat)]) =
  Raise (AttributeError "object has no attribute 'replace'").
Proof. vm_compute. reflexivity. Qed.
